(** * Interview analysis backend: response normalisation and retry orchestration

    A shallow embedding of the analysis pipeline of the backend services:

    - [backend/services/response-parser.js]: [parseAndValidateResponse], the
      eight per-field validators, [createFallbackAnalysis],
      [validateAnalysisStructure];
    - [backend/services/validators/response-validator.js]: the class
      [ResponseValidator] used by [deepseek-enhanced.js];
    - [backend/services/demo-data/demo-analysis.js]: [generateDemoAnalysis];
    - [backend/services/deepseek-enhanced.js] and [backend/services/ai-service.js]:
      [analyzeTranscript] and [performAnalysis].

    JavaScript values are an inductive type, exceptions are a completion
    monad, and the asynchronous orchestrator runs in a state monad over the
    observable world (calls to [fetch], timers, clock readings). *)

From Stdlib Require Import String Ascii List ZArith QArith Bool Lia.
From Stdlib Require Import DecimalString.
Import ListNotations.

Local Close Scope Q_scope.
Local Open Scope string_scope.
Local Open Scope list_scope.
Set Warnings "-register-all".

(* ===================================================================== *)
(** * JavaScript values and the operations the services use              *)
(* ===================================================================== *)

Module JS.

(** Numbers.  The services only compare numbers and test them for zero, so a
    number is its exact value, or one of the two infinities ([JSON.parse]
    yields [Infinity] on overflow).  [NaN] is left out: [JSON.parse] never
    produces it and no operation below creates it.  [-0] and [0] are both
    [Fin 0]. *)
Inductive Num : Type :=
| Fin (q : Q)
| PosInf
| NegInf.

(** Strings are sequences of UTF-16 code units; a character of a Rocq
    [string] stands for one code unit below 256. *)
Inductive Value : Type :=
| JSUndefined
| JSNull
| JSBool (b : bool)
| JSNumber (n : Num)
| JSString (s : string)
| JSArray (items : list Value)
| JSObject (props : list (string * Value)).

Inductive Exception : Type :=
| TypeError
| SyntaxError
| Error (message : string).

(** Outcome of evaluating an expression or a function body. *)
Inductive Completion (A : Type) : Type :=
| Normal (a : A)
| Throw (e : Exception).

Arguments Normal {A} a.
Arguments Throw {A} e.

Definition ret {A : Type} (a : A) : Completion A := Normal a.

Definition bind {A B : Type} (c : Completion A) (k : A -> Completion B) : Completion B :=
  match c with
  | Normal a => k a
  | Throw e => Throw e
  end.

(** [try { body } catch (e) { handler }] *)
Definition try_catch {A : Type} (body : Completion A) (handler : Exception -> Completion A)
  : Completion A :=
  match body with
  | Normal a => Normal a
  | Throw e => handler e
  end.

Declare Scope js_scope.
Delimit Scope js_scope with js.
Notation "x <- c ;; k" := (bind c (fun x => k))
  (at level 61, c at next level, right associativity) : js_scope.

Local Open Scope js_scope.

(** [Array.prototype.map] with a callback that may throw. *)
Fixpoint mapM {A B : Type} (f : A -> Completion B) (l : list A) : Completion (list B) :=
  match l with
  | [] => ret []
  | x :: rest =>
      y <- f x ;;
      ys <- mapM f rest ;;
      ret (y :: ys)
  end.

(** [v.map(f)]: only arrays have the method. *)
Definition Array_map (f : Value -> Completion Value) (v : Value) : Completion Value :=
  match v with
  | JSArray items => ys <- mapM f items ;; ret (JSArray ys)
  | _ => Throw TypeError
  end.

(** ** Numbers *)

Definition num (z : Z) : Num := Fin (inject_Z z).

Definition num_ltb (a b : Num) : bool :=
  match a, b with
  | NegInf, NegInf => false
  | NegInf, _ => true
  | _, NegInf => false
  | PosInf, _ => false
  | Fin _, PosInf => true
  | Fin x, Fin y => negb (Qle_bool y x)
  end.

Definition num_leb (a b : Num) : bool := negb (num_ltb b a).

Definition num_eqb (a b : Num) : bool :=
  match a, b with
  | Fin x, Fin y => Qeq_bool x y
  | PosInf, PosInf => true
  | NegInf, NegInf => true
  | _, _ => false
  end.

(** [Math.min(a, b)] and [Math.max(a, b)] *)
Definition Math_min (a b : Num) : Num := if num_ltb b a then b else a.
Definition Math_max (a b : Num) : Num := if num_ltb a b then b else a.

(** ** Conversions and tests *)

(** [ToBoolean]: [undefined], [null], [false], [0] and the empty string are falsy. *)
Definition ToBoolean (v : Value) : bool :=
  match v with
  | JSUndefined | JSNull => false
  | JSBool b => b
  | JSNumber (Fin q) => negb (Qeq_bool q 0)
  | JSNumber _ => true
  | JSString s => negb (s =? "")
  | JSArray _ | JSObject _ => true
  end.

(** [a || b] where [b] has no effects *)
Definition or_else (a b : Value) : Value := if ToBoolean a then a else b.

Definition typeof (v : Value) : string :=
  match v with
  | JSUndefined => "undefined"
  | JSNull => "object"
  | JSBool _ => "boolean"
  | JSNumber _ => "number"
  | JSString _ => "string"
  | JSArray _ | JSObject _ => "object"
  end.

Definition Array_isArray (v : Value) : bool :=
  match v with
  | JSArray _ => true
  | _ => false
  end.

(** [SameValueZero], the comparison of [Array.prototype.includes].  Arrays and
    objects are compared by identity, and a value read from the input is never
    identical to an element of a fresh array literal. *)
Definition same_value_zero (a b : Value) : bool :=
  match a, b with
  | JSUndefined, JSUndefined => true
  | JSNull, JSNull => true
  | JSBool x, JSBool y => Bool.eqb x y
  | JSNumber x, JSNumber y => num_eqb x y
  | JSString x, JSString y => x =? y
  | _, _ => false
  end.

(** [[...].includes(x)] for an array literal of strings *)
Definition includes (literal : list string) (x : Value) : bool :=
  existsb (fun s => same_value_zero (JSString s) x) literal.

(** [v.slice(0, n)]: arrays and strings have the method, calling it on
    anything else is a [TypeError]. *)
Definition slice0 (v : Value) (n : nat) : Completion Value :=
  match v with
  | JSArray items => Normal (JSArray (firstn n items))
  | JSString s => Normal (JSString (String.substring 0 n s))
  | _ => Throw TypeError
  end.

(** ** Property access *)

Definition lookup (k : string) (props : list (string * Value)) : Value :=
  match find (fun p => fst p =? k) props with
  | Some p => snd p
  | None => JSUndefined
  end.

(** [v.k] for a data property [k].  Reading a property of [undefined] or
    [null] throws a [TypeError]; primitives, arrays and absent keys give
    [undefined].  The names read by the services are plain data names: none
    is ["length"], an index or a member of a built-in prototype. *)
Definition get (v : Value) (k : string) : Completion Value :=
  match v with
  | JSUndefined | JSNull => Throw TypeError
  | JSObject props => Normal (lookup k props)
  | _ => Normal JSUndefined
  end.

(** The value of [v?.k] as a function: what [get] returns when it returns. *)
Definition prop (v : Value) (k : string) : Value :=
  match v with
  | JSObject props => lookup k props
  | _ => JSUndefined
  end.

Definition nullish (v : Value) : bool :=
  match v with
  | JSUndefined | JSNull => true
  | _ => false
  end.

(** [v?.k] *)
Definition get_opt (v : Value) (k : string) : Completion Value :=
  match v with
  | JSUndefined | JSNull => Normal JSUndefined
  | _ => get v k
  end.

Definition decimal (n : nat) : string := NilZero.string_of_uint (Nat.to_uint n).

(** [v[i]] for a numeric index *)
Definition get_index (v : Value) (i : nat) : Completion Value :=
  match v with
  | JSUndefined | JSNull => Throw TypeError
  | JSArray items => Normal (nth i items JSUndefined)
  | JSString s =>
      Normal (match String.get i s with
              | Some c => JSString (String c "")
              | None => JSUndefined
              end)
  | JSObject props => Normal (lookup (decimal i) props)
  | _ => Normal JSUndefined
  end.

(** [v?.[i]] *)
Definition get_index_opt (v : Value) (i : nat) : Completion Value :=
  match v with
  | JSUndefined | JSNull => Normal JSUndefined
  | _ => get_index v i
  end.

(** [obj.hasOwnProperty(k)] for a data name [k].  An object with a
    property of its own called ["hasOwnProperty"] hides the method, and a
    value read from JSON cannot be called. *)
Definition hasOwnProperty (v : Value) (k : string) : Completion bool :=
  match v with
  | JSUndefined | JSNull => Throw TypeError
  | JSObject props =>
      if existsb (fun p => fst p =? "hasOwnProperty") props then Throw TypeError
      else Normal (existsb (fun p => fst p =? k) props)
  | _ => Normal false
  end.

(** ** Strings *)

(** White space and line terminators below code unit 256: TAB, LF, VT, FF,
    CR, SPACE and NO-BREAK SPACE.  This is the class [\s] of regular
    expressions and the set removed by [String.prototype.trim]. *)
Definition is_space (c : ascii) : bool :=
  let n := nat_of_ascii c in
  ((9 <=? n) && (n <=? 13))%nat || Nat.eqb n 32 || Nat.eqb n 160.

Fixpoint trimStart (s : string) : string :=
  match s with
  | EmptyString => EmptyString
  | String c rest => if is_space c then trimStart rest else s
  end.

(** [trimEnd s] keeps a character when it is not white space or when
    something that is kept follows it. *)
Fixpoint trimEnd (s : string) : string :=
  match s with
  | EmptyString => EmptyString
  | String c rest =>
      match trimEnd rest with
      | EmptyString => if is_space c then EmptyString else String c EmptyString
      | kept => String c kept
      end
  end.

Definition trim (s : string) : string := trimEnd (trimStart s).

(** [s.includes(sub)] *)
Fixpoint str_includes (sub s : string) : bool :=
  if String.prefix sub s then true
  else match s with
       | EmptyString => false
       | String _ rest => str_includes sub rest
       end.

(** [s.split(sep)] for a non-empty separator: [skip] counts the characters
    of a separator that has just been matched and is still to be passed. *)
Fixpoint split_from (sep : string) (skip : nat) (piece : string) (s : string) : list string :=
  match s with
  | EmptyString => [piece]
  | String c rest =>
      match skip with
      | S k => split_from sep k piece rest
      | O =>
          if String.prefix sep s
          then piece :: split_from sep (String.length sep - 1) "" rest
          else split_from sep 0 (piece ++ String c "") rest
      end
  end.

Definition split (sep s : string) : list string := split_from sep 0 "" s.

(** [s.split(/\s+/).length]: one more than the number of maximal runs of
    white space. *)
Fixpoint space_runs (in_run : bool) (s : string) : nat :=
  match s with
  | EmptyString => 0
  | String c rest =>
      if is_space c
      then (if in_run then 0 else 1) + space_runs true rest
      else space_runs false rest
  end.

Definition split_spaces_length (s : string) : nat := S (space_runs false s).

(** Lower case of an ASCII letter; other code units are unchanged.  Under
    the [i] flag a pattern letter matches exactly its two ASCII cases. *)
Definition lower (c : ascii) : ascii :=
  let n := nat_of_ascii c in
  if ((65 <=? n) && (n <=? 90))%nat then ascii_of_nat (n + 32) else c.

Fixpoint lower_string (s : string) : string :=
  match s with
  | EmptyString => EmptyString
  | String c rest => String (lower c) (lower_string rest)
  end.

(** [/w1|w2|.../gi.test(s)] for lower-case literal alternatives, on a regular
    expression object created by the call (so [lastIndex] is 0). *)
Definition test_any_ci (alternatives : list string) (s : string) : bool :=
  existsb (fun w => str_includes w (lower_string s)) alternatives.

End JS.

(* ===================================================================== *)
(** * A reference [JSON.parse]                                           *)
(* ===================================================================== *)

(** [JSON.parse] belongs to the host, not to the services: the services are
    parameterised by it (class [Host] below) and every general theorem holds
    for any parser.  This module is a reference implementation of the JSON
    grammar (ECMA-404), used to run the services on concrete texts.  A number
    literal denotes its exact decimal value (rounding to binary64 is not
    modelled) and a [\u] escape must name a code unit below 256. *)
Module JSON.
Import JS.

Definition code (c : ascii) : nat := nat_of_ascii c.
Definition is_code (n : nat) (c : ascii) : bool := Nat.eqb (code c) n.

(** JSON white space: TAB, LF, CR, SPACE *)
Definition is_ws (c : ascii) : bool := is_code 9 c || is_code 10 c || is_code 13 c || is_code 32 c.

Fixpoint skip_ws (s : string) : string :=
  match s with
  | String c rest => if is_ws c then skip_ws rest else s
  | EmptyString => s
  end.

Definition is_digit (c : ascii) : bool := ((48 <=? code c) && (code c <=? 57))%nat.
Definition digit (c : ascii) : Z := Z.of_nat (code c - 48).

Definition hex_digit (c : ascii) : option nat :=
  let n := code c in
  if ((48 <=? n) && (n <=? 57))%nat then Some (n - 48)
  else if ((65 <=? n) && (n <=? 70))%nat then Some (n - 55)
  else if ((97 <=? n) && (n <=? 102))%nat then Some (n - 87)
  else None.

(** Reads a maximal run of digits: the value accumulated, the number of
    digits read and the rest of the text. *)
Fixpoint digits (s : string) (acc : Z) (count : nat) : Z * nat * string :=
  match s with
  | String c rest =>
      if is_digit c then digits rest (10 * acc + digit c)%Z (S count) else (acc, count, s)
  | EmptyString => (acc, count, s)
  end.

(** [m * 10^e] *)
Definition scale (m e : Z) : Q :=
  if (0 <=? e)%Z then inject_Z (m * 10 ^ e) else Qmake m (Z.to_pos (10 ^ (- e))).

Definition parse_exponent (s : string) : option (Z * string) :=
  match s with
  | String c rest =>
      if is_code 101 c || is_code 69 c then
        let '(negative, after_sign) :=
          match rest with
          | String sg r =>
              if is_code 45 sg then (true, r)
              else if is_code 43 sg then (false, r)
              else (false, rest)
          | EmptyString => (false, rest)
          end in
        match digits after_sign 0 0 with
        | (_, O, _) => None
        | (e, _, r) => Some (if negative then (- e)%Z else e, r)
        end
      else Some (0%Z, s)
  | EmptyString => Some (0%Z, s)
  end.

Definition parse_fraction (s : string) (int_part : Z) : option (Z * nat * string) :=
  match s with
  | String c rest =>
      if is_code 46 c then
        match digits rest int_part 0 with
        | (_, O, _) => None
        | r => Some r
        end
      else Some (int_part, O, s)
  | EmptyString => Some (int_part, O, s)
  end.

(** An optional minus sign, an integer part without leading zeros, an
    optional fraction and an optional exponent. *)
Definition parse_number (s : string) : option (Value * string) :=
  let '(negative, s1) :=
    match s with
    | String c rest => if is_code 45 c then (true, rest) else (false, s)
    | EmptyString => (false, s)
    end in
  let int_part :=
    match s1 with
    | String c rest =>
        if is_code 48 c then Some (0%Z, rest)
        else if is_digit c then (let '(m, _, r) := digits s1 0 0 in Some (m, r))
        else None
    | EmptyString => None
    end in
  match int_part with
  | None => None
  | Some (m, s2) =>
      match parse_fraction s2 m with
      | None => None
      | Some (m', frac_len, s3) =>
          match parse_exponent s3 with
          | None => None
          | Some (e, s4) =>
              let q := scale m' (e - Z.of_nat frac_len) in
              Some (JSNumber (Fin (if negative then Qopp q else q)), s4)
          end
      end
  end.

Definition escape (c : ascii) : option ascii :=
  if is_code 34 c || is_code 92 c || is_code 47 c then Some c
  else if is_code 98 c then Some (ascii_of_nat 8)
  else if is_code 102 c then Some (ascii_of_nat 12)
  else if is_code 110 c then Some (ascii_of_nat 10)
  else if is_code 114 c then Some (ascii_of_nat 13)
  else if is_code 116 c then Some (ascii_of_nat 9)
  else None.

(** The characters of a string literal after its opening quote. *)
Fixpoint parse_chars (s : string) (acc : string) : option (string * string) :=
  match s with
  | EmptyString => None
  | String c rest =>
      if is_code 34 c then Some (acc, rest)
      else if is_code 92 c then
        match rest with
        | String e rest' =>
            if is_code 117 e then
              match rest' with
              | String h1 (String h2 (String h3 (String h4 rest''))) =>
                  match hex_digit h1, hex_digit h2, hex_digit h3, hex_digit h4 with
                  | Some 0, Some 0, Some c, Some d =>
                      parse_chars rest'' (acc ++ String (ascii_of_nat (16 * c + d)) "")
                  | _, _, _, _ => None
                  end
              | _ => None
              end
            else
              match escape e with
              | Some x => parse_chars rest' (acc ++ String x "")
              | None => None
              end
        | EmptyString => None
        end
      else if (code c <? 32)%nat then None
      else parse_chars rest (acc ++ String c "")
  end.

Definition parse_literal (word : string) (v : Value) (s : string) : option (Value * string) :=
  if String.prefix word s
  then Some (v, String.substring (String.length word) (String.length s - String.length word) s)
  else None.

(** A later member with the same name replaces the value of the earlier one. *)
Fixpoint set_prop (k : string) (v : Value) (props : list (string * Value)) : list (string * Value) :=
  match props with
  | [] => [(k, v)]
  | (k', v') :: rest => if k' =? k then (k, v) :: rest else (k', v') :: set_prop k v rest
  end.

Fixpoint parse_value (fuel : nat) (s : string) : option (Value * string) :=
  match fuel with
  | O => None
  | S f =>
      match skip_ws s with
      | EmptyString => None
      | String c rest =>
          if is_code 123 c then
            match skip_ws rest with
            | String c' rest' =>
                if is_code 125 c' then Some (JSObject [], rest') else parse_members f (skip_ws rest) []
            | EmptyString => None
            end
          else if is_code 91 c then
            match skip_ws rest with
            | String c' rest' =>
                if is_code 93 c' then Some (JSArray [], rest') else parse_elements f rest []
            | EmptyString => None
            end
          else if is_code 34 c then
            match parse_chars rest "" with
            | Some (str, r) => Some (JSString str, r)
            | None => None
            end
          else if is_code 116 c then parse_literal "true" (JSBool true) (String c rest)
          else if is_code 102 c then parse_literal "false" (JSBool false) (String c rest)
          else if is_code 110 c then parse_literal "null" JSNull (String c rest)
          else parse_number (String c rest)
      end
  end
with parse_elements (fuel : nat) (s : string) (acc : list Value) : option (Value * string) :=
  match fuel with
  | O => None
  | S f =>
      match parse_value f s with
      | None => None
      | Some (v, r) =>
          match skip_ws r with
          | String c rest =>
              if is_code 44 c then parse_elements f rest (acc ++ [v])
              else if is_code 93 c then Some (JSArray (acc ++ [v]), rest)
              else None
          | EmptyString => None
          end
      end
  end
with parse_members (fuel : nat) (s : string) (acc : list (string * Value)) : option (Value * string) :=
  match fuel with
  | O => None
  | S f =>
      match s with
      | String q after_quote =>
          if is_code 34 q then
            match parse_chars after_quote "" with
            | None => None
            | Some (k, r) =>
                match skip_ws r with
                | String colon r' =>
                    if is_code 58 colon then
                      match parse_value f r' with
                      | None => None
                      | Some (v, r'') =>
                          match skip_ws r'' with
                          | String c rest =>
                              if is_code 44 c then parse_members f (skip_ws rest) (set_prop k v acc)
                              else if is_code 125 c then Some (JSObject (set_prop k v acc), rest)
                              else None
                          | EmptyString => None
                          end
                      end
                    else None
                | EmptyString => None
                end
            end
          else None
      | EmptyString => None
      end
  end.

(** [JSON.parse(text)]: one value surrounded by white space, else a [SyntaxError]. *)
Definition parse (text : string) : Completion Value :=
  match parse_value (2 * String.length text + 2) text with
  | Some (v, rest) =>
      match skip_ws rest with
      | EmptyString => Normal v
      | _ => Throw SyntaxError
      end
  | None => Throw SyntaxError
  end.

(** Test texts are written with apostrophes in place of quotation marks. *)
Fixpoint quoted (s : string) : string :=
  match s with
  | EmptyString => EmptyString
  | String c rest => String (if is_code 39 c then ascii_of_nat 34 else c) (quoted rest)
  end.

End JSON.

(* ===================================================================== *)
(** * The host                                                           *)
(* ===================================================================== *)

(** Built-in functions the services call. *)
Class Platform : Type := {
  JSON_parse : string -> JS.Completion JS.Value;      (* JSON.parse(text) *)
  Date_toISOString : Z -> string                      (* new Date(ms).toISOString() *)
}.

(* ===================================================================== *)
(** * response-parser.js                                                 *)
(* ===================================================================== *)

Module ResponseParser.
Import JS.
Local Open Scope js_scope.

(** Three idioms of the validators.  [read] is [get] where the source writes
    [x.k] and [get_opt] where it writes [x?.k]. *)

(** [read(x, k) || default] *)
Definition text_field (read : Value -> string -> Completion Value)
  (x : Value) (k : string) (default : string) : Completion Value :=
  v <- read x k ;;
  ret (or_else v (JSString default)).

(** [[...allowed].includes(read(x, k)) ? x.k : default] *)
Definition enum_field (read : Value -> string -> Completion Value)
  (x : Value) (k : string) (allowed : list string) (default : string) : Completion Value :=
  v <- read x k ;;
  if includes allowed v then get x k else ret (JSString default).

(** [Array.isArray(read(x, k)) ? x.k.slice(0, n) : default] *)
Definition list_field (read : Value -> string -> Completion Value)
  (x : Value) (k : string) (n : nat) (default : Value) : Completion Value :=
  v <- read x k ;;
  if Array_isArray v then (a <- get x k ;; slice0 a n) else ret default.

(** [typeof read(x, k) === 'number' ? f(x.k) : default], where [f] is a
    function of numbers; the second read gives the same number again. *)
Definition number_field (read : Value -> string -> Completion Value)
  (x : Value) (k : string) (f : Num -> Num) (default : Num) : Completion Value :=
  v <- read x k ;;
  if typeof v =? "number" then
    (w <- get x k ;;
     match w with
     | JSNumber n => ret (JSNumber (f n))
     | _ => ret w
     end)
  else ret (JSNumber default).

(** The callback of [map] in [validateHighlights]. *)
Definition validateHighlight (h : Value) : Completion Value :=
  text <- text_field get h "text" "Analysis completed" ;;
  category <- text_field get h "category" "general" ;;
  confidence <- number_field get h "confidence" (fun n => n) (Fin (7 # 10)) ;;
  reasoning <- text_field get h "reasoning" "Identified as positive indicator" ;;
  ret (JSObject [("text", text); ("category", category);
                 ("confidence", confidence); ("reasoning", reasoning)]).

Definition validateHighlights (highlights : Value) : Completion Value :=
  if negb (Array_isArray highlights) then ret (JSArray [])
  else
    sliced <- slice0 highlights 6 ;;
    Array_map validateHighlight sliced.

(** The callback of [map] in [validateImprovements]. *)
Definition validateImprovement (i : Value) : Completion Value :=
  text <- text_field get i "text" "Area for development identified" ;;
  suggestion <- text_field get i "suggestion" "Recommend focused practice" ;;
  priority <- enum_field get i "priority" ["high"; "medium"; "low"] "medium" ;;
  category <- text_field get i "category" "general" ;;
  ret (JSObject [("text", text); ("suggestion", suggestion);
                 ("priority", priority); ("category", category)]).

Definition validateImprovements (improvements : Value) : Completion Value :=
  if negb (Array_isArray improvements) then ret (JSArray [])
  else
    sliced <- slice0 improvements 4 ;;
    Array_map validateImprovement sliced.

Definition validateTechnicalAssessment (tech : Value) : Completion Value :=
  level <- enum_field get_opt tech "level"
             ["junior"; "mid"; "senior"; "staff"; "principal"] "mid" ;;
  skills_demonstrated <- list_field get_opt tech "skills_demonstrated" 8 (JSArray []) ;;
  knowledge_gaps <- list_field get_opt tech "knowledge_gaps" 4 (JSArray []) ;;
  problem_solving_approach <-
    text_field get_opt tech "problem_solving_approach"
      "Structured problem-solving approach observed" ;;
  ret (JSObject [("level", level); ("skills_demonstrated", skills_demonstrated);
                 ("knowledge_gaps", knowledge_gaps);
                 ("problem_solving_approach", problem_solving_approach)]).

Definition validateCommunicationAnalysis (comm : Value) : Completion Value :=
  clarity <- enum_field get_opt comm "clarity" ["poor"; "fair"; "good"; "excellent"] "good" ;;
  structure <- text_field get_opt comm "structure" "Well-organized responses" ;;
  listening <- text_field get_opt comm "listening" "Good comprehension of questions" ;;
  questioning <- text_field get_opt comm "questioning" "Asked relevant follow-up questions" ;;
  ret (JSObject [("clarity", clarity); ("structure", structure);
                 ("listening", listening); ("questioning", questioning)]).

Definition validateEntities (entities : Value) : Completion Value :=
  technologies <- list_field get_opt entities "technologies" 10 (JSArray []) ;;
  companies <- list_field get_opt entities "companies" 5 (JSArray []) ;;
  projects <- list_field get_opt entities "projects" 5 (JSArray []) ;;
  methodologies <- list_field get_opt entities "methodologies" 5 (JSArray []) ;;
  ret (JSObject [("technologies", technologies); ("companies", companies);
                 ("projects", projects); ("methodologies", methodologies)]).

(** The callback of [map] in [validateInterviewFlow]. *)
Definition validateFlowSection (f : Value) : Completion Value :=
  section <- text_field get f "section" "discussion" ;;
  summary <- text_field get f "summary" "Interview section covered" ;;
  key_moments <- list_field get f "key_moments" 3 (JSArray []) ;;
  duration_estimate <- text_field get f "duration_estimate" "5-10 minutes" ;;
  ret (JSObject [("section", section); ("summary", summary);
                 ("key_moments", key_moments); ("duration_estimate", duration_estimate)]).

Definition validateInterviewFlow (flow : Value) : Completion Value :=
  if negb (Array_isArray flow) then ret (JSArray [])
  else
    sliced <- slice0 flow 8 ;;
    Array_map validateFlowSection sliced.

(** [Math.max(1, Math.min(10, c))] *)
Definition clamp_confidence (c : Num) : Num := Math_max (num 1) (Math_min (num 10) c).

Definition validateOverallRecommendation (rec : Value) : Completion Value :=
  decision <- enum_field get_opt rec "decision" ["strong_hire"; "hire"; "maybe"; "no_hire"] "maybe" ;;
  confidence <- number_field get_opt rec "confidence" clamp_confidence (num 7) ;;
  key_strengths <- list_field get_opt rec "key_strengths" 4 (JSArray [JSString "Analysis completed"]) ;;
  main_concerns <- list_field get_opt rec "main_concerns" 3 (JSArray []) ;;
  cultural_fit <- text_field get_opt rec "cultural_fit" "Positive indicators for team collaboration" ;;
  next_steps <- text_field get_opt rec "next_steps" "Recommend technical deep-dive interview" ;;
  ret (JSObject [("decision", decision); ("confidence", confidence);
                 ("key_strengths", key_strengths); ("main_concerns", main_concerns);
                 ("cultural_fit", cultural_fit); ("next_steps", next_steps)]).

Definition validateInterviewQuality (quality : Value) : Completion Value :=
  questions_effectiveness <-
    text_field get_opt quality "questions_effectiveness"
      "Standard interview questions covered relevant topics" ;;
  areas_not_explored <- list_field get_opt quality "areas_not_explored" 3 (JSArray []) ;;
  suggested_follow_ups <- list_field get_opt quality "suggested_follow_ups" 4 (JSArray []) ;;
  ret (JSObject [("questions_effectiveness", questions_effectiveness);
                 ("areas_not_explored", areas_not_explored);
                 ("suggested_follow_ups", suggested_follow_ups)]).

(** Fallback analysis when JSON parsing fails; both arguments are unused. *)
Definition createFallbackAnalysis (transcript rawResponse : string) : Value :=
  JSObject
    [("highlights", JSArray [JSObject
        [("text", JSString "AI analysis completed but response parsing failed");
         ("category", JSString "general");
         ("confidence", JSNumber (Fin (5 # 10)));
         ("reasoning", JSString "Technical issue with response format")]]);
     ("improvements", JSArray [JSObject
        [("text", JSString "Please retry the analysis");
         ("suggestion", JSString "The AI provided analysis but in an unexpected format");
         ("priority", JSString "high");
         ("category", JSString "technical")]]);
     ("technical_assessment", JSObject
        [("level", JSString "unknown");
         ("skills_demonstrated", JSArray []);
         ("knowledge_gaps", JSArray [JSString "Analysis incomplete"]);
         ("problem_solving_approach", JSString "Unable to assess due to parsing error")]);
     ("communication_analysis", JSObject
        [("clarity", JSString "unknown");
         ("structure", JSString "Unable to assess");
         ("listening", JSString "Unable to assess");
         ("questioning", JSString "Unable to assess")]);
     ("entities", JSObject
        [("technologies", JSArray []);
         ("companies", JSArray []);
         ("projects", JSArray []);
         ("methodologies", JSArray [])]);
     ("interview_flow", JSArray []);
     ("overall_recommendation", JSObject
        [("decision", JSString "maybe");
         ("confidence", JSNumber (num 5));
         ("key_strengths", JSArray [JSString "Requires manual review"]);
         ("main_concerns", JSArray [JSString "Analysis parsing failed"]);
         ("cultural_fit", JSString "Unable to assess");
         ("next_steps", JSString "Manual review recommended")]);
     ("interview_quality", JSObject
        [("questions_effectiveness", JSString "Unable to assess due to technical issue");
         ("areas_not_explored", JSArray []);
         ("suggested_follow_ups", JSArray [])])].

(** The part of [parseAndValidateResponse] after [JSON.parse]: the object
    literal [validated], its properties evaluated in source order. *)
Definition validate (parsed : Value) : Completion Value :=
  highlights <- (x <- get parsed "highlights" ;; validateHighlights x) ;;
  improvements <- (x <- get parsed "improvements" ;; validateImprovements x) ;;
  technical_assessment <-
    (x <- get parsed "technical_assessment" ;; validateTechnicalAssessment x) ;;
  communication_analysis <-
    (x <- get parsed "communication_analysis" ;; validateCommunicationAnalysis x) ;;
  entities <- (x <- get parsed "entities" ;; validateEntities x) ;;
  interview_flow <- (x <- get parsed "interview_flow" ;; validateInterviewFlow x) ;;
  overall_recommendation <-
    (x <- get parsed "overall_recommendation" ;; validateOverallRecommendation x) ;;
  interview_quality <- (x <- get parsed "interview_quality" ;; validateInterviewQuality x) ;;
  ret (JSObject [("highlights", highlights); ("improvements", improvements);
                 ("technical_assessment", technical_assessment);
                 ("communication_analysis", communication_analysis);
                 ("entities", entities); ("interview_flow", interview_flow);
                 ("overall_recommendation", overall_recommendation);
                 ("interview_quality", interview_quality)]).

(** The longest prefix that ends with a closing brace. *)
Fixpoint upto_last_brace (s : string) : option string :=
  match s with
  | EmptyString => None
  | String c rest =>
      match upto_last_brace rest with
      | Some m => Some (String c m)
      | None => if Ascii.eqb c "}"%char then Some (String c "") else None
      end
  end.

(** [responseText.match(/\{[\s\S]*\}/)]: the greedy match runs from the
    first opening brace to the last closing brace after it. *)
Fixpoint match_braces (s : string) : option string :=
  match s with
  | EmptyString => None
  | String c rest =>
      if Ascii.eqb c "{"%char
      then match upto_last_brace rest with
           | Some m => Some (String c m)
           | None => None
           end
      else match_braces rest
  end.

(** [jsonMatch ? jsonMatch[0] : responseText] *)
Definition jsonText (responseText : string) : string :=
  match match_braces responseText with
  | Some m => m
  | None => responseText
  end.

Section WithPlatform.
Context {platform : Platform}.

Definition parseAndValidateResponse (responseText originalTranscript : string)
  : Completion Value :=
  try_catch
    (parsed <- JSON_parse (jsonText responseText) ;;
     validate parsed)
    (fun parseError => ret (createFallbackAnalysis originalTranscript responseText)).

End WithPlatform.

Definition required : list string :=
  ["highlights"; "improvements"; "technical_assessment"; "communication_analysis";
   "entities"; "interview_flow"; "overall_recommendation"; "interview_quality"].

(** [required.filter(field => !analysis.hasOwnProperty(field))] *)
Fixpoint missing_fields (analysis : Value) (fields : list string) : Completion (list string) :=
  match fields with
  | [] => ret []
  | field :: rest =>
      own <- hasOwnProperty analysis field ;;
      others <- missing_fields analysis rest ;;
      ret (if negb own then field :: others else others)
  end.

Definition validateAnalysisStructure (analysis : Value) : Completion bool :=
  missing <- missing_fields analysis required ;;
  if (0 <? List.length missing)%nat then ret false else ret true.

End ResponseParser.

(* ===================================================================== *)
(** * validators/response-validator.js                                   *)
(* ===================================================================== *)

(** The class [ResponseValidator].  Its static methods [validateHighlights]
    ... [validateInterviewQuality] and [createFallbackAnalysis] have the same
    bodies as the functions of response-parser.js; only the extraction of the
    JSON text differs. *)
Module ResponseValidator.
Import JS.
Local Open Scope js_scope.

Definition validateHighlights := ResponseParser.validateHighlights.
Definition validateImprovements := ResponseParser.validateImprovements.
Definition validateTechnicalAssessment := ResponseParser.validateTechnicalAssessment.
Definition validateCommunicationAnalysis := ResponseParser.validateCommunicationAnalysis.
Definition validateEntities := ResponseParser.validateEntities.
Definition validateInterviewFlow := ResponseParser.validateInterviewFlow.
Definition validateOverallRecommendation := ResponseParser.validateOverallRecommendation.
Definition validateInterviewQuality := ResponseParser.validateInterviewQuality.
Definition createFallbackAnalysis := ResponseParser.createFallbackAnalysis.

Definition fence : string := "```".
Definition json_fence : string := "```json".

(** [list[i].m()]: indexing past the end gives [undefined], which has no method. *)
Definition item (pieces : list string) (i : nat) : Completion string :=
  match nth_error pieces i with
  | Some piece => ret piece
  | None => Throw TypeError
  end.

(** [jsonText.split(opening)[1].split('```')[0].trim()] *)
Definition fenced (opening jsonText : string) : Completion string :=
  after <- item (split opening jsonText) 1 ;;
  inside <- item (split fence after) 0 ;;
  ret (trim inside).

(** The variable [jsonText] when [JSON.parse] is reached. *)
Definition jsonText (responseText : string) : Completion string :=
  let trimmed := trim responseText in
  if str_includes json_fence trimmed then fenced json_fence trimmed
  else if str_includes fence trimmed then fenced fence trimmed
  else ret trimmed.

Section WithPlatform.
Context {platform : Platform}.

Definition parseAndValidateResponse (responseText originalTranscript : string)
  : Completion Value :=
  try_catch
    (text <- jsonText responseText ;;
     parsed <- JSON_parse text ;;
     ResponseParser.validate parsed)
    (fun parseError => ret (createFallbackAnalysis originalTranscript responseText)).

End WithPlatform.

End ResponseValidator.

(* ===================================================================== *)
(** * The asynchronous runtime                                           *)
(* ===================================================================== *)

Module Runtime.
Import JS.

(** What [await fetch(...)] gives: a rejection (connection error) or a
    response with its status line and body. *)
Record Response : Type := {
  ok : bool;          (* response.ok: the status is in 200..299 *)
  status : nat;       (* response.status *)
  body : string       (* the text of the body *)
}.

Inductive FetchResult : Type :=
| Rejected (reason : Exception)
| Resolved (response : Response).

(** A failure at the transport level: no connection, or a status outside 200..299. *)
Definition transport_failure (r : FetchResult) : bool :=
  match r with
  | Rejected _ => true
  | Resolved response => negb (ok response)
  end.

(** The surroundings of one run: the environment variable, the result of
    the k-th call to [fetch] and the value of the k-th reading of the clock
    (both counted from 0).  The request itself (URL, headers, the prompt built
    from the transcript by string formatting) does not appear: the result of a
    call is whatever the environment says. *)
Record Environment : Type := {
  OPENROUTER_API_KEY : option string;    (* process.env.OPENROUTER_API_KEY *)
  fetch_result : nat -> FetchResult;
  clock : nat -> Z
}.

Inductive Event : Type :=
| Fetched                  (* a call to fetch was made *)
| Slept (ms : Z).          (* a timer of [ms] milliseconds was awaited *)

Record State : Type := {
  fetches : nat;           (* calls to fetch so far *)
  clock_reads : nat;       (* readings of the clock so far *)
  trace : list Event       (* fetches and sleeps, oldest first *)
}.

Definition initial : State := {| fetches := 0; clock_reads := 0; trace := [] |}.

(** The state after [f] more calls to [fetch], [c] more readings of the
    clock and the events [events]. *)
Definition advance (f c : nat) (events : list Event) (st : State) : State :=
  {| fetches := f + fetches st;
     clock_reads := c + clock_reads st;
     trace := trace st ++ events |}.

(** An asynchronous computation, run to completion: effects persist when
    an exception is thrown. *)
Definition Async (A : Type) : Type := State -> Completion A * State.

Definition ret {A : Type} (a : A) : Async A := fun st => (Normal a, st).

Definition throw {A : Type} (e : Exception) : Async A := fun st => (Throw e, st).

Definition bind {A B : Type} (c : Async A) (k : A -> Async B) : Async B :=
  fun st =>
    match c st with
    | (Normal a, st') => k a st'
    | (Throw e, st') => (Throw e, st')
    end.

Definition try_catch {A : Type} (body : Async A) (handler : Exception -> Async A) : Async A :=
  fun st =>
    match body st with
    | (Normal a, st') => (Normal a, st')
    | (Throw e, st') => handler e st'
    end.

(** A computation without effects on the world. *)
Definition lift {A : Type} (c : Completion A) : Async A := fun st => (c, st).

Declare Scope async_scope.
Delimit Scope async_scope with async.
Notation "x <- c ;; k" := (bind c (fun x => k))
  (at level 61, c at next level, right associativity) : async_scope.

Section WithEnvironment.
Context {platform : Platform} (env : Environment).

(** [await fetch(url, request)] *)
Definition fetch : Async Response :=
  fun st =>
    let st' := {| fetches := S (fetches st);
                  clock_reads := clock_reads st;
                  trace := trace st ++ [Fetched] |} in
    match fetch_result env (fetches st) with
    | Rejected reason => (Throw reason, st')
    | Resolved response => (Normal response, st')
    end.

(** [await response.text()] and [await response.json()] *)
Definition Response_text (response : Response) : Async string := ret (body response).
Definition Response_json (response : Response) : Async Value := lift (JSON_parse (body response)).

(** [await sleep(ms)] *)
Definition sleep (ms : Z) : Async unit :=
  fun st =>
    (Normal tt, {| fetches := fetches st;
                   clock_reads := clock_reads st;
                   trace := trace st ++ [Slept ms] |}).

(** [Date.now()] *)
Definition Date_now : Async Z :=
  fun st =>
    (Normal (clock env (clock_reads st)),
     {| fetches := fetches st; clock_reads := S (clock_reads st); trace := trace st |}).

(** [new Date().toISOString()] *)
Definition Date_new_toISOString : Async string :=
  bind Date_now (fun ms => ret (Date_toISOString ms)).

End WithEnvironment.

End Runtime.

(* ===================================================================== *)
(** * demo-data/demo-analysis.js                                         *)
(* ===================================================================== *)

Module DemoAnalysisGenerator.
Import JS Runtime.
Local Open Scope async_scope.

Definition strings (l : list string) : Value := JSArray (map JSString l).

Section WithEnvironment.
Context {platform : Platform} (env : Environment).

(** [mentor] and [interviewType] are accepted and not used. *)
Definition generateDemoAnalysis (transcript : string) (mentor interviewType : Value)
  : Async Value :=
  let hasTech := test_any_ci ["javascript"; "react"; "node"; "python"; "java"; "system";
                              "design"; "database"; "api"] transcript in
  let hasCompanies := test_any_ci ["google"; "microsoft"; "amazon"; "apple"; "meta";
                                   "netflix"; "uber"] transcript in
  let wordCount := split_spaces_length transcript in
  let isLongInterview := (800 <? wordCount)%nat in
  timestamp <- Date_new_toISOString env ;;
  ret (JSObject
    [("success", JSBool true);
     ("analysis", JSObject
       [("highlights", JSArray
          [JSObject
             [("text", JSString "Demonstrated clear communication throughout the interview");
              ("category", JSString "communication");
              ("confidence", JSNumber (Fin (85 # 100)));
              ("reasoning", JSString "Responses were well-structured and easy to follow")];
           JSObject
             [("text", JSString (if hasTech
                                 then "Strong technical knowledge in modern web development"
                                 else "Good fundamental technical understanding"));
              ("category", JSString "technical_skill");
              ("confidence", JSNumber (Fin (if hasTech then 9 # 10 else 7 # 10)));
              ("reasoning", JSString "Showed familiarity with relevant technologies and concepts")];
           JSObject
             [("text", JSString "Proactive about asking clarifying questions");
              ("category", JSString "problem_solving");
              ("confidence", JSNumber (Fin (8 # 10)));
              ("reasoning", JSString "Good practice for understanding requirements before solving")]]);
        ("improvements", JSArray
          [JSObject
             [("text", JSString "Could provide more specific examples with quantified impact");
              ("suggestion", JSString "When describing achievements, include metrics like performance improvements or user impact");
              ("priority", JSString "medium");
              ("category", JSString "communication")];
           JSObject
             [("text", JSString "Opportunity to discuss system design considerations");
              ("suggestion", JSString "Elaborate on scalability, reliability, and trade-offs in technical solutions");
              ("priority", JSString "medium");
              ("category", JSString "technical")]]);
        ("technical_assessment", JSObject
          [("level", JSString (if hasTech then (if isLongInterview then "senior" else "mid")
                               else "junior"));
           ("skills_demonstrated",
            if hasTech
            then strings ["JavaScript"; "React"; "Node.js"; "System Design"; "Problem Solving"]
            else strings ["Programming Fundamentals"; "Logical Thinking"]);
           ("knowledge_gaps",
            if isLongInterview then strings []
            else strings ["Advanced system architecture"; "Performance optimization"]);
           ("problem_solving_approach",
            JSString "Systematic approach with good questioning technique")]);
        ("communication_analysis", JSObject
          [("clarity", JSString "good");
           ("structure", JSString "Well-organized responses with clear examples");
           ("listening", JSString "Good comprehension and appropriate follow-up questions");
           ("questioning", JSString "Asked relevant questions about requirements and constraints")]);
        ("entities", JSObject
          [("technologies",
            if hasTech then strings ["JavaScript"; "React"; "Node.js"; "Database"; "API"]
            else strings ["Programming"]);
           ("companies",
            if hasCompanies then strings ["Google"; "Microsoft"; "Amazon"]
            else strings ["Tech Company"]);
           ("projects", strings ["Web Application"; "System Design"]);
           ("methodologies", strings ["Agile"; "Problem-Solving Process"])]);
        ("interview_flow", JSArray
          [JSObject
             [("section", JSString "introduction");
              ("summary", JSString "Background and experience discussion");
              ("key_moments", strings ["Professional background"; "Key experiences"]);
              ("duration_estimate", JSString "8-10 minutes")];
           JSObject
             [("section", JSString "technical_questions");
              ("summary", JSString "Technical problem-solving and system design");
              ("key_moments", strings ["Approach explanation"; "Technology choices";
                                       "Trade-off considerations"]);
              ("duration_estimate", JSString "15-20 minutes")];
           JSObject
             [("section", JSString "candidate_questions");
              ("summary", JSString "Questions about role and team");
              ("key_moments", strings ["Interest in team dynamics"; "Growth opportunities"]);
              ("duration_estimate", JSString "5-8 minutes")]]);
        ("overall_recommendation", JSObject
          [("decision", JSString (if hasTech then "hire" else "maybe"));
           ("confidence", JSNumber (num (if hasTech then 8 else 6)));
           ("key_strengths", strings
              ["Clear communication skills";
               if hasTech then "Strong technical foundation" else "Good learning potential";
               "Collaborative approach"]);
           ("main_concerns",
            if isLongInterview then strings []
            else strings ["Limited experience with complex systems"]);
           ("cultural_fit",
            JSString "Positive indicators for team collaboration and growth mindset");
           ("next_steps", JSString (if hasTech
                                    then "Technical deep-dive or system design round"
                                    else "Pair programming or technical assessment"))]);
        ("interview_quality", JSObject
          [("questions_effectiveness",
            JSString "Good coverage of technical and behavioral aspects");
           ("areas_not_explored",
            if isLongInterview then strings []
            else strings ["Leadership experience"; "Conflict resolution"]);
           ("suggested_follow_ups", strings
              ["System design deep-dive"; "Code review exercise";
               "Team collaboration scenarios"])])]);
     ("metadata", JSObject
       [("model", JSString "Demo Mode - Enhanced Analysis");
        ("timestamp", JSString timestamp);
        ("transcript_length", JSNumber (num (Z.of_nat (String.length transcript))));
        ("demo_mode", JSBool true);
        ("analysis_type", JSString "fallback")])]).

End WithEnvironment.

End DemoAnalysisGenerator.

(* ===================================================================== *)
(** * deepseek-enhanced.js and ai-service.js                             *)
(* ===================================================================== *)

Definition MODEL : string := "deepseek/deepseek-r1-distill-llama-70b:free".
Definition MAX_RETRIES : Z := 3.
Definition RETRY_DELAY : Z := 1000.

(** [analyzeTranscript] has the same text in the two services, up to the
    name of the demo generator it calls; it is written once, over the
    service's own [performAnalysis] and demo generator.  The definitions of
    this part are the function from its second statement on, for a transcript
    that is a string.  Its head (the defaults of [mentor = null] and
    [interviewType = null], and the first statement, which logs a template
    with the two and throws when one of them does not convert to a string) is
    [Errors.logged] below, and the function as exported is
    [Errors.logged mentor interviewType (analyzeTranscript env transcript)]. *)
Module Orchestrator.
Import JS Runtime.
Local Open Scope async_scope.

Section AnalyzeTranscript.
Context {platform : Platform} (env : Environment).
Variable performAnalysis : string -> Z -> Value -> Value -> Async Value.
Variable generateDemoAnalysis : string -> Value -> Value -> Async Value.

(** [!process.env.OPENROUTER_API_KEY ||
     process.env.OPENROUTER_API_KEY === 'your_openrouter_api_key_here'] *)
Definition key_not_configured : bool :=
  match OPENROUTER_API_KEY env with
  | None => true
  | Some key => (key =? "") || (key =? "your_openrouter_api_key_here")
  end.

(** [!transcript || transcript.trim().length < 50] *)
Definition too_short (transcript : string) : bool :=
  (transcript =? "") || (String.length (trim transcript) <? 50)%nat.

(** The loop [for (attempt = ...; attempt <= MAX_RETRIES; attempt++)] with
    [remaining] iterations left: [remaining = MAX_RETRIES + 1 - attempt].
    When none is left the loop ends and the function returns [undefined]. *)
Fixpoint attempts (remaining : nat) (attempt : Z)
  (transcript : string) (mentor interviewType : Value) : Async Value :=
  match remaining with
  | O => ret JSUndefined
  | S remaining' =>
      try_catch
        (result <- performAnalysis transcript attempt mentor interviewType ;;
         ret result)
        (fun error =>
           if (attempt =? MAX_RETRIES)%Z
           then generateDemoAnalysis transcript mentor interviewType
           else
             _ <- sleep (RETRY_DELAY * attempt) ;;
             attempts remaining' (attempt + 1)%Z transcript mentor interviewType)
  end.

Definition analyzeTranscript (transcript : string) (mentor interviewType : Value)
  : Async Value :=
  if too_short transcript
  then throw (Error "Transcript too short or empty for meaningful analysis")
  else if key_not_configured
  then generateDemoAnalysis transcript mentor interviewType
  else attempts (Z.to_nat MAX_RETRIES) 1%Z transcript mentor interviewType.

End AnalyzeTranscript.

End Orchestrator.

Module DeepseekEnhanced.
Import JS Runtime.
Local Open Scope async_scope.

Section WithEnvironment.
Context {platform : Platform} (env : Environment).

(** [!data.choices || !data.choices[0] || !data.choices[0].message] *)
Definition invalid_structure (data : Value) : Completion bool :=
  JS.bind (get data "choices") (fun choices =>
  if negb (ToBoolean choices) then JS.ret true
  else
    JS.bind (get_index choices 0) (fun first =>
    if negb (ToBoolean first) then JS.ret true
    else
      JS.bind (get first "message") (fun message =>
      JS.ret (negb (ToBoolean message))))).

(** [data.choices[0].message.content.trim()]: only a string has [trim]. *)
Definition content_trimmed (data : Value) : Completion string :=
  JS.bind (get data "choices") (fun choices =>
  JS.bind (get_index choices 0) (fun first =>
  JS.bind (get first "message") (fun message =>
  JS.bind (get message "content") (fun content =>
  match content with
  | JSString s => JS.ret (trim s)
  | _ => Throw TypeError
  end)))).

(** [data.usage?.total_tokens || 'unknown'] *)
Definition tokens_used (data : Value) : Completion Value :=
  JS.bind (get data "usage") (fun usage =>
  JS.bind (get_opt usage "total_tokens") (fun total =>
  JS.ret (or_else total (JSString "unknown")))).

Definition performAnalysis (transcript : string) (attempt : Z) (mentor interviewType : Value)
  : Async Value :=
  startTime <- Date_now env ;;
  response <- fetch env ;;
  if negb (ok response) then
    errorText <- Response_text response ;;
    throw (Error ("OpenRouter API error " ++ decimal (status response) ++ ": " ++ errorText))
  else
    data <- Response_json response ;;
    invalid <- lift (invalid_structure data) ;;
    if (invalid : bool) then throw (Error "Invalid response structure from OpenRouter API")
    else
      analysisText <- lift (content_trimmed data) ;;
      if analysisText =? "" then throw (Error "Empty response content from OpenRouter API")
      else
        analysis <- lift (ResponseValidator.parseAndValidateResponse analysisText transcript) ;;
        timestamp <- Date_new_toISOString env ;;
        finished <- Date_now env ;;
        tokens <- lift (tokens_used data) ;;
        ret (JSObject
          [("success", JSBool true);
           ("analysis", analysis);
           ("metadata", JSObject
             [("model", JSString MODEL);
              ("timestamp", JSString timestamp);
              ("processing_time_ms", JSNumber (num (finished - startTime)));
              ("attempt_number", JSNumber (num attempt));
              ("transcript_length", JSNumber (num (Z.of_nat (String.length transcript))));
              ("tokens_used", tokens)])]).

Definition analyzeTranscript : string -> Value -> Value -> Async Value :=
  Orchestrator.analyzeTranscript env performAnalysis
    (DemoAnalysisGenerator.generateDemoAnalysis env).

End WithEnvironment.

End DeepseekEnhanced.

Module AiService.
Import JS Runtime.
Local Open Scope async_scope.

Section WithEnvironment.
Context {platform : Platform} (env : Environment).

(** [getDemoAnalysis] has the body of [DemoAnalysisGenerator.generateDemoAnalysis]. *)
Definition getDemoAnalysis : string -> Value -> Value -> Async Value :=
  DemoAnalysisGenerator.generateDemoAnalysis env.

(** [data.choices?.[0]?.message?.content] *)
Definition content (data : Value) : Completion Value :=
  JS.bind (get data "choices") (fun choices =>
  JS.bind (get_index_opt choices 0) (fun first =>
  JS.bind (get_opt first "message") (fun message =>
  get_opt message "content"))).

(** [parseAndValidateResponse(analysisText, transcript)] on a value that
    need not be a string: on anything else [responseText.match] is not a
    function, and in the handler neither is [responseText.substring], so the
    [TypeError] leaves the function. *)
Definition parseAndValidate (analysisText : Value) (transcript : string) : Completion Value :=
  match analysisText with
  | JSString s => ResponseParser.parseAndValidateResponse s transcript
  | _ => Throw TypeError
  end.

Definition performAnalysis (transcript : string) (attemptNumber : Z)
  (mentor interviewType : Value) : Async Value :=
  response <- fetch env ;;
  if negb (ok response) then
    errorText <- Response_text response ;;
    throw (Error ("OpenRouter API error " ++ decimal (status response) ++ ": " ++ errorText))
  else
    data <- Response_json response ;;
    analysisText <- lift (content data) ;;
    if negb (ToBoolean analysisText)
    then throw (Error "No analysis content received from DeepSeek")
    else
      analysis <- lift (parseAndValidate analysisText transcript) ;;
      timestamp <- Date_new_toISOString env ;;
      usage <- lift (get data "usage") ;;
      ret (JSObject
        [("success", JSBool true);
         ("analysis", analysis);
         ("metadata", JSObject
           [("model", JSString MODEL);
            ("timestamp", JSString timestamp);
            ("transcript_length", JSNumber (num (Z.of_nat (String.length transcript))));
            ("attempt_number", JSNumber (num attemptNumber));
            ("token_usage", or_else usage JSNull)])]).

Definition analyzeTranscript : string -> Value -> Value -> Async Value :=
  Orchestrator.analyzeTranscript env performAnalysis getDemoAnalysis.

End WithEnvironment.

End AiService.

(* ===================================================================== *)
(** * Inputs and hosts for running the services                          *)
(* ===================================================================== *)

Module Examples.
Import JS Runtime.

(** The reference parser, and dates rendered as a count of milliseconds. *)
Definition reference_platform : Platform :=
  {| JSON_parse := JSON.parse;
     Date_toISOString := fun ms => NilZero.string_of_int (Z.to_int ms) |}.

Definition transcript : string :=
  "I led the migration of our billing system to React and Node over two quarters.".

(** 56 characters, 45 of them not white space. *)
Definition short_sentence : string :=
  "The quick brown fox jumps over the lazy dog and runs far".

Definition reply (text : string) : FetchResult :=
  Resolved {| ok := true; status := 200; body := text |}.

(** The body of a chat completion whose message content is [content], a
    string without characters that need escaping. *)
Definition completion (content : string) : string :=
  JSON.quoted "{'choices':[{'message':{'content':'" ++ content ++ JSON.quoted "'}}]}".

(** No key in the environment. *)
Definition offline : Environment :=
  {| OPENROUTER_API_KEY := None;
     fetch_result := fun _ => Rejected (Error "fetch failed");
     clock := fun k => (1000 * Z.of_nat k)%Z |}.

(** A key, and every request fails: the first is refused by the network, the
    others are answered with status 503. *)
Definition unreachable : Environment :=
  {| OPENROUTER_API_KEY := Some "sk-or-v1-test";
     fetch_result := fun k =>
       match k with
       | O => Rejected (Error "fetch failed")
       | _ => Resolved {| ok := false; status := 503; body := "Service Unavailable" |}
       end;
     clock := fun k => (1000 * Z.of_nat k)%Z |}.

(** A key, and every request is answered with the message content [content]. *)
Definition answering (content : string) : Environment :=
  {| OPENROUTER_API_KEY := Some "sk-or-v1-test";
     fetch_result := fun _ => reply (completion content);
     clock := fun k => (1000 * Z.of_nat k)%Z |}.

Definition nulls (n : nat) : string :=
  "[" ++ String.concat "," (repeat "null" n) ++ "]".

(** A reply that is not JSON and has no braces. *)
Definition not_json : string := "I could not analyse this transcript.".

(** A reply that parses, with a highlight on which the validator throws. *)
Definition null_highlight : string := JSON.quoted "{'highlights':[null]}".

(** A reply with one highlight whose category is not in the enum and whose
    confidence is above 1. *)
Definition unchecked_highlight : string :=
  JSON.quoted
    "{'highlights':[{'text':'Shipped it','category':'vibes','confidence':5,'reasoning':'Said so'}]}".

(** A reply whose highlights are twenty [null]s. *)
Definition twenty_nulls : string := JSON.quoted "{'highlights':" ++ nulls 20 ++ "}".

(** Twenty highlights, numbered from 0. *)
Definition numbered (n : nat) : list Value :=
  map (fun i => JSObject [("text", JSString (decimal i))]) (seq 0 n).

(** A reply with the twenty highlights of [numbered 20]. *)
Definition twenty_highlights : string :=
  JSON.quoted "{'highlights':["
  ++ String.concat ","
       (map (fun i => (JSON.quoted "{'text':'" ++ decimal i ++ JSON.quoted "'}")%string)
            (seq 0 20))
  ++ "]}".

(** A reply with two highlights, one with a category of the enum and a
    confidence between 0 and 1, one with a text only. *)
Definition conforming_highlights : string :=
  JSON.quoted
    "{'highlights':[{'category':'leadership','confidence':0.9},{'text':'Led the rollout'}]}".

End Examples.

(* ===================================================================== *)
(** * What the validators compute                                        *)
(* ===================================================================== *)

(** The validators as functions of the input value, for the inputs on
    which they do not throw; the lemmas of the next part relate them to the
    definitions above. *)
Module Closed.
Import JS.

Definition pick_text (default : string) (v : Value) : Value :=
  or_else v (JSString default).

Definition pick_enum (allowed : list string) (default : string) (v : Value) : Value :=
  if includes allowed v then v else JSString default.

Definition pick_list (n : nat) (default : Value) (v : Value) : Value :=
  match v with
  | JSArray items => JSArray (firstn n items)
  | _ => default
  end.

Definition pick_number (f : Num -> Num) (default : Num) (v : Value) : Value :=
  match v with
  | JSNumber n => JSNumber (f n)
  | _ => JSNumber default
  end.

Definition highlight (h : Value) : Value :=
  JSObject
    [("text", pick_text "Analysis completed" (prop h "text"));
     ("category", pick_text "general" (prop h "category"));
     ("confidence", pick_number (fun n => n) (Fin (7 # 10)) (prop h "confidence"));
     ("reasoning", pick_text "Identified as positive indicator" (prop h "reasoning"))].

Definition improvement (i : Value) : Value :=
  JSObject
    [("text", pick_text "Area for development identified" (prop i "text"));
     ("suggestion", pick_text "Recommend focused practice" (prop i "suggestion"));
     ("priority", pick_enum ["high"; "medium"; "low"] "medium" (prop i "priority"));
     ("category", pick_text "general" (prop i "category"))].

Definition flow_section (f : Value) : Value :=
  JSObject
    [("section", pick_text "discussion" (prop f "section"));
     ("summary", pick_text "Interview section covered" (prop f "summary"));
     ("key_moments", pick_list 3 (JSArray []) (prop f "key_moments"));
     ("duration_estimate", pick_text "5-10 minutes" (prop f "duration_estimate"))].

Definition technical_assessment (tech : Value) : Value :=
  JSObject
    [("level", pick_enum ["junior"; "mid"; "senior"; "staff"; "principal"] "mid"
                 (prop tech "level"));
     ("skills_demonstrated", pick_list 8 (JSArray []) (prop tech "skills_demonstrated"));
     ("knowledge_gaps", pick_list 4 (JSArray []) (prop tech "knowledge_gaps"));
     ("problem_solving_approach",
      pick_text "Structured problem-solving approach observed"
        (prop tech "problem_solving_approach"))].

Definition communication_analysis (comm : Value) : Value :=
  JSObject
    [("clarity", pick_enum ["poor"; "fair"; "good"; "excellent"] "good" (prop comm "clarity"));
     ("structure", pick_text "Well-organized responses" (prop comm "structure"));
     ("listening", pick_text "Good comprehension of questions" (prop comm "listening"));
     ("questioning", pick_text "Asked relevant follow-up questions" (prop comm "questioning"))].

Definition entities (e : Value) : Value :=
  JSObject
    [("technologies", pick_list 10 (JSArray []) (prop e "technologies"));
     ("companies", pick_list 5 (JSArray []) (prop e "companies"));
     ("projects", pick_list 5 (JSArray []) (prop e "projects"));
     ("methodologies", pick_list 5 (JSArray []) (prop e "methodologies"))].

Definition overall_recommendation (rec : Value) : Value :=
  JSObject
    [("decision", pick_enum ["strong_hire"; "hire"; "maybe"; "no_hire"] "maybe"
                    (prop rec "decision"));
     ("confidence", pick_number ResponseParser.clamp_confidence (num 7) (prop rec "confidence"));
     ("key_strengths", pick_list 4 (JSArray [JSString "Analysis completed"])
                         (prop rec "key_strengths"));
     ("main_concerns", pick_list 3 (JSArray []) (prop rec "main_concerns"));
     ("cultural_fit", pick_text "Positive indicators for team collaboration"
                        (prop rec "cultural_fit"));
     ("next_steps", pick_text "Recommend technical deep-dive interview"
                      (prop rec "next_steps"))].

Definition interview_quality (quality : Value) : Value :=
  JSObject
    [("questions_effectiveness",
      pick_text "Standard interview questions covered relevant topics"
        (prop quality "questions_effectiveness"));
     ("areas_not_explored", pick_list 3 (JSArray []) (prop quality "areas_not_explored"));
     ("suggested_follow_ups", pick_list 4 (JSArray []) (prop quality "suggested_follow_ups"))].

(** The items an array validator keeps: the first [cap] of an array, none of
    anything else. *)
Definition kept (cap : nat) (v : Value) : list Value :=
  match v with
  | JSArray items => firstn cap items
  | _ => []
  end.

(** An array validator: [cap] items at most, each given by [item]; it throws
    when one of the items it keeps is [null] or [undefined]. *)
Definition mapped (cap : nat) (item : Value -> Value) (v : Value) : Completion Value :=
  match v with
  | JSArray items =>
      if existsb nullish (firstn cap items) then Throw TypeError
      else Normal (JSArray (map item (firstn cap items)))
  | _ => Normal (JSArray [])
  end.

End Closed.

(* ===================================================================== *)
(** * The schema of an analysis                                          *)
(* ===================================================================== *)

(** Decidable properties of a normalised analysis, used to state what the
    normaliser guarantees. *)
Module Schema.
Import JS.

Definition categories : list string :=
  ["communication"; "technical_skill"; "problem_solving"; "leadership"; "general"].
Definition priorities : list string := ["high"; "medium"; "low"].
Definition levels : list string := ["junior"; "mid"; "senior"; "staff"; "principal"].
Definition clarities : list string := ["poor"; "fair"; "good"; "excellent"].
Definition decisions : list string := ["strong_hire"; "hire"; "maybe"; "no_hire"].
Definition keys (v : Value) : list string :=
  match v with
  | JSObject props => map fst props
  | _ => []
  end.

Fixpoint same_keys (a b : list string) : bool :=
  match a, b with
  | [], [] => true
  | x :: a', y :: b' => (x =? y) && same_keys a' b'
  | _, _ => false
  end.

(** [v] is an object with exactly the properties [ks], in this order. *)
Definition has_keys (ks : list string) (v : Value) : bool :=
  match v with
  | JSObject _ => same_keys (keys v) ks
  | _ => false
  end.

(** An array of at most [n] items. *)
Definition list_upto (n : nat) (v : Value) : bool :=
  match v with
  | JSArray items => (List.length items <=? n)%nat
  | _ => false
  end.

(** An array of at most [n] items, each satisfying [item]. *)
Definition items_upto (n : nat) (item : Value -> bool) (v : Value) : bool :=
  match v with
  | JSArray items => (List.length items <=? n)%nat && forallb item items
  | _ => false
  end.

Definition is_number (v : Value) : bool := typeof v =? "number".

Definition within (lo hi : Z) (v : Value) : bool :=
  match v with
  | JSNumber n => num_leb (num lo) n && num_leb n (num hi)
  | _ => false
  end.

(** A value is present when it is truthy: not [undefined], [null], [false],
    [0] or the empty string. *)
Definition present (v : Value) (k : string) : bool := ToBoolean (prop v k).

Definition highlight_shape (h : Value) : bool :=
  has_keys ["text"; "category"; "confidence"; "reasoning"] h &&
  present h "text" && present h "category" &&
  is_number (prop h "confidence") && present h "reasoning".

Definition improvement_shape (i : Value) : bool :=
  has_keys ["text"; "suggestion"; "priority"; "category"] i &&
  present i "text" && present i "suggestion" && present i "priority" && present i "category".

Definition flow_section_shape (f : Value) : bool :=
  has_keys ["section"; "summary"; "key_moments"; "duration_estimate"] f &&
  present f "section" && present f "summary" &&
  list_upto 3 (prop f "key_moments") && present f "duration_estimate".

Definition technical_assessment_shape (t : Value) : bool :=
  has_keys ["level"; "skills_demonstrated"; "knowledge_gaps"; "problem_solving_approach"] t &&
  present t "level" &&
  list_upto 8 (prop t "skills_demonstrated") && list_upto 4 (prop t "knowledge_gaps") &&
  present t "problem_solving_approach".

Definition communication_analysis_shape (c : Value) : bool :=
  has_keys ["clarity"; "structure"; "listening"; "questioning"] c &&
  present c "clarity" && present c "structure" &&
  present c "listening" && present c "questioning".

Definition entities_shape (e : Value) : bool :=
  has_keys ["technologies"; "companies"; "projects"; "methodologies"] e &&
  list_upto 10 (prop e "technologies") && list_upto 5 (prop e "companies") &&
  list_upto 5 (prop e "projects") && list_upto 5 (prop e "methodologies").

Definition overall_recommendation_shape (r : Value) : bool :=
  has_keys ["decision"; "confidence"; "key_strengths"; "main_concerns";
            "cultural_fit"; "next_steps"] r &&
  present r "decision" && is_number (prop r "confidence") &&
  list_upto 4 (prop r "key_strengths") && list_upto 3 (prop r "main_concerns") &&
  present r "cultural_fit" && present r "next_steps".

Definition interview_quality_shape (q : Value) : bool :=
  has_keys ["questions_effectiveness"; "areas_not_explored"; "suggested_follow_ups"] q &&
  present q "questions_effectiveness" &&
  list_upto 3 (prop q "areas_not_explored") && list_upto 4 (prop q "suggested_follow_ups").

(** The eight top-level keys, each with a value of its container type and
    with all its own keys; every list within its cap; every scalar present,
    every confidence a number. *)
Definition analysis_shape (a : Value) : bool :=
  has_keys ResponseParser.required a &&
  items_upto 6 highlight_shape (prop a "highlights") &&
  items_upto 4 improvement_shape (prop a "improvements") &&
  technical_assessment_shape (prop a "technical_assessment") &&
  communication_analysis_shape (prop a "communication_analysis") &&
  entities_shape (prop a "entities") &&
  items_upto 8 flow_section_shape (prop a "interview_flow") &&
  overall_recommendation_shape (prop a "overall_recommendation") &&
  interview_quality_shape (prop a "interview_quality").

(** The enum fields the validators check, and the clamped confidence. *)
Definition checked_enums_valid (a : Value) : bool :=
  items_upto 4 (fun i => includes priorities (prop i "priority")) (prop a "improvements") &&
  includes levels (prop (prop a "technical_assessment") "level") &&
  includes clarities (prop (prop a "communication_analysis") "clarity") &&
  includes decisions (prop (prop a "overall_recommendation") "decision") &&
  within 1 10 (prop (prop a "overall_recommendation") "confidence").

(** A highlight as the data model describes it: a category of the enum and
    a confidence between 0 and 1. *)
Definition highlight_conforms (h : Value) : bool :=
  includes categories (prop h "category") && within 0 1 (prop h "confidence").

(** Every enum field of the data model holds a value of its enum. *)
Definition all_enums_valid (a : Value) : bool :=
  checked_enums_valid a &&
  items_upto 6 (fun h => includes categories (prop h "category")) (prop a "highlights").

(** The number of characters that are not white space. *)
Fixpoint non_space_length (s : string) : nat :=
  match s with
  | EmptyString => 0
  | String c rest => (if is_space c then 0 else 1) + non_space_length rest
  end.

End Schema.

(* ===================================================================== *)
(** * testDeepSeekConnection                                             *)
(* ===================================================================== *)

(** The message of an exception: the text given to [new Error], and for an
    error raised by the engine the text the engine gives it. *)
Class ErrorMessages : Type := {
  engine_message : JS.Exception -> string
}.

Module Errors.
Import JS.

Definition message {messages : ErrorMessages} (e : Exception) : string :=
  match e with
  | Error text => text
  | _ => engine_message e
  end.

(** Whether [String(v)], the conversion of a template literal, returns.  An
    object read from JSON with a property of its own called ["toString"] hides
    the method of the prototype, [valueOf] gives back the object, and the
    conversion throws a [TypeError]; an array converts its items, [null] and
    [undefined] becoming the empty text. *)
Fixpoint stringifiable (v : Value) : bool :=
  match v with
  | JSArray items => forallb stringifiable items
  | JSObject props => negb (existsb (fun p => fst p =? "toString") props)
  | _ => true
  end.

(** The evaluation of a template literal with the holes [values], for its
    exceptions only: the text itself goes to the console. *)
Definition template (values : list Value) : Completion unit :=
  if forallb stringifiable values then Normal tt else Throw TypeError.

(** A parameter declared [= null]: an argument that is [undefined] gives
    the default. *)
Definition default_null (v : Value) : Value :=
  match v with
  | JSUndefined => JSNull
  | _ => v
  end.

(** The head of [analyzeTranscript(transcript, mentor = null, interviewType
    = null)] in both services, ahead of its [body]: the defaults of the two
    parameters and the first statement, which logs a template with the two. *)
Definition logged {A : Type} (mentor interviewType : Value)
  (body : Value -> Value -> Runtime.Async A) : Runtime.Async A :=
  Runtime.bind
    (Runtime.lift (template [default_null mentor; default_null interviewType]))
    (fun _ => body (default_null mentor) (default_null interviewType)).

End Errors.

(** [testDeepSeekConnection], the same text in deepseek-enhanced.js and in
    ai-service.js. *)
Module Connection.
Import JS Runtime.
Local Open Scope async_scope.

Section WithEnvironment.
Context {platform : Platform} {messages : ErrorMessages} (env : Environment).

Definition testDeepSeekConnection : Async Value :=
  try_catch
    (response <- fetch env ;;
     payload <- (if ok response
                 then Response_json response
                 else text <- Response_text response ;; ret (JSString text)) ;;
     ret (JSObject
       [("success", JSBool (ok response));
        ("status", JSNumber (num (Z.of_nat (status response))));
        ("model", JSString MODEL);
        ("response", payload)]))
    (fun error =>
       ret (JSObject
         [("success", JSBool false);
          ("error", JSString (Errors.message error))])).

End WithEnvironment.

End Connection.

(* ===================================================================== *)
(** * The server: POST /api/analyze                                      *)
(* ===================================================================== *)

Module Server.
Import JS Runtime.
Local Open Scope async_scope.

(** What the handler sends: [res.status(code).json(payload)], where
    [res.json(payload)] alone has the status 200. *)
Record Reply : Type := {
  code : nat;
  payload : Value
}.

Section WithEnvironment.
Context {platform : Platform} {messages : ErrorMessages} (env : Environment).

(** [analyzeTranscript] of ai-service.js on arguments of any type, as the
    handler calls it: the first statement logs a template with [mentor] and
    [interviewType]; a transcript that is not a string is rejected when it is
    falsy and has no [trim] when it is truthy. *)
Definition analyzeTranscript (transcript mentor interviewType : Value) : Async Value :=
  Errors.logged mentor interviewType (fun mentor interviewType =>
    match transcript with
    | JSString text => AiService.analyzeTranscript env text mentor interviewType
    | _ =>
        if ToBoolean transcript then throw TypeError
        else throw (Error "Transcript too short or empty for meaningful analysis")
    end).

(** The handler of [app.post('/api/analyze', ...)] on the parsed body of the
    request. *)
Definition analyze (body : Value) : Async Reply :=
  try_catch
    (transcript <- lift (get body "transcript") ;;
     mentor <- lift (get body "mentor") ;;
     interviewType <- lift (get body "interviewType") ;;
     if negb (ToBoolean transcript)
     then ret {| code := 400;
                 payload := JSObject [("error", JSString "No transcript provided")] |}
     else
       _ <- lift (Errors.template [mentor; interviewType]) ;;
       result <- analyzeTranscript transcript mentor interviewType ;;
       ret {| code := 200; payload := result |})
    (fun error =>
       ret {| code := 500;
              payload := JSObject [("error", JSString "Analysis failed");
                                   ("details", JSString (Errors.message error))] |}).

End WithEnvironment.

End Server.

(* ===================================================================== *)
(** * Predicates of the statements                                       *)
(* ===================================================================== *)

Module Bounds.
Import JS Runtime.

(** The text has no character [c]. *)
Fixpoint without (c : ascii) (s : string) : bool :=
  match s with
  | EmptyString => true
  | String x rest => negb (Ascii.eqb x c) && without c rest
  end.

Definition backtick : ascii := "`"%char.

(** The text is white space only. *)
Fixpoint blank (s : string) : bool :=
  match s with
  | EmptyString => true
  | String c rest => is_space c && blank rest
  end.

(** A result of an attempt: a success, with an analysis of the right shape,
    the number of the attempt and no [demo_mode]. *)
Definition live (attempt : Z) (v : Value) : Prop :=
  prop v "success" = JSBool true /\
  Schema.analysis_shape (prop v "analysis") = true /\
  prop (prop v "metadata") "demo_mode" = JSUndefined /\
  prop (prop v "metadata") "attempt_number" = JSNumber (num attempt).

(** A result of the demo generator: a success too, marked [demo_mode]. *)
Definition demo (v : Value) : Prop :=
  prop v "success" = JSBool true /\
  Schema.analysis_shape (prop v "analysis") = true /\
  prop (prop v "metadata") "demo_mode" = JSBool true.

(** The messages of the engine's own errors, for running the services. *)
Definition sample_messages : ErrorMessages :=
  {| engine_message := fun e =>
       match e with
       | TypeError => "Cannot read properties of undefined"
       | SyntaxError => "Unexpected token in JSON"
       | Error text => text
       end |}.

End Bounds.

(* ===================================================================== *)
(** * Properties of the JavaScript operations                            *)
(* ===================================================================== *)

Import JS.
Local Open Scope js_scope.

Lemma get_opt_prop (x : Value) (k : string) : get_opt x k = Normal (prop x k).
Proof. destruct x; reflexivity. Qed.

Lemma get_prop (x : Value) (k : string) :
  get x k = if nullish x then Throw TypeError else Normal (prop x k).
Proof. destruct x; reflexivity. Qed.

Lemma includes_undefined (allowed : list string) : includes allowed JSUndefined = false.
Proof. induction allowed as [| s rest IH]; simpl; auto. Qed.

Lemma includes_string (allowed : list string) (v : Value) :
  includes allowed v = true -> exists s, v = JSString s /\ In s allowed.
Proof.
  unfold includes. rewrite existsb_exists. intros [s [Hin Heq]].
  destruct v; simpl in Heq; try discriminate.
  apply String.eqb_eq in Heq. subst. eauto.
Qed.

Lemma includes_In (allowed : list string) (s : string) :
  In s allowed -> includes allowed (JSString s) = true.
Proof.
  intros Hin. unfold includes. rewrite existsb_exists.
  exists s. split; [assumption | simpl; apply String.eqb_refl].
Qed.

Lemma prop_nullish (x : Value) (k : string) : nullish x = true -> prop x k = JSUndefined.
Proof. destruct x; simpl; congruence. Qed.

Lemma or_else_truthy (v d : Value) : ToBoolean d = true -> ToBoolean (or_else v d) = true.
Proof. unfold or_else. destruct (ToBoolean v) eqn:E; auto. Qed.

Lemma or_else_idem (v d : Value) : or_else (or_else v d) d = or_else v d.
Proof.
  unfold or_else. destruct (ToBoolean v) eqn:E.
  - rewrite E. reflexivity.
  - destruct (ToBoolean d); reflexivity.
Qed.

Lemma mapM_nullish (cb : Value -> Completion Value) (g : Value -> Value) (l : list Value) :
  (forall h, cb h = if nullish h then Throw TypeError else Normal (g h)) ->
  mapM cb l = if existsb nullish l then Throw TypeError else Normal (map g l).
Proof.
  intros Hcb. induction l as [| h rest IH]; simpl.
  - reflexivity.
  - rewrite Hcb. destruct (nullish h); simpl; [reflexivity |].
    rewrite IH. destruct (existsb nullish rest); reflexivity.
Qed.

(** ** The clamp of [validateOverallRecommendation] *)

Lemma clamp_confidence_cases (c : Num) :
  ResponseParser.clamp_confidence c = num 1 \/
  ResponseParser.clamp_confidence c = num 10 \/
  (ResponseParser.clamp_confidence c = c /\
   num_ltb (num 1) c = true /\ num_ltb c (num 10) = true).
Proof.
  unfold ResponseParser.clamp_confidence, Math_max, Math_min.
  destruct (num_ltb c (num 10)) eqn:E10.
  - destruct (num_ltb (num 1) c) eqn:E1; auto.
  - right. left. reflexivity.
Qed.

Lemma Qle_bool_total (x y : Q) : Qle_bool x y = false -> Qle_bool y x = true.
Proof.
  intros H. apply Qle_bool_iff.
  destruct (Qlt_le_dec x y) as [Hlt | Hle]; [| exact Hle].
  apply Qlt_le_weak in Hlt. apply Qle_bool_iff in Hlt. congruence.
Qed.

Lemma num_ltb_leb (a b : Num) : num_ltb a b = true -> num_leb a b = true.
Proof.
  unfold num_leb. destruct a as [x | |], b as [y | |]; simpl; try congruence.
  intros H. apply negb_true_iff in H. rewrite (Qle_bool_total _ _ H). reflexivity.
Qed.

Lemma clamp_confidence_range (c : Num) :
  num_leb (num 1) (ResponseParser.clamp_confidence c) = true /\
  num_leb (ResponseParser.clamp_confidence c) (num 10) = true.
Proof.
  destruct (clamp_confidence_cases c) as [H | [H | [H [H1 H10]]]]; rewrite H.
  - split; reflexivity.
  - split; reflexivity.
  - split; apply num_ltb_leb; assumption.
Qed.

Lemma clamp_confidence_idem (c : Num) :
  ResponseParser.clamp_confidence (ResponseParser.clamp_confidence c) =
  ResponseParser.clamp_confidence c.
Proof.
  destruct (clamp_confidence_cases c) as [H | [H | [H [H1 H10]]]]; rewrite H.
  - reflexivity.
  - reflexivity.
  - unfold ResponseParser.clamp_confidence, Math_max, Math_min.
    rewrite H10. rewrite H1. reflexivity.
Qed.

(* ===================================================================== *)
(** * The validators in closed form                                      *)
(* ===================================================================== *)

Section Idioms.
Import ResponseParser Closed.
Variables (x : Value) (k : string).

Lemma text_field_get_opt (d : string) :
  text_field get_opt x k d = Normal (pick_text d (prop x k)).
Proof. unfold text_field. rewrite get_opt_prop. reflexivity. Qed.

Lemma enum_field_get_opt (allowed : list string) (d : string) :
  enum_field get_opt x k allowed d = Normal (pick_enum allowed d (prop x k)).
Proof.
  unfold enum_field, pick_enum. rewrite get_opt_prop. simpl.
  destruct (includes allowed (prop x k)) eqn:E; [| reflexivity].
  rewrite get_prop. destruct (nullish x) eqn:N; [| reflexivity].
  rewrite (prop_nullish x k N), includes_undefined in E. discriminate.
Qed.

Lemma list_field_get_opt (n : nat) (d : Value) :
  list_field get_opt x k n d = Normal (pick_list n d (prop x k)).
Proof.
  unfold list_field, pick_list. rewrite get_opt_prop. simpl.
  destruct (Array_isArray (prop x k)) eqn:E.
  - rewrite get_prop. destruct (nullish x) eqn:N.
    + rewrite (prop_nullish x k N) in E. discriminate.
    + simpl. destruct (prop x k); try discriminate. reflexivity.
  - destruct (prop x k); try discriminate; reflexivity.
Qed.

Lemma number_field_get_opt (f : Num -> Num) (d : Num) :
  number_field get_opt x k f d = Normal (pick_number f d (prop x k)).
Proof.
  unfold number_field, pick_number. rewrite get_opt_prop. simpl.
  destruct (typeof (prop x k) =? "number") eqn:E.
  - rewrite get_prop. destruct (nullish x) eqn:N.
    + rewrite (prop_nullish x k N) in E. discriminate.
    + simpl. destruct (prop x k); try discriminate; reflexivity.
  - destruct (prop x k); try discriminate; reflexivity.
Qed.

(** With a plain read the idioms agree with the optional ones on a value
    that is neither [null] nor [undefined]. *)
Hypothesis present : nullish x = false.

Lemma get_present : get x k = Normal (prop x k).
Proof. rewrite get_prop, present. reflexivity. Qed.

Lemma text_field_get (d : string) :
  text_field get x k d = Normal (pick_text d (prop x k)).
Proof. unfold text_field. rewrite get_present. reflexivity. Qed.

Lemma enum_field_get (allowed : list string) (d : string) :
  enum_field get x k allowed d = Normal (pick_enum allowed d (prop x k)).
Proof.
  unfold enum_field, pick_enum. rewrite get_present. simpl.
  destruct (includes allowed (prop x k)); reflexivity.
Qed.

Lemma list_field_get (n : nat) (d : Value) :
  list_field get x k n d = Normal (pick_list n d (prop x k)).
Proof.
  unfold list_field, pick_list. rewrite get_present. simpl.
  destruct (prop x k); reflexivity.
Qed.

Lemma number_field_get (f : Num -> Num) (d : Num) :
  number_field get x k f d = Normal (pick_number f d (prop x k)).
Proof.
  unfold number_field, pick_number. rewrite get_present. simpl.
  destruct (prop x k); reflexivity.
Qed.

End Idioms.

Section ClosedForms.
Import ResponseParser.

Lemma validateHighlight_closed (h : Value) :
  validateHighlight h = if nullish h then Throw TypeError else Normal (Closed.highlight h).
Proof.
  unfold validateHighlight. destruct (nullish h) eqn:N.
  - unfold text_field. rewrite get_prop, N. reflexivity.
  - rewrite !text_field_get, number_field_get by exact N. reflexivity.
Qed.

Lemma validateImprovement_closed (i : Value) :
  validateImprovement i = if nullish i then Throw TypeError else Normal (Closed.improvement i).
Proof.
  unfold validateImprovement. destruct (nullish i) eqn:N.
  - unfold text_field. rewrite get_prop, N. reflexivity.
  - rewrite !text_field_get, enum_field_get by exact N. reflexivity.
Qed.

Lemma validateFlowSection_closed (f : Value) :
  validateFlowSection f = if nullish f then Throw TypeError else Normal (Closed.flow_section f).
Proof.
  unfold validateFlowSection. destruct (nullish f) eqn:N.
  - unfold text_field. rewrite get_prop, N. reflexivity.
  - rewrite !text_field_get, list_field_get by exact N. reflexivity.
Qed.

Lemma array_validator_closed (cap : nat) (cb : Value -> Completion Value)
  (g : Value -> Value) (v : Value) :
  (forall h, cb h = if nullish h then Throw TypeError else Normal (g h)) ->
  (if negb (Array_isArray v) then ret (JSArray [])
   else sliced <- slice0 v cap ;; Array_map cb sliced) = Closed.mapped cap g v.
Proof.
  intros Hcb. destruct v; try reflexivity. simpl.
  rewrite (mapM_nullish cb g _ Hcb).
  destruct (existsb nullish (firstn cap items)); reflexivity.
Qed.

Lemma validateHighlights_closed (v : Value) :
  validateHighlights v = Closed.mapped 6 Closed.highlight v.
Proof. apply array_validator_closed, validateHighlight_closed. Qed.

Lemma validateImprovements_closed (v : Value) :
  validateImprovements v = Closed.mapped 4 Closed.improvement v.
Proof. apply array_validator_closed, validateImprovement_closed. Qed.

Lemma validateInterviewFlow_closed (v : Value) :
  validateInterviewFlow v = Closed.mapped 8 Closed.flow_section v.
Proof. apply array_validator_closed, validateFlowSection_closed. Qed.

Lemma validateTechnicalAssessment_closed (tech : Value) :
  validateTechnicalAssessment tech = Normal (Closed.technical_assessment tech).
Proof.
  unfold validateTechnicalAssessment.
  rewrite enum_field_get_opt, !list_field_get_opt, text_field_get_opt. reflexivity.
Qed.

Lemma validateCommunicationAnalysis_closed (comm : Value) :
  validateCommunicationAnalysis comm = Normal (Closed.communication_analysis comm).
Proof.
  unfold validateCommunicationAnalysis.
  rewrite enum_field_get_opt, !text_field_get_opt. reflexivity.
Qed.

Lemma validateEntities_closed (e : Value) :
  validateEntities e = Normal (Closed.entities e).
Proof. unfold validateEntities. rewrite !list_field_get_opt. reflexivity. Qed.

Lemma validateOverallRecommendation_closed (rec : Value) :
  validateOverallRecommendation rec = Normal (Closed.overall_recommendation rec).
Proof.
  unfold validateOverallRecommendation.
  rewrite enum_field_get_opt, number_field_get_opt, !list_field_get_opt, !text_field_get_opt.
  reflexivity.
Qed.

Lemma validateInterviewQuality_closed (quality : Value) :
  validateInterviewQuality quality = Normal (Closed.interview_quality quality).
Proof.
  unfold validateInterviewQuality.
  rewrite text_field_get_opt, !list_field_get_opt. reflexivity.
Qed.

End ClosedForms.

(* ===================================================================== *)
(** * Normalising twice                                                  *)
(* ===================================================================== *)

Section Idempotence.
Import ResponseParser Closed.

Lemma pick_text_idem (d : string) (v : Value) :
  pick_text d (pick_text d v) = pick_text d v.
Proof. apply or_else_idem. Qed.

Lemma pick_enum_idem (allowed : list string) (d : string) (v : Value) :
  In d allowed -> pick_enum allowed d (pick_enum allowed d v) = pick_enum allowed d v.
Proof.
  intros Hd. unfold pick_enum. destruct (includes allowed v) eqn:E.
  - rewrite E. reflexivity.
  - rewrite (includes_In allowed d Hd). reflexivity.
Qed.

Lemma pick_list_idem (n : nat) (l : list Value) (v : Value) :
  List.length l <= n ->
  pick_list n (JSArray l) (pick_list n (JSArray l) v) = pick_list n (JSArray l) v.
Proof.
  intros Hl. destruct v; simpl; try (rewrite firstn_all2 by exact Hl; reflexivity).
  rewrite firstn_firstn, Nat.min_id. reflexivity.
Qed.

Lemma pick_number_idem (f : Num -> Num) (d : Num) (v : Value) :
  (forall n, f (f n) = f n) -> f d = d ->
  pick_number f d (pick_number f d v) = pick_number f d v.
Proof. intros Hf Hd. destruct v; simpl; congruence. Qed.

End Idempotence.

Section ItemIdempotence.
Import ResponseParser Closed.

Lemma highlight_idem (h : Value) : highlight (highlight h) = highlight h.
Proof.
  unfold highlight at 1. simpl prop. unfold lookup. simpl.
  rewrite !pick_text_idem, pick_number_idem by auto. reflexivity.
Qed.

Lemma improvement_idem (i : Value) : improvement (improvement i) = improvement i.
Proof.
  unfold improvement at 1. simpl prop. unfold lookup. simpl.
  rewrite !pick_text_idem, pick_enum_idem by (simpl; tauto). reflexivity.
Qed.

Lemma flow_section_idem (f : Value) : flow_section (flow_section f) = flow_section f.
Proof.
  unfold flow_section at 1. simpl prop. unfold lookup. simpl.
  rewrite !pick_text_idem, pick_list_idem by (simpl; lia). reflexivity.
Qed.

Lemma technical_assessment_idem (t : Value) :
  technical_assessment (technical_assessment t) = technical_assessment t.
Proof.
  unfold technical_assessment at 1. simpl prop. unfold lookup. simpl.
  rewrite pick_enum_idem by (simpl; tauto).
  rewrite !pick_list_idem by (simpl; lia).
  rewrite pick_text_idem. reflexivity.
Qed.

Lemma communication_analysis_idem (c : Value) :
  communication_analysis (communication_analysis c) = communication_analysis c.
Proof.
  unfold communication_analysis at 1. simpl prop. unfold lookup. simpl.
  rewrite pick_enum_idem by (simpl; tauto).
  rewrite !pick_text_idem. reflexivity.
Qed.

Lemma entities_idem (e : Value) : entities (entities e) = entities e.
Proof.
  unfold entities at 1. simpl prop. unfold lookup. simpl.
  rewrite !pick_list_idem by (simpl; lia). reflexivity.
Qed.

Lemma overall_recommendation_idem (r : Value) :
  overall_recommendation (overall_recommendation r) = overall_recommendation r.
Proof.
  unfold overall_recommendation at 1. simpl prop. unfold lookup. simpl.
  rewrite pick_enum_idem by (simpl; tauto).
  rewrite pick_number_idem by (auto using clamp_confidence_idem).
  rewrite !pick_list_idem by (simpl; lia).
  rewrite !pick_text_idem. reflexivity.
Qed.

Lemma interview_quality_idem (q : Value) :
  interview_quality (interview_quality q) = interview_quality q.
Proof.
  unfold interview_quality at 1. simpl prop. unfold lookup. simpl.
  rewrite pick_text_idem.
  rewrite !pick_list_idem by (simpl; lia). reflexivity.
Qed.

Lemma existsb_nullish_map (g : Value -> Value) (l : list Value) :
  (forall h, nullish (g h) = false) -> existsb nullish (map g l) = false.
Proof.
  intros Hg. induction l as [| h rest IH]; simpl; [reflexivity |].
  rewrite Hg, IH. reflexivity.
Qed.

Lemma mapped_idem (cap : nat) (g : Value -> Value) (v : Value) :
  (forall h, g (g h) = g h) -> (forall h, nullish (g h) = false) ->
  bind (mapped cap g v) (mapped cap g) = mapped cap g v.
Proof.
  intros Hidem Hobj.
  destruct v as [| | b | n | s | items | props];
    try (simpl; rewrite firstn_nil; reflexivity).
  simpl.
  destruct (existsb nullish (firstn cap items)) eqn:E; simpl; [reflexivity |].
  rewrite firstn_all2 by (rewrite length_map; apply firstn_le_length).
  rewrite existsb_nullish_map by exact Hobj.
  rewrite map_map. f_equal. f_equal. apply map_ext. intros h. apply Hidem.
Qed.

End ItemIdempotence.

(** C10.  Every per-field validator is idempotent: validating the value it
    returned gives that value again, for every input, malformed, partial or
    well formed.  (When the first application throws there is no value to
    validate again, and both sides are that exception.)  The validators are
    functions of their argument alone. *)
Theorem validators_idempotent (v : Value) :
  bind (ResponseParser.validateHighlights v) ResponseParser.validateHighlights
    = ResponseParser.validateHighlights v /\
  bind (ResponseParser.validateImprovements v) ResponseParser.validateImprovements
    = ResponseParser.validateImprovements v /\
  bind (ResponseParser.validateTechnicalAssessment v) ResponseParser.validateTechnicalAssessment
    = ResponseParser.validateTechnicalAssessment v /\
  bind (ResponseParser.validateCommunicationAnalysis v) ResponseParser.validateCommunicationAnalysis
    = ResponseParser.validateCommunicationAnalysis v /\
  bind (ResponseParser.validateEntities v) ResponseParser.validateEntities
    = ResponseParser.validateEntities v /\
  bind (ResponseParser.validateInterviewFlow v) ResponseParser.validateInterviewFlow
    = ResponseParser.validateInterviewFlow v /\
  bind (ResponseParser.validateOverallRecommendation v) ResponseParser.validateOverallRecommendation
    = ResponseParser.validateOverallRecommendation v /\
  bind (ResponseParser.validateInterviewQuality v) ResponseParser.validateInterviewQuality
    = ResponseParser.validateInterviewQuality v.
Proof.
  repeat split.
  - rewrite validateHighlights_closed.
    rewrite <- (mapped_idem 6 Closed.highlight v highlight_idem (fun _ => eq_refl)) at 2.
    destruct (Closed.mapped 6 Closed.highlight v); simpl;
      [apply validateHighlights_closed | reflexivity].
  - rewrite validateImprovements_closed.
    rewrite <- (mapped_idem 4 Closed.improvement v improvement_idem (fun _ => eq_refl)) at 2.
    destruct (Closed.mapped 4 Closed.improvement v); simpl;
      [apply validateImprovements_closed | reflexivity].
  - rewrite validateTechnicalAssessment_closed. simpl.
    rewrite validateTechnicalAssessment_closed, technical_assessment_idem. reflexivity.
  - rewrite validateCommunicationAnalysis_closed. simpl.
    rewrite validateCommunicationAnalysis_closed, communication_analysis_idem. reflexivity.
  - rewrite validateEntities_closed. simpl.
    rewrite validateEntities_closed, entities_idem. reflexivity.
  - rewrite validateInterviewFlow_closed.
    rewrite <- (mapped_idem 8 Closed.flow_section v flow_section_idem (fun _ => eq_refl)) at 2.
    destruct (Closed.mapped 8 Closed.flow_section v); simpl;
      [apply validateInterviewFlow_closed | reflexivity].
  - rewrite validateOverallRecommendation_closed. simpl.
    rewrite validateOverallRecommendation_closed, overall_recommendation_idem. reflexivity.
  - rewrite validateInterviewQuality_closed. simpl.
    rewrite validateInterviewQuality_closed, interview_quality_idem. reflexivity.
Qed.

(* ===================================================================== *)
(** * The overall recommendation                                         *)
(* ===================================================================== *)



(* ===================================================================== *)
(** * Highlights                                                         *)
(* ===================================================================== *)

Lemma Forall2_map_intro {A B : Type} (P : A -> B -> Prop) (g : A -> B) (l : list A) :
  (forall x, In x l -> P x (g x)) -> Forall2 P l (map g l).
Proof.
  induction l as [| x rest IH]; intros H; simpl; constructor.
  - apply H. left. reflexivity.
  - apply IH. intros y Hy. apply H. right. exact Hy.
Qed.

Lemma mapped_normal (cap : nat) (g : Value -> Value) (items : list Value) (out : Value) :
  Closed.mapped cap g (JSArray items) = Normal out ->
  existsb nullish (firstn cap items) = false /\ out = JSArray (map g (firstn cap items)).
Proof.
  simpl. destruct (existsb nullish (firstn cap items)); intros H; [discriminate |].
  injection H as <-. split; reflexivity.
Qed.

(* ===================================================================== *)
(** * The shape of a normalised analysis                                 *)
(* ===================================================================== *)

Section Shapes.
Import ResponseParser Closed Schema.

Lemma truthy_pick_text (d : string) (v : Value) :
  ToBoolean (JSString d) = true -> ToBoolean (pick_text d v) = true.
Proof. apply or_else_truthy. Qed.

Lemma includes_pick_enum (allowed : list string) (d : string) (v : Value) :
  In d allowed -> includes allowed (pick_enum allowed d v) = true.
Proof.
  intros Hd. unfold pick_enum. destruct (includes allowed v) eqn:E; [exact E |].
  apply includes_In, Hd.
Qed.

Lemma includes_truthy (allowed : list string) (v : Value) :
  forallb (fun s => negb (s =? "")) allowed = true ->
  includes allowed v = true -> ToBoolean v = true.
Proof.
  intros Hne Hin. apply includes_string in Hin. destruct Hin as [s [-> Hs]].
  rewrite forallb_forall in Hne. simpl. apply Hne, Hs.
Qed.

Lemma truthy_pick_enum (allowed : list string) (d : string) (v : Value) :
  In d allowed -> forallb (fun s => negb (s =? "")) allowed = true ->
  ToBoolean (pick_enum allowed d v) = true.
Proof.
  intros Hd Hne. apply (includes_truthy allowed); [exact Hne |].
  apply includes_pick_enum, Hd.
Qed.

Lemma list_upto_pick_list (n : nat) (d v : Value) :
  list_upto n d = true -> list_upto n (pick_list n d v) = true.
Proof.
  intros Hd. destruct v; simpl; try exact Hd.
  apply Nat.leb_le. rewrite length_firstn. apply Nat.le_min_l.
Qed.

Lemma is_number_pick_number (f : Num -> Num) (d : Num) (v : Value) :
  is_number (pick_number f d v) = true.
Proof. destruct v; reflexivity. Qed.

Lemma within_clamped (v : Value) :
  within 1 10 (pick_number clamp_confidence (num 7) v) = true.
Proof.
  destruct v; try reflexivity. simpl.
  destruct (clamp_confidence_range n) as [Hlo Hhi]. rewrite Hlo, Hhi. reflexivity.
Qed.

Lemma items_upto_mapped (cap : nat) (g : Value -> Value) (P : Value -> bool) (v out : Value) :
  (forall h, P (g h) = true) ->
  mapped cap g v = Normal out -> items_upto cap P out = true.
Proof.
  intros HP. destruct v as [| | b | n | s | items | props]; simpl;
    try (intros H; injection H as <-; reflexivity).
  destruct (existsb nullish (firstn cap items)); intros H; [discriminate |].
  injection H as <-. simpl. apply andb_true_intro. split.
  - apply Nat.leb_le. rewrite length_map, length_firstn. apply Nat.le_min_l.
  - apply forallb_forall. intros o Ho. apply in_map_iff in Ho.
    destruct Ho as [h [<- _]]. apply HP.
Qed.

Lemma highlight_has_shape (h : Value) : highlight_shape (highlight h) = true.
Proof.
  unfold highlight_shape, present.
  repeat (apply andb_true_intro; split);
    first [ reflexivity
          | apply truthy_pick_text; reflexivity
          | apply is_number_pick_number ].
Qed.

Lemma improvement_has_shape (i : Value) : improvement_shape (improvement i) = true.
Proof.
  unfold improvement_shape, present.
  repeat (apply andb_true_intro; split);
    first [ reflexivity
          | apply truthy_pick_text; reflexivity
          | apply truthy_pick_enum; [simpl; tauto | reflexivity] ].
Qed.

Lemma flow_section_has_shape (f : Value) : flow_section_shape (flow_section f) = true.
Proof.
  unfold flow_section_shape, present.
  repeat (apply andb_true_intro; split);
    first [ reflexivity
          | apply truthy_pick_text; reflexivity
          | apply list_upto_pick_list; reflexivity ].
Qed.

Lemma technical_assessment_has_shape (t : Value) :
  technical_assessment_shape (technical_assessment t) = true.
Proof.
  unfold technical_assessment_shape, present.
  repeat (apply andb_true_intro; split);
    first [ reflexivity
          | apply truthy_pick_text; reflexivity
          | apply truthy_pick_enum; [simpl; tauto | reflexivity]
          | apply list_upto_pick_list; reflexivity ].
Qed.

Lemma communication_analysis_has_shape (c : Value) :
  communication_analysis_shape (communication_analysis c) = true.
Proof.
  unfold communication_analysis_shape, present.
  repeat (apply andb_true_intro; split);
    first [ reflexivity
          | apply truthy_pick_text; reflexivity
          | apply truthy_pick_enum; [simpl; tauto | reflexivity] ].
Qed.

Lemma entities_has_shape (e : Value) : entities_shape (entities e) = true.
Proof.
  unfold entities_shape.
  repeat (apply andb_true_intro; split);
    first [ reflexivity
          | apply list_upto_pick_list; reflexivity ].
Qed.

Lemma overall_recommendation_has_shape (r : Value) :
  overall_recommendation_shape (overall_recommendation r) = true.
Proof.
  unfold overall_recommendation_shape, present.
  repeat (apply andb_true_intro; split);
    first [ reflexivity
          | apply truthy_pick_text; reflexivity
          | apply truthy_pick_enum; [simpl; tauto | reflexivity]
          | apply list_upto_pick_list; reflexivity
          | apply is_number_pick_number ].
Qed.

Lemma interview_quality_has_shape (q : Value) :
  interview_quality_shape (interview_quality q) = true.
Proof.
  unfold interview_quality_shape, present.
  repeat (apply andb_true_intro; split);
    first [ reflexivity
          | apply truthy_pick_text; reflexivity
          | apply list_upto_pick_list; reflexivity ].
Qed.

(** [validate] returns exactly when the three array validators do. *)
Lemma validate_normal (parsed out : Value) :
  validate parsed = Normal out ->
  exists h i f,
    mapped 6 highlight (prop parsed "highlights") = Normal h /\
    mapped 4 improvement (prop parsed "improvements") = Normal i /\
    mapped 8 flow_section (prop parsed "interview_flow") = Normal f /\
    out = JSObject
            [("highlights", h); ("improvements", i);
             ("technical_assessment", technical_assessment (prop parsed "technical_assessment"));
             ("communication_analysis",
              communication_analysis (prop parsed "communication_analysis"));
             ("entities", entities (prop parsed "entities"));
             ("interview_flow", f);
             ("overall_recommendation",
              overall_recommendation (prop parsed "overall_recommendation"));
             ("interview_quality", interview_quality (prop parsed "interview_quality"))].
Proof.
  unfold validate. rewrite !get_prop.
  destruct (nullish parsed); [discriminate |]. simpl.
  rewrite validateHighlights_closed, validateImprovements_closed,
    validateTechnicalAssessment_closed, validateCommunicationAnalysis_closed,
    validateEntities_closed, validateInterviewFlow_closed,
    validateOverallRecommendation_closed, validateInterviewQuality_closed.
  destruct (mapped 6 highlight (prop parsed "highlights")) as [h | e]; [| discriminate].
  destruct (mapped 4 improvement (prop parsed "improvements")) as [i | e]; [| discriminate].
  destruct (mapped 8 flow_section (prop parsed "interview_flow")) as [f | e]; [| discriminate].
  simpl. intros H. injection H as <-. exists h, i, f. repeat split.
Qed.

Lemma validate_shape (parsed out : Value) :
  validate parsed = Normal out ->
  analysis_shape out = true /\ checked_enums_valid out = true.
Proof.
  intros H. apply validate_normal in H.
  destruct H as [h [i [f [Hh [Hi [Hf ->]]]]]].
  split.
  - unfold analysis_shape.
    change (prop (JSObject _) "highlights") with h.
    change (prop (JSObject _) "improvements") with i.
    change (prop (JSObject _) "interview_flow") with f.
    change (prop (JSObject _) "technical_assessment")
      with (technical_assessment (prop parsed "technical_assessment")).
    change (prop (JSObject _) "communication_analysis")
      with (communication_analysis (prop parsed "communication_analysis")).
    change (prop (JSObject _) "entities") with (entities (prop parsed "entities")).
    change (prop (JSObject _) "overall_recommendation")
      with (overall_recommendation (prop parsed "overall_recommendation")).
    change (prop (JSObject _) "interview_quality")
      with (interview_quality (prop parsed "interview_quality")).
    rewrite (items_upto_mapped _ _ _ _ _ highlight_has_shape Hh).
    rewrite (items_upto_mapped _ _ _ _ _ improvement_has_shape Hi).
    rewrite (items_upto_mapped _ _ _ _ _ flow_section_has_shape Hf).
    rewrite technical_assessment_has_shape, communication_analysis_has_shape,
      entities_has_shape, overall_recommendation_has_shape, interview_quality_has_shape.
    reflexivity.
  - unfold checked_enums_valid.
    change (prop (JSObject _) "improvements") with i.
    change (prop (JSObject _) "technical_assessment")
      with (technical_assessment (prop parsed "technical_assessment")).
    change (prop (JSObject _) "communication_analysis")
      with (communication_analysis (prop parsed "communication_analysis")).
    change (prop (JSObject _) "overall_recommendation")
      with (overall_recommendation (prop parsed "overall_recommendation")).
    rewrite (items_upto_mapped 4 improvement
               (fun i => includes priorities (prop i "priority")) _ i
               (fun h => includes_pick_enum priorities "medium" _
                           (or_intror (or_introl eq_refl))) Hi).
    change (prop (technical_assessment _) "level")
      with (pick_enum levels "mid" (prop (prop parsed "technical_assessment") "level")).
    change (prop (communication_analysis _) "clarity")
      with (pick_enum clarities "good" (prop (prop parsed "communication_analysis") "clarity")).
    change (prop (overall_recommendation _) "decision")
      with (pick_enum decisions "maybe" (prop (prop parsed "overall_recommendation") "decision")).
    change (prop (overall_recommendation _) "confidence")
      with (pick_number clamp_confidence (num 7)
              (prop (prop parsed "overall_recommendation") "confidence")).
    rewrite !includes_pick_enum by (simpl; tauto).
    rewrite within_clamped. reflexivity.
Qed.

End Shapes.

(* ===================================================================== *)
(** * parseAndValidateResponse                                           *)
(* ===================================================================== *)

Lemma fallback_has_shape (transcript rawResponse : string) :
  Schema.analysis_shape (ResponseParser.createFallbackAnalysis transcript rawResponse) = true.
Proof. reflexivity. Qed.

Lemma fallback_structure (transcript rawResponse : string) :
  ResponseParser.validateAnalysisStructure
    (ResponseParser.createFallbackAnalysis transcript rawResponse) = Normal true.
Proof. reflexivity. Qed.

Lemma validate_structure (parsed out : Value) :
  ResponseParser.validate parsed = Normal out ->
  ResponseParser.validateAnalysisStructure out = Normal true.
Proof.
  intros H. apply validate_normal in H.
  destruct H as [h [i [f [_ [_ [_ ->]]]]]]. reflexivity.
Qed.

(** The two ways [parseAndValidateResponse] returns. *)
Lemma parseAndValidateResponse_cases {platform : Platform}
  (responseText originalTranscript : string) :
  (ResponseParser.parseAndValidateResponse responseText originalTranscript
     = Normal (ResponseParser.createFallbackAnalysis originalTranscript responseText) /\
   ((exists e, JSON_parse (ResponseParser.jsonText responseText) = Throw e) \/
    (exists parsed e, JSON_parse (ResponseParser.jsonText responseText) = Normal parsed /\
                      ResponseParser.validate parsed = Throw e))) \/
  (exists parsed out,
     JSON_parse (ResponseParser.jsonText responseText) = Normal parsed /\
     ResponseParser.validate parsed = Normal out /\
     ResponseParser.parseAndValidateResponse responseText originalTranscript = Normal out).
Proof.
  unfold ResponseParser.parseAndValidateResponse.
  destruct (JSON_parse (ResponseParser.jsonText responseText)) as [parsed | e] eqn:Hparse.
  - simpl. destruct (ResponseParser.validate parsed) as [out | e] eqn:Hvalidate.
    + right. exists parsed, out. auto.
    + left. split; [reflexivity |]. right. exists parsed, e. auto.
  - left. split; [reflexivity |]. left. exists e. reflexivity.
Qed.

(** C5.  [parseAndValidateResponse] never throws: for every text it returns
    a value, which passes [validateAnalysisStructure].  The value is the
    fallback analysis whenever [JSON.parse] fails on the extracted text (a
    syntax error, or a text without a brace-delimited object that is not JSON)
    and whenever a validator throws on the parsed value (an array containing
    [null]); otherwise it is the validated object. *)
Theorem parseAndValidateResponse_total {platform : Platform}
  (responseText originalTranscript : string) :
  exists out,
    ResponseParser.parseAndValidateResponse responseText originalTranscript = Normal out /\
    ResponseParser.validateAnalysisStructure out = Normal true /\
    (out = ResponseParser.createFallbackAnalysis originalTranscript responseText \/
     exists parsed,
       JSON_parse (ResponseParser.jsonText responseText) = Normal parsed /\
       ResponseParser.validate parsed = Normal out) /\
    (forall e, JSON_parse (ResponseParser.jsonText responseText) = Throw e ->
       out = ResponseParser.createFallbackAnalysis originalTranscript responseText) /\
    (forall parsed e,
       JSON_parse (ResponseParser.jsonText responseText) = Normal parsed ->
       ResponseParser.validate parsed = Throw e ->
       out = ResponseParser.createFallbackAnalysis originalTranscript responseText).
Proof.
  destruct (parseAndValidateResponse_cases responseText originalTranscript)
    as [[Hrun _] | [parsed [out [Hparse [Hvalidate Hrun]]]]].
  - eexists. split; [exact Hrun |]. split; [apply fallback_structure |].
    split; [left; reflexivity |]. split; reflexivity.
  - exists out. split; [exact Hrun |].
    split; [exact (validate_structure _ _ Hvalidate) |].
    split; [right; exists parsed; auto |]. split.
    + intros e He. congruence.
    + intros parsed' e Hp He. congruence.
Qed.

Lemma parseAndValidateResponse_total_witness :
  ResponseParser.parseAndValidateResponse (platform := Examples.reference_platform)
    Examples.not_json Examples.transcript
    = Normal (ResponseParser.createFallbackAnalysis Examples.transcript Examples.not_json) /\
  ResponseParser.parseAndValidateResponse (platform := Examples.reference_platform)
    Examples.null_highlight Examples.transcript
    = Normal (ResponseParser.createFallbackAnalysis Examples.transcript Examples.null_highlight).
Proof.
  split.
  - destruct (parseAndValidateResponse_total (platform := Examples.reference_platform)
                Examples.not_json Examples.transcript)
      as [out [Hrun [_ [_ [Hsyntax _]]]]].
    rewrite Hrun. f_equal. apply (Hsyntax SyntaxError). reflexivity.
  - destruct (parseAndValidateResponse_total (platform := Examples.reference_platform)
                Examples.null_highlight Examples.transcript)
      as [out [Hrun [_ [_ [_ Hvalidator]]]]].
    rewrite Hrun. f_equal.
    apply (Hvalidator (JSObject [("highlights", JSArray [JSNull])]) TypeError); reflexivity.
Defined.

(** C1, as the code has it.  For every text [parseAndValidateResponse]
    returns an object with exactly the eight top-level keys: [highlights],
    [improvements] and [interview_flow] are arrays within their caps of
    objects with all their keys, the other five are objects with all their
    keys; every list is an array within its cap, every confidence is a number
    and every other field is present.  On the validated branch [priority],
    [level], [clarity] and [decision] hold a value of their enum and the
    overall confidence lies between 1 and 10; on the other branch the value is
    the fallback analysis. *)
Theorem normalised_analysis_shape {platform : Platform}
  (responseText originalTranscript : string) :
  exists out,
    ResponseParser.parseAndValidateResponse responseText originalTranscript = Normal out /\
    Schema.analysis_shape out = true /\
    (out = ResponseParser.createFallbackAnalysis originalTranscript responseText \/
     Schema.checked_enums_valid out = true).
Proof.
  destruct (parseAndValidateResponse_cases responseText originalTranscript)
    as [[Hrun _] | [parsed [out [Hparse [Hvalidate Hrun]]]]].
  - eexists. split; [exact Hrun |]. split; [apply fallback_has_shape | left; reflexivity].
  - exists out. split; [exact Hrun |].
    destruct (validate_shape _ _ Hvalidate) as [Hshape Henums]. auto.
Qed.

(** C1 as stated fails on the fallback branch, whose [level] and [clarity]
    are ["unknown"], and on the validated branch, where the category of a
    highlight is not checked. *)
Lemma enum_valid_counterexample :
  (exists out,
     ResponseParser.parseAndValidateResponse (platform := Examples.reference_platform)
       Examples.not_json "" = Normal out /\
     prop (prop out "technical_assessment") "level" = JSString "unknown" /\
     includes Schema.levels (JSString "unknown") = false /\
     prop (prop out "communication_analysis") "clarity" = JSString "unknown" /\
     includes Schema.clarities (JSString "unknown") = false /\
     Schema.all_enums_valid out = false) /\
  (exists out,
     ResponseParser.parseAndValidateResponse (platform := Examples.reference_platform)
       Examples.unchecked_highlight "" = Normal out /\
     Schema.all_enums_valid out = false).
Proof.
  split; (eexists; split; [vm_compute; reflexivity |]); repeat split.
Qed.

(* ===================================================================== *)
(** * The highlights of a normalised reply                               *)
(* ===================================================================== *)

Lemma mapped_kept (cap : nat) (g : Value -> Value) (v : Value) :
  Closed.mapped cap g v =
  if existsb nullish (Closed.kept cap v) then Throw TypeError
  else Normal (JSArray (map g (Closed.kept cap v))).
Proof. destruct v; reflexivity. Qed.

(** [validate] throws exactly when one of the items that the three array
    validators keep is [null] or [undefined]; the parsed value itself is not
    one of the two. *)
Lemma validate_kept (parsed : Value) :
  nullish parsed = false ->
  ResponseParser.validate parsed =
  if existsb nullish (Closed.kept 6 (prop parsed "highlights")) ||
     existsb nullish (Closed.kept 4 (prop parsed "improvements")) ||
     existsb nullish (Closed.kept 8 (prop parsed "interview_flow"))
  then Throw TypeError
  else Normal (JSObject
         [("highlights",
           JSArray (map Closed.highlight (Closed.kept 6 (prop parsed "highlights"))));
          ("improvements",
           JSArray (map Closed.improvement (Closed.kept 4 (prop parsed "improvements"))));
          ("technical_assessment",
           Closed.technical_assessment (prop parsed "technical_assessment"));
          ("communication_analysis",
           Closed.communication_analysis (prop parsed "communication_analysis"));
          ("entities", Closed.entities (prop parsed "entities"));
          ("interview_flow",
           JSArray (map Closed.flow_section (Closed.kept 8 (prop parsed "interview_flow"))));
          ("overall_recommendation",
           Closed.overall_recommendation (prop parsed "overall_recommendation"));
          ("interview_quality", Closed.interview_quality (prop parsed "interview_quality"))]).
Proof.
  intros Hparsed. unfold ResponseParser.validate. rewrite !get_prop, Hparsed.
  unfold JS.bind at 2 4 6 8 10 12 14 16.
  rewrite validateHighlights_closed, validateImprovements_closed,
    validateTechnicalAssessment_closed, validateCommunicationAnalysis_closed,
    validateEntities_closed, validateInterviewFlow_closed,
    validateOverallRecommendation_closed, validateInterviewQuality_closed.
  rewrite !mapped_kept.
  destruct (existsb nullish (Closed.kept 6 (prop parsed "highlights"))); [reflexivity |].
  destruct (existsb nullish (Closed.kept 4 (prop parsed "improvements"))); [reflexivity |].
  destruct (existsb nullish (Closed.kept 8 (prop parsed "interview_flow"))); reflexivity.
Qed.

Lemma validated_highlights (parsed out : Value) :
  ResponseParser.validate parsed = Normal out ->
  prop out "highlights"
    = JSArray (map Closed.highlight (Closed.kept 6 (prop parsed "highlights"))).
Proof.
  intros Hout.
  assert (nullish parsed = false) as Hparsed.
  { unfold ResponseParser.validate in Hout. rewrite get_prop in Hout.
    destruct (nullish parsed); [discriminate | reflexivity]. }
  rewrite (validate_kept parsed Hparsed) in Hout.
  destruct (_ || _ || _); [discriminate |].
  injection Hout as <-. reflexivity.
Qed.

Lemma kept_not_nullish (cap : nat) (v h : Value) :
  existsb nullish (Closed.kept cap v) = false -> In h (Closed.kept cap v) -> nullish h = false.
Proof.
  intros Hnone Hin. destruct (nullish h) eqn:N; [| reflexivity].
  assert (existsb nullish (Closed.kept cap v) = true) as Habs
    by (apply existsb_exists; eauto).
  congruence.
Qed.

(** C6, as the code has it.  The normalised highlights are those of the
    fallback analysis (one item, ["general"] with confidence 0.5) when
    [JSON.parse] fails or a validator throws on the parsed value.  Otherwise
    they come from the highlights of the parsed value, whose category and
    confidence are not checked: every item has the category of the input item
    when that is truthy and ["general"] otherwise, and the confidence of the
    input item when that is a number and 0.7 otherwise.  So the category is in
    the enum and the confidence in [0,1] exactly when the input item's own
    values, where it has them, are. *)
Theorem highlights_pass_through {platform : Platform}
  (responseText originalTranscript : string) :
  exists out outs,
    ResponseParser.parseAndValidateResponse responseText originalTranscript = Normal out /\
    prop out "highlights" = JSArray outs /\
    ((out = ResponseParser.createFallbackAnalysis originalTranscript responseText /\
      ((exists e, JSON_parse (ResponseParser.jsonText responseText) = Throw e) \/
       (exists parsed e,
          JSON_parse (ResponseParser.jsonText responseText) = Normal parsed /\
          ResponseParser.validate parsed = Throw e)) /\
      forallb Schema.highlight_conforms outs = true) \/
     (exists parsed,
        JSON_parse (ResponseParser.jsonText responseText) = Normal parsed /\
        ResponseParser.validate parsed = Normal out /\
        Forall2
          (fun h o =>
             prop o "category" = or_else (prop h "category") (JSString "general") /\
             prop o "confidence" = match prop h "confidence" with
                                   | JSNumber n => JSNumber n
                                   | _ => JSNumber (Fin (7 # 10))
                                   end /\
             Schema.highlight_conforms o =
               (if ToBoolean (prop h "category")
                then includes Schema.categories (prop h "category") else true) &&
               (if Schema.is_number (prop h "confidence")
                then Schema.within 0 1 (prop h "confidence") else true))
          (Closed.kept 6 (prop parsed "highlights")) outs)).
Proof.
  destruct (parseAndValidateResponse_cases responseText originalTranscript)
    as [[Hrun Hwhy] | [parsed [out [Hparsed [Hvalidate Hrun]]]]].
  - eexists. eexists. split; [exact Hrun |]. split; [reflexivity |].
    left. split; [reflexivity |]. split; [exact Hwhy | reflexivity].
  - exists out. eexists. split; [exact Hrun |].
    split; [apply (validated_highlights parsed out Hvalidate) |].
    right. exists parsed. split; [exact Hparsed |]. split; [exact Hvalidate |].
    apply Forall2_map_intro. intros h _.
    unfold Schema.highlight_conforms.
    change (prop (Closed.highlight h) "category")
      with (or_else (prop h "category") (JSString "general")).
    change (prop (Closed.highlight h) "confidence")
      with (Closed.pick_number (fun n => n) (Fin (7 # 10)) (prop h "confidence")).
    unfold Closed.pick_number, or_else.
    split; [reflexivity |]. split.
    + destruct (prop h "confidence"); reflexivity.
    + destruct (ToBoolean (prop h "category")); destruct (prop h "confidence"); reflexivity.
Qed.

Lemma highlights_pass_through_witness :
  exists out outs,
    ResponseParser.parseAndValidateResponse (platform := Examples.reference_platform)
      Examples.conforming_highlights "" = Normal out /\
    prop out "highlights" = JSArray outs /\
    map (fun o => prop o "category") outs = [JSString "leadership"; JSString "general"] /\
    forallb Schema.highlight_conforms outs = true.
Proof.
  destruct (highlights_pass_through (platform := Examples.reference_platform)
              Examples.conforming_highlights "") as [out [outs [Hrun [Hhighlights _]]]].
  exists out, outs. split; [exact Hrun |]. split; [exact Hhighlights |].
  vm_compute in Hrun. injection Hrun as <-.
  vm_compute in Hhighlights. injection Hhighlights as <-.
  split; reflexivity.
Defined.

(** C6 as stated fails: the normalised highlight keeps the category
    ["vibes"] and the confidence 5 of the reply. *)
Lemma highlights_conform_counterexample :
  exists out,
    ResponseParser.parseAndValidateResponse (platform := Examples.reference_platform)
      Examples.unchecked_highlight "" = Normal out /\
    prop out "highlights" =
      JSArray [JSObject [("text", JSString "Shipped it");
                         ("category", JSString "vibes");
                         ("confidence", JSNumber (num 5));
                         ("reasoning", JSString "Said so")]] /\
    Schema.items_upto 6 Schema.highlight_conforms (prop out "highlights") = false /\
    includes Schema.categories (JSString "vibes") = false /\
    Schema.within 0 1 (JSNumber (num 5)) = false.
Proof.
  eexists. split; [vm_compute; reflexivity |].
  repeat split.
Qed.

(** C7, as the code has it.  Let the reply parse to a value whose
    highlights are an array.  When none of the items that the three array
    validators keep is [null] (the first 6 highlights, the first 4
    improvements, the first 8 sections of the interview flow), the normalised
    highlights are min(6, n) items for an input of n items (6 for an input of
    20): the results of normalising the first six, in their order; and the
    same holds for the improvements and the sections of the flow.  When one of
    the kept items is [null], the result is the fallback analysis with its
    single highlight.  A list that is copied is cut to its cap [n]: shorter
    lists are kept whole, nothing is padded or rejected. *)
Theorem highlights_truncated {platform : Platform}
  (responseText originalTranscript : string) (parsed : Value) (items : list Value) :
  JSON_parse (ResponseParser.jsonText responseText) = Normal parsed ->
  prop parsed "highlights" = JSArray items ->
  (exists out,
     ResponseParser.parseAndValidateResponse responseText originalTranscript = Normal out /\
     (existsb nullish (firstn 6 items) = false ->
      existsb nullish (Closed.kept 4 (prop parsed "improvements")) = false ->
      existsb nullish (Closed.kept 8 (prop parsed "interview_flow")) = false ->
      exists highlights improvements sections,
        prop out "highlights" = JSArray highlights /\
        List.length highlights = Nat.min 6 (List.length items) /\
        (List.length items = 20 -> List.length highlights = 6) /\
        Forall2 (fun h o => ResponseParser.validateHighlight h = Normal o)
          (firstn 6 items) highlights /\
        prop out "improvements" = JSArray improvements /\
        Forall2 (fun i o => ResponseParser.validateImprovement i = Normal o)
          (Closed.kept 4 (prop parsed "improvements")) improvements /\
        prop out "interview_flow" = JSArray sections /\
        Forall2 (fun f o => ResponseParser.validateFlowSection f = Normal o)
          (Closed.kept 8 (prop parsed "interview_flow")) sections) /\
     (existsb nullish (firstn 6 items) = true \/
      existsb nullish (Closed.kept 4 (prop parsed "improvements")) = true \/
      existsb nullish (Closed.kept 8 (prop parsed "interview_flow")) = true ->
      out = ResponseParser.createFallbackAnalysis originalTranscript responseText /\
      exists single, prop out "highlights" = JSArray [single])) /\
  (forall x k n default l, get_opt x k = Normal (JSArray l) ->
     ResponseParser.list_field get_opt x k n default = Normal (JSArray (firstn n l))).
Proof.
  intros Hparsed Hitems.
  assert (nullish parsed = false) as Hvalue.
  { destruct parsed; try reflexivity; discriminate. }
  assert (Closed.kept 6 (prop parsed "highlights") = firstn 6 items) as Hkept
    by (rewrite Hitems; reflexivity).
  split.
  - unfold ResponseParser.parseAndValidateResponse. rewrite Hparsed.
    unfold JS.bind at 1. rewrite (validate_kept parsed Hvalue), Hkept.
    destruct (existsb nullish (firstn 6 items)) eqn:Hh;
      [| destruct (existsb nullish (Closed.kept 4 (prop parsed "improvements"))) eqn:Hi;
         [| destruct (existsb nullish (Closed.kept 8 (prop parsed "interview_flow"))) eqn:Hf]].
    + eexists. split; [reflexivity |]. split; [discriminate |].
      intros _. split; [reflexivity | eexists; reflexivity].
    + eexists. split; [reflexivity |]. split; [discriminate |].
      intros _. split; [reflexivity | eexists; reflexivity].
    + eexists. split; [reflexivity |]. split; [discriminate |].
      intros _. split; [reflexivity | eexists; reflexivity].
    + eexists. split; [reflexivity |]. split.
      * intros _ _ _. eexists. eexists. eexists.
        split; [reflexivity |]. rewrite length_map, length_firstn.
        split; [reflexivity |]. split; [intros H20; rewrite H20; reflexivity |].
        split; [| split; [reflexivity |]; split; [| split; [reflexivity |]]].
        -- apply Forall2_map_intro. intros h Hin. rewrite validateHighlight_closed.
           rewrite <- Hkept in Hh, Hin. rewrite (kept_not_nullish 6 _ h Hh Hin). reflexivity.
        -- apply Forall2_map_intro. intros h Hin. rewrite validateImprovement_closed.
           rewrite (kept_not_nullish 4 _ h Hi Hin). reflexivity.
        -- apply Forall2_map_intro. intros h Hin. rewrite validateFlowSection_closed.
           rewrite (kept_not_nullish 8 _ h Hf Hin). reflexivity.
      * intros [Habs | [Habs | Habs]]; discriminate.
  - intros x k n default l Hl. rewrite list_field_get_opt.
    rewrite get_opt_prop in Hl. injection Hl as ->. reflexivity.
Qed.

Lemma highlights_truncated_witness :
  exists out outs,
    ResponseParser.parseAndValidateResponse (platform := Examples.reference_platform)
      Examples.twenty_highlights "" = Normal out /\
    prop out "highlights" = JSArray outs /\
    List.length outs = 6 /\
    map (fun o => prop o "text") outs =
      [JSString "0"; JSString "1"; JSString "2"; JSString "3"; JSString "4"; JSString "5"].
Proof.
  destruct (highlights_truncated (platform := Examples.reference_platform)
              Examples.twenty_highlights ""
              (JSObject [("highlights", JSArray (Examples.numbered 20))])
              (Examples.numbered 20))
    as [[out [Hrun [Hclean _]]] _].
  - vm_compute. reflexivity.
  - reflexivity.
  - destruct Hclean as [outs [improvements [sections [Hhighlights [_ [Hlength _]]]]]];
      try reflexivity.
    exists out, outs. split; [exact Hrun |]. split; [exact Hhighlights |].
    split; [apply Hlength; reflexivity |].
    vm_compute in Hrun. injection Hrun as <-.
    vm_compute in Hhighlights. injection Hhighlights as <-. reflexivity.
Defined.

(** C7 as stated fails: the reply has twenty highlights, all [null]; the
    validator throws on the first, and the normalised analysis is the fallback
    with its single highlight. *)
Lemma highlights_truncated_counterexample :
  (exists parsed items,
     JSON.parse Examples.twenty_nulls = Normal parsed /\
     prop parsed "highlights" = JSArray items /\ List.length items = 20 /\
     ResponseParser.validateHighlights (JSArray items) = Throw TypeError) /\
  (exists out outs,
     ResponseParser.parseAndValidateResponse (platform := Examples.reference_platform)
       Examples.twenty_nulls "" = Normal out /\
     prop out "highlights" = JSArray outs /\ List.length outs = 1).
Proof.
  split.
  - eexists. eexists. split; [vm_compute; reflexivity |].
    repeat split.
  - eexists. eexists. split; [vm_compute; reflexivity |].
    repeat split.
Qed.

(* ===================================================================== *)
(** * analyzeTranscript                                                  *)
(* ===================================================================== *)

Import Runtime.

Lemma too_short_trim (transcript : string) :
  Orchestrator.too_short transcript = (String.length (trim transcript) <? 50)%nat.
Proof.
  unfold Orchestrator.too_short.
  destruct (String.eqb_spec transcript "") as [-> | _]; reflexivity.
Qed.

Lemma advance_zero (st : State) : advance 0 0 [] st = st.
Proof. destruct st. unfold advance. simpl. rewrite app_nil_r. reflexivity. Qed.

Lemma advance_advance (f c f' c' : nat) (ev ev' : list Event) (st : State) :
  advance f' c' ev' (advance f c ev st) = advance (f' + f) (c' + c) (ev ++ ev') st.
Proof.
  unfold advance. simpl. rewrite <- !Nat.add_assoc, <- app_assoc. reflexivity.
Qed.

Section Demo.
Context {platform : Platform} (env : Environment).

(** The demo generator reads the clock once, makes no request, sets no
    timer and does not throw. *)
Lemma generateDemoAnalysis_returns (transcript : string) (mentor interviewType : Value)
  (st : State) :
  exists v,
    DemoAnalysisGenerator.generateDemoAnalysis env transcript mentor interviewType st
      = (Normal v, advance 0 1 [] st) /\
    prop v "success" = JSBool true /\
    prop (prop v "metadata") "demo_mode" = JSBool true.
Proof.
  eexists. split; [| split].
  - unfold DemoAnalysisGenerator.generateDemoAnalysis, Date_new_toISOString, Date_now,
      Runtime.bind, Runtime.ret, advance.
    simpl. rewrite app_nil_r. reflexivity.
  - reflexivity.
  - reflexivity.
Qed.

End Demo.

Section RetryLoop.
Context {platform : Platform} (env : Environment).
Variable performAnalysis : string -> Z -> Value -> Value -> Async Value.
Variable generateDemoAnalysis : string -> Value -> Value -> Async Value.
Variables (transcript : string) (mentor interviewType : Value).

Let attempts := Orchestrator.attempts performAnalysis generateDemoAnalysis.

(** One iteration of the loop: the result of the attempt is returned; a
    failure of the last attempt gives the demo analysis, a failure of an
    earlier one a sleep of [RETRY_DELAY * attempt] and the next attempt. *)
Lemma attempts_step (remaining : nat) (attempt : Z) (st : State) :
  attempts (S remaining) attempt transcript mentor interviewType st =
  match performAnalysis transcript attempt mentor interviewType st with
  | (Normal result, st') => (Normal result, st')
  | (Throw _, st') =>
      if (attempt =? MAX_RETRIES)%Z
      then generateDemoAnalysis transcript mentor interviewType st'
      else attempts remaining (attempt + 1)%Z transcript mentor interviewType
             (advance 0 0 [Slept (RETRY_DELAY * attempt)] st')
  end.
Proof.
  unfold attempts. simpl. unfold Runtime.try_catch, Runtime.bind, Runtime.ret.
  destruct (performAnalysis transcript attempt mentor interviewType st) as [[result | e] st'].
  - reflexivity.
  - destruct (attempt =? MAX_RETRIES)%Z; reflexivity.
Qed.

Hypothesis demo_returns :
  forall st, exists v st', generateDemoAnalysis transcript mentor interviewType st = (Normal v, st').

(** The loop of three attempts returns a value: it never throws and never
    falls through. *)
Lemma attempts_return (st : State) :
  exists v st',
    attempts (Z.to_nat MAX_RETRIES) 1%Z transcript mentor interviewType st = (Normal v, st').
Proof.
  change (Z.to_nat MAX_RETRIES) with 3%nat.
  rewrite attempts_step.
  destruct (performAnalysis transcript 1%Z mentor interviewType st) as [[v | e] st1]; [eauto |].
  change (1 =? MAX_RETRIES)%Z with false. cbv iota.
  rewrite attempts_step.
  destruct (performAnalysis transcript (1 + 1)%Z mentor interviewType _) as [[v | e2] st2];
    [eauto |].
  change (1 + 1 =? MAX_RETRIES)%Z with false. cbv iota.
  rewrite attempts_step.
  destruct (performAnalysis transcript (1 + 1 + 1)%Z mentor interviewType _) as [[v | e3] st3];
    [eauto |].
  change (1 + 1 + 1 =? MAX_RETRIES)%Z with true. cbv iota.
  apply demo_returns.
Qed.

Lemma analyzeTranscript_short (st : State) :
  (String.length (trim transcript) < 50)%nat ->
  Orchestrator.analyzeTranscript env performAnalysis generateDemoAnalysis
    transcript mentor interviewType st
  = (Throw (Error "Transcript too short or empty for meaningful analysis"), st).
Proof.
  intros Hshort. unfold Orchestrator.analyzeTranscript.
  rewrite too_short_trim. apply Nat.ltb_lt in Hshort. rewrite Hshort. reflexivity.
Qed.

Lemma analyzeTranscript_long (st : State) :
  (50 <= String.length (trim transcript))%nat ->
  Orchestrator.analyzeTranscript env performAnalysis generateDemoAnalysis
    transcript mentor interviewType st =
  if Orchestrator.key_not_configured env
  then generateDemoAnalysis transcript mentor interviewType st
  else attempts (Z.to_nat MAX_RETRIES) 1%Z transcript mentor interviewType st.
Proof.
  intros Hlong. unfold Orchestrator.analyzeTranscript.
  rewrite too_short_trim. apply Nat.ltb_ge in Hlong. rewrite Hlong.
  destruct (Orchestrator.key_not_configured env); reflexivity.
Qed.

Lemma analyzeTranscript_returns (st : State) :
  (50 <= String.length (trim transcript))%nat ->
  exists v st',
    Orchestrator.analyzeTranscript env performAnalysis generateDemoAnalysis
      transcript mentor interviewType st = (Normal v, st').
Proof.
  intros Hlong. rewrite (analyzeTranscript_long st Hlong).
  destruct (Orchestrator.key_not_configured env).
  - apply demo_returns.
  - apply attempts_return.
Qed.

End RetryLoop.

Lemma stringifiable_default (v : Value) :
  Errors.stringifiable (Errors.default_null v) = Errors.stringifiable v.
Proof. destruct v; reflexivity. Qed.

(** The head of [analyzeTranscript]: a [TypeError] before anything else when
    one of the two cannot be converted to a string, the body otherwise. *)
Lemma logged_cases {A : Type} (mentor interviewType : Value)
  (body : Value -> Value -> Async A) (st : State) :
  Errors.logged mentor interviewType body st =
  if Errors.stringifiable mentor && Errors.stringifiable interviewType
  then body (Errors.default_null mentor) (Errors.default_null interviewType) st
  else (Throw TypeError, st).
Proof.
  unfold Errors.logged, Errors.template, Runtime.bind, lift.
  cbn [forallb]. rewrite !stringifiable_default, andb_true_r.
  destruct (Errors.stringifiable mentor && Errors.stringifiable interviewType); reflexivity.
Qed.

(** With a mentor and an interview type that convert to strings, the head
    lets the body run, on the two parameters with their defaults. *)
Lemma logged_runs {A : Type} (mentor interviewType : Value)
  (body : Value -> Value -> Async A) (st : State) :
  Errors.stringifiable mentor = true ->
  Errors.stringifiable interviewType = true ->
  Errors.logged mentor interviewType body st
    = body (Errors.default_null mentor) (Errors.default_null interviewType) st.
Proof. intros Hmentor Htype. rewrite logged_cases, Hmentor, Htype. reflexivity. Qed.

(** C2, as the code has it.  [analyzeTranscript] first logs the mentor and
    the interview type: when one of them does not convert to a string it
    throws a [TypeError] there, before the guard.  When they convert (as the
    optional string tags of the contract do), it measures the transcript after
    removing leading and trailing white space: when fewer than 50 characters
    remain it throws the too-short error at once, leaving the world as it was
    (no request, no timer); when 50 or more remain it returns a value.  So for
    such tags this is the only way it throws.  Both services agree. *)
Theorem analyzeTranscript_rejects_short {platform : Platform} (env : Environment)
  (transcript : string) (mentor interviewType : Value) (st : State) :
  (Errors.stringifiable mentor = true -> Errors.stringifiable interviewType = true ->
   ((String.length (trim transcript) < 50)%nat ->
      Errors.logged mentor interviewType (DeepseekEnhanced.analyzeTranscript env transcript) st
        = (Throw (Error "Transcript too short or empty for meaningful analysis"), st) /\
      Errors.logged mentor interviewType (AiService.analyzeTranscript env transcript) st
        = (Throw (Error "Transcript too short or empty for meaningful analysis"), st)) /\
   ((50 <= String.length (trim transcript))%nat ->
      (exists v st',
         Errors.logged mentor interviewType (DeepseekEnhanced.analyzeTranscript env transcript) st
           = (Normal v, st')) /\
      (exists v st',
         Errors.logged mentor interviewType (AiService.analyzeTranscript env transcript) st
           = (Normal v, st')))) /\
  (Errors.stringifiable mentor = false \/ Errors.stringifiable interviewType = false ->
   Errors.logged mentor interviewType (DeepseekEnhanced.analyzeTranscript env transcript) st
     = (Throw TypeError, st) /\
   Errors.logged mentor interviewType (AiService.analyzeTranscript env transcript) st
     = (Throw TypeError, st)).
Proof.
  split.
  - intros Hmentor Htype. rewrite !logged_runs by assumption. split.
    + intros Hshort. split; apply analyzeTranscript_short; exact Hshort.
    + intros Hlong. split.
      * apply analyzeTranscript_returns; [| exact Hlong].
        intros st0.
        destruct (generateDemoAnalysis_returns env transcript
                    (Errors.default_null mentor) (Errors.default_null interviewType) st0)
          as [v [Hv _]]. eauto.
      * apply analyzeTranscript_returns; [| exact Hlong].
        intros st0.
        destruct (generateDemoAnalysis_returns env transcript
                    (Errors.default_null mentor) (Errors.default_null interviewType) st0)
          as [v [Hv _]]. eauto.
  - intros Hbad. rewrite !logged_cases.
    assert (Errors.stringifiable mentor && Errors.stringifiable interviewType = false) as ->.
    { destruct Hbad as [-> | ->]; [reflexivity | apply andb_false_r]. }
    split; reflexivity.
Qed.

Lemma analyzeTranscript_rejects_short_witness :
  Errors.logged (JSString "yoda") JSUndefined
    (DeepseekEnhanced.analyzeTranscript (platform := Examples.reference_platform)
       (Examples.answering "{}") "   too short   ") initial
    = (Throw (Error "Transcript too short or empty for meaningful analysis"), initial) /\
  (exists v st',
     Errors.logged (JSString "yoda") JSUndefined
       (DeepseekEnhanced.analyzeTranscript (platform := Examples.reference_platform)
          (Examples.answering "{}") Examples.transcript) initial = (Normal v, st')) /\
  Errors.logged (JSObject [("toString", JSNumber (num 1))]) JSUndefined
    (DeepseekEnhanced.analyzeTranscript (platform := Examples.reference_platform)
       (Examples.answering "{}") Examples.transcript) initial
    = (Throw TypeError, initial).
Proof.
  split; [| split].
  - apply (analyzeTranscript_rejects_short (platform := Examples.reference_platform)
             (Examples.answering "{}") "   too short   " (JSString "yoda") JSUndefined initial);
      [reflexivity | reflexivity | vm_compute; lia].
  - apply (analyzeTranscript_rejects_short (platform := Examples.reference_platform)
             (Examples.answering "{}") Examples.transcript (JSString "yoda") JSUndefined initial);
      [reflexivity | reflexivity | vm_compute; lia].
  - apply (analyzeTranscript_rejects_short (platform := Examples.reference_platform)
             (Examples.answering "{}") Examples.transcript
             (JSObject [("toString", JSNumber (num 1))]) JSUndefined initial).
    left. reflexivity.
Defined.

(** C2 as stated fails: a sentence of 56 characters has 45 characters that
    are not white space, and it is analysed; a request is made. *)
Lemma short_content_counterexample :
  (Schema.non_space_length Examples.short_sentence < 50)%nat /\
  exists v st',
    Errors.logged JSNull JSNull
      (DeepseekEnhanced.analyzeTranscript (platform := Examples.reference_platform)
         (Examples.answering "{}") Examples.short_sentence) initial
      = (Normal v, st') /\
    prop v "success" = JSBool true /\
    trace st' = [Fetched].
Proof.
  split; [vm_compute; lia |].
  eexists. eexists. split; [vm_compute; reflexivity |]. split; reflexivity.
Qed.

(** C9.  With a transcript long enough, and a mentor and an interview type
    that convert to strings, when the key is unset, empty or the placeholder,
    [analyzeTranscript] is the demo generator: it returns the demo analysis,
    whose metadata has [demo_mode] true, and it makes no request and sets no
    timer. *)
Theorem demo_without_credentials {platform : Platform} (env : Environment)
  (transcript : string) (mentor interviewType : Value) (st : State) :
  (50 <= String.length (trim transcript))%nat ->
  Errors.stringifiable mentor = true ->
  Errors.stringifiable interviewType = true ->
  OPENROUTER_API_KEY env = None \/
  OPENROUTER_API_KEY env = Some "" \/
  OPENROUTER_API_KEY env = Some "your_openrouter_api_key_here" ->
  Errors.logged mentor interviewType (DeepseekEnhanced.analyzeTranscript env transcript) st
    = DemoAnalysisGenerator.generateDemoAnalysis env transcript
        (Errors.default_null mentor) (Errors.default_null interviewType) st /\
  exists v st',
    Errors.logged mentor interviewType (DeepseekEnhanced.analyzeTranscript env transcript) st
      = (Normal v, st') /\
    prop (prop v "metadata") "demo_mode" = JSBool true /\
    fetches st' = fetches st /\
    trace st' = trace st.
Proof.
  intros Hlong Hmentor Htype Hkey.
  rewrite (logged_runs mentor interviewType _ st Hmentor Htype).
  assert (DeepseekEnhanced.analyzeTranscript env transcript
            (Errors.default_null mentor) (Errors.default_null interviewType) st
          = DemoAnalysisGenerator.generateDemoAnalysis env transcript
              (Errors.default_null mentor) (Errors.default_null interviewType) st)
    as Hdemo.
  { unfold DeepseekEnhanced.analyzeTranscript.
    rewrite analyzeTranscript_long by exact Hlong.
    unfold Orchestrator.key_not_configured.
    destruct Hkey as [-> | [-> | ->]]; reflexivity. }
  split; [exact Hdemo |].
  destruct (generateDemoAnalysis_returns env transcript
              (Errors.default_null mentor) (Errors.default_null interviewType) st)
    as [v [Hv [_ Hmode]]].
  exists v, (advance 0 1 [] st). rewrite Hdemo.
  split; [exact Hv |]. split; [exact Hmode |]. split.
  - reflexivity.
  - simpl. apply app_nil_r.
Qed.

Lemma demo_without_credentials_witness :
  exists v st',
    Errors.logged (JSString "vader") (JSString "technical")
      (DeepseekEnhanced.analyzeTranscript (platform := Examples.reference_platform)
         Examples.offline Examples.transcript) initial = (Normal v, st') /\
    prop (prop v "metadata") "demo_mode" = JSBool true /\
    trace st' = [].
Proof.
  destruct (demo_without_credentials (platform := Examples.reference_platform)
              Examples.offline Examples.transcript (JSString "vader") (JSString "technical")
              initial)
    as [_ [v [st' [Hrun [Hmode [_ Htrace]]]]]].
  - vm_compute. lia.
  - reflexivity.
  - reflexivity.
  - left. reflexivity.
  - exists v, st'. auto.
Defined.

(* ===================================================================== *)
(** * performAnalysis of deepseek-enhanced.js                            *)
(* ===================================================================== *)

Section PerformAnalysis.
Context {platform : Platform} (env : Environment).
Variables (transcript : string) (attempt : Z) (mentor interviewType : Value) (st : State).

(** A failure at the transport level makes the attempt throw, after one
    reading of the clock and one request. *)
Lemma performAnalysis_transport_failure :
  transport_failure (fetch_result env (fetches st)) = true ->
  exists e,
    DeepseekEnhanced.performAnalysis env transcript attempt mentor interviewType st
      = (Throw e, advance 1 1 [Fetched] st).
Proof.
  intros Hfail.
  unfold DeepseekEnhanced.performAnalysis, Runtime.bind, Date_now, fetch, advance.
  simpl. destruct (fetch_result env (fetches st)) as [reason | response]; simpl in *.
  - eexists. reflexivity.
  - apply negb_true_iff in Hfail. rewrite Hfail. simpl. eexists. reflexivity.
Qed.

Variables (response : Response) (data : Value) (text : string).
Hypothesis answered : fetch_result env (fetches st) = Resolved response.
Hypothesis status_ok : ok response = true.
Hypothesis body_parsed : JSON_parse (body response) = Normal data.
Hypothesis structure_valid : DeepseekEnhanced.invalid_structure data = Normal false.
Hypothesis content_text : DeepseekEnhanced.content_trimmed data = Normal text.

Lemma tokens_used_returns :
  DeepseekEnhanced.tokens_used data
    = Normal (or_else (prop (prop data "usage") "total_tokens") (JSString "unknown")).
Proof.
  unfold DeepseekEnhanced.tokens_used.
  unfold DeepseekEnhanced.invalid_structure in structure_valid.
  rewrite get_prop in structure_valid. rewrite get_prop.
  destruct (nullish data); [discriminate |]. simpl.
  rewrite get_opt_prop. reflexivity.
Qed.

(** An empty content makes the attempt throw, like a failed request. *)
Lemma performAnalysis_empty_content :
  text = "" ->
  DeepseekEnhanced.performAnalysis env transcript attempt mentor interviewType st
    = (Throw (Error "Empty response content from OpenRouter API"), advance 1 1 [Fetched] st).
Proof.
  intros ->.
  unfold DeepseekEnhanced.performAnalysis, Runtime.bind, Date_now, fetch, advance,
    Response_json, lift.
  simpl. rewrite answered. simpl. rewrite status_ok. simpl.
  rewrite body_parsed, structure_valid, content_text. reflexivity.
Qed.

(** With a content that is not empty the attempt returns, whatever
    [parseAndValidateResponse] makes of the content. *)
Lemma performAnalysis_content (analysis : Value) :
  text <> "" ->
  ResponseValidator.parseAndValidateResponse text transcript = Normal analysis ->
  DeepseekEnhanced.performAnalysis env transcript attempt mentor interviewType st
    = (Normal (JSObject
         [("success", JSBool true);
          ("analysis", analysis);
          ("metadata", JSObject
            [("model", JSString MODEL);
             ("timestamp",
              JSString (Date_toISOString (clock env (1 + clock_reads st))));
             ("processing_time_ms",
              JSNumber (num (clock env (2 + clock_reads st) - clock env (clock_reads st))));
             ("attempt_number", JSNumber (num attempt));
             ("transcript_length", JSNumber (num (Z.of_nat (String.length transcript))));
             ("tokens_used",
              or_else (prop (prop data "usage") "total_tokens") (JSString "unknown"))])]),
       advance 1 3 [Fetched] st).
Proof.
  intros Hne Hanalysis. apply String.eqb_neq in Hne.
  unfold DeepseekEnhanced.performAnalysis, Runtime.bind, Date_now, fetch, advance,
    Response_json, lift, Date_new_toISOString, Runtime.ret.
  simpl. rewrite answered. simpl. rewrite status_ok. simpl.
  rewrite body_parsed, structure_valid, content_text, Hne, Hanalysis.
  simpl. rewrite tokens_used_returns. reflexivity.
Qed.

End PerformAnalysis.

(** [parseAndValidateResponse] of the validator class never throws, and
    gives the fallback analysis when no JSON value is read from the text. *)
Lemma validator_parse_total {platform : Platform} (responseText originalTranscript : string) :
  exists out,
    ResponseValidator.parseAndValidateResponse responseText originalTranscript = Normal out /\
    (forall e, JS.bind (ResponseValidator.jsonText responseText) JSON_parse = Throw e ->
       out = ResponseParser.createFallbackAnalysis originalTranscript responseText).
Proof.
  unfold ResponseValidator.parseAndValidateResponse.
  destruct (ResponseValidator.jsonText responseText) as [text | e]; simpl.
  - destruct (JSON_parse text) as [parsed | e]; simpl.
    + destruct (ResponseParser.validate parsed) as [out | e]; simpl.
      * exists out. split; [reflexivity | discriminate].
      * eexists. split; [reflexivity | reflexivity].
    + eexists. split; reflexivity.
  - eexists. split; reflexivity.
Qed.

Lemma key_configured (env : Environment) (key : string) :
  OPENROUTER_API_KEY env = Some key -> key <> "" -> key <> "your_openrouter_api_key_here" ->
  Orchestrator.key_not_configured env = false.
Proof.
  intros Hkey Hne Hph. unfold Orchestrator.key_not_configured. rewrite Hkey.
  apply String.eqb_neq in Hne, Hph. rewrite Hne, Hph. reflexivity.
Qed.

(** An answer with status ok from which no content is read makes the
    attempt throw, after one reading of the clock and one request: a body
    that is not JSON, an envelope without [choices[0].message], a content that
    is not a string, or one that is empty once trimmed. *)
Lemma performAnalysis_malformed {platform : Platform} (env : Environment)
  (transcript : string) (attempt : Z) (mentor interviewType : Value) (st : State)
  (response : Response) :
  fetch_result env (fetches st) = Resolved response ->
  ok response = true ->
  ((exists e, JSON_parse (body response) = Throw e) \/
   exists data,
     JSON_parse (body response) = Normal data /\
     (DeepseekEnhanced.invalid_structure data <> Normal false \/
      DeepseekEnhanced.content_trimmed data = Normal "" \/
      exists e, DeepseekEnhanced.content_trimmed data = Throw e)) ->
  exists e,
    DeepseekEnhanced.performAnalysis env transcript attempt mentor interviewType st
      = (Throw e, advance 1 1 [Fetched] st).
Proof.
  intros Hfetch Hok Hbad.
  unfold DeepseekEnhanced.performAnalysis, Runtime.bind, Date_now, fetch, advance,
    Response_json, Response_text, lift, throw.
  cbn [fst snd trace fetches clock_reads]. rewrite Hfetch.
  cbn [fst snd trace fetches clock_reads]. rewrite Hok. cbn [negb].
  destruct Hbad as [[e ->] | [data [-> Hdata]]]; [eexists; reflexivity |].
  destruct (DeepseekEnhanced.invalid_structure data) as [[|] | e] eqn:Hstructure;
    try (eexists; reflexivity).
  destruct Hdata as [Habs | [-> | [e ->]]].
  - contradiction.
  - eexists. reflexivity.
  - eexists. reflexivity.
Qed.

(** A first attempt that throws is followed by a wait of 1000 ms and the
    second attempt. *)
Lemma first_attempt_retried
  (performAnalysis : string -> Z -> Value -> Value -> Async Value)
  (generateDemoAnalysis : string -> Value -> Value -> Async Value)
  (transcript : string) (mentor interviewType : Value) (st : State)
  (e : Exception) (c : nat) :
  performAnalysis transcript 1%Z mentor interviewType st
    = (Throw e, advance 1 c [Fetched] st) ->
  Orchestrator.attempts performAnalysis generateDemoAnalysis 3 1
    transcript mentor interviewType st
  = Orchestrator.attempts performAnalysis generateDemoAnalysis 2 2
      transcript mentor interviewType (advance 1 c [Fetched; Slept 1000] st).
Proof.
  intros Hthrows. rewrite attempts_step, Hthrows.
  change (1 =? MAX_RETRIES)%Z with false. cbv iota.
  rewrite advance_advance. reflexivity.
Qed.

(** C3.  With a transcript long enough, a mentor and an interview type that
    convert to strings and a key configured, when the three requests fail at
    the transport level, [analyzeTranscript] does not throw: after the three
    requests, with waits of 1000 and 2000 ms between them, it returns what the
    demo generator returns, the generator of the path without a key, and the
    metadata of the result has [demo_mode] true. *)
Theorem demo_after_three_failures {platform : Platform} (env : Environment)
  (transcript : string) (mentor interviewType : Value) (st : State) (key : string) :
  (50 <= String.length (trim transcript))%nat ->
  Errors.stringifiable mentor = true ->
  Errors.stringifiable interviewType = true ->
  OPENROUTER_API_KEY env = Some key ->
  key <> "" -> key <> "your_openrouter_api_key_here" ->
  (forall k, (k < 3)%nat -> transport_failure (fetch_result env (k + fetches st)) = true) ->
  let st3 := advance 3 3 [Fetched; Slept 1000; Fetched; Slept 2000; Fetched] st in
  Errors.logged mentor interviewType (DeepseekEnhanced.analyzeTranscript env transcript) st
    = DemoAnalysisGenerator.generateDemoAnalysis env transcript
        (Errors.default_null mentor) (Errors.default_null interviewType) st3 /\
  exists v,
    Errors.logged mentor interviewType (DeepseekEnhanced.analyzeTranscript env transcript) st
      = (Normal v, advance 0 1 [] st3) /\
    prop v "success" = JSBool true /\
    prop (prop v "metadata") "demo_mode" = JSBool true.
Proof.
  intros Hlong Hmentor Htype Hkey Hne Hph Hfail st3.
  rewrite (logged_runs mentor interviewType _ st Hmentor Htype).
  set (tag := Errors.default_null mentor). set (kind := Errors.default_null interviewType).
  assert (DeepseekEnhanced.analyzeTranscript env transcript tag kind st
          = DemoAnalysisGenerator.generateDemoAnalysis env transcript tag kind st3)
    as Hdemo.
  { unfold DeepseekEnhanced.analyzeTranscript.
    rewrite analyzeTranscript_long by exact Hlong.
    rewrite (key_configured env key Hkey Hne Hph).
    change (Z.to_nat MAX_RETRIES) with 3%nat.
    rewrite attempts_step.
    destruct (performAnalysis_transport_failure env transcript 1 tag kind st
                (Hfail 0%nat ltac:(lia))) as [e1 ->].
    change (1 =? MAX_RETRIES)%Z with false. cbv iota.
    rewrite attempts_step, advance_advance.
    destruct (performAnalysis_transport_failure env transcript (1 + 1) tag kind
                (advance (0 + 1) (0 + 1) ([Fetched] ++ [Slept (RETRY_DELAY * 1)]) st)
                (Hfail 1%nat ltac:(lia))) as [e2 ->].
    change (1 + 1 =? MAX_RETRIES)%Z with false. cbv iota.
    rewrite attempts_step, !advance_advance.
    destruct (performAnalysis_transport_failure env transcript (1 + 1 + 1) tag kind
                (advance 2 2 [Fetched; Slept 1000; Fetched; Slept 2000] st)
                (Hfail 2%nat ltac:(lia))) as [e3 He3].
    simpl in He3. simpl. rewrite He3.
    rewrite advance_advance. reflexivity. }
  split; [exact Hdemo |].
  destruct (generateDemoAnalysis_returns env transcript tag kind st3)
    as [v [Hv [Hsuccess Hmode]]].
  exists v. rewrite Hdemo. auto.
Qed.

Lemma demo_after_three_failures_witness :
  exists v st',
    Errors.logged (JSString "obiwan") JSUndefined
      (DeepseekEnhanced.analyzeTranscript (platform := Examples.reference_platform)
         Examples.unreachable Examples.transcript) initial = (Normal v, st') /\
    prop (prop v "metadata") "demo_mode" = JSBool true /\
    trace st' = [Fetched; Slept 1000; Fetched; Slept 2000; Fetched].
Proof.
  destruct (demo_after_three_failures (platform := Examples.reference_platform)
              Examples.unreachable Examples.transcript (JSString "obiwan") JSUndefined
              initial "sk-or-v1-test")
    as [_ [v [Hrun [_ Hmode]]]].
  - vm_compute. lia.
  - reflexivity.
  - reflexivity.
  - reflexivity.
  - discriminate.
  - discriminate.
  - intros k _. destruct k as [| k]; reflexivity.
  - exists v. eexists. split; [exact Hrun |]. split; [exact Hmode | reflexivity].
Defined.

(** C4, as the code has it.  With a transcript long enough, a mentor and an
    interview type that convert to strings and a key configured, the first
    attempt goes one of three ways.  When the request is answered with status
    ok and a JSON body whose first choice has a message with a content that is
    the text [text] once trimmed, and [text] is not empty, the first attempt
    is the result, whatever [parseAndValidateResponse] makes of it: one
    request, no wait, no retry, [success] true, attempt number 1, and the
    analysis is the fallback analysis when no JSON value is read from [text].
    When the answer has status ok and no content is read from it (the body is
    not JSON, the envelope has no [choices[0].message], the content is not a
    string, or it is empty once trimmed), the attempt throws and the second
    attempt follows after 1000 ms; and so it does, in the same way, when the
    request fails at the transport level. *)
Theorem unparsable_reply_returned {platform : Platform} (env : Environment)
  (transcript : string) (mentor interviewType : Value) (st : State) (key : string) :
  (50 <= String.length (trim transcript))%nat ->
  Errors.stringifiable mentor = true ->
  Errors.stringifiable interviewType = true ->
  OPENROUTER_API_KEY env = Some key ->
  key <> "" -> key <> "your_openrouter_api_key_here" ->
  (forall response data text,
     fetch_result env (fetches st) = Resolved response ->
     ok response = true ->
     JSON_parse (body response) = Normal data ->
     DeepseekEnhanced.invalid_structure data = Normal false ->
     DeepseekEnhanced.content_trimmed data = Normal text ->
     text <> "" ->
     exists analysis result,
       ResponseValidator.parseAndValidateResponse text transcript = Normal analysis /\
       (forall e, JS.bind (ResponseValidator.jsonText text) JSON_parse = Throw e ->
          analysis = ResponseParser.createFallbackAnalysis transcript text) /\
       Errors.logged mentor interviewType (DeepseekEnhanced.analyzeTranscript env transcript) st
         = (Normal result, advance 1 3 [Fetched] st) /\
       prop result "success" = JSBool true /\
       prop result "analysis" = analysis /\
       prop (prop result "metadata") "attempt_number" = JSNumber (num 1)) /\
  (forall response,
     fetch_result env (fetches st) = Resolved response ->
     ok response = true ->
     ((exists e, JSON_parse (body response) = Throw e) \/
      exists data,
        JSON_parse (body response) = Normal data /\
        (DeepseekEnhanced.invalid_structure data <> Normal false \/
         DeepseekEnhanced.content_trimmed data = Normal "" \/
         exists e, DeepseekEnhanced.content_trimmed data = Throw e)) ->
     Errors.logged mentor interviewType (DeepseekEnhanced.analyzeTranscript env transcript) st
       = Orchestrator.attempts (DeepseekEnhanced.performAnalysis env)
           (DemoAnalysisGenerator.generateDemoAnalysis env) 2 2
           transcript (Errors.default_null mentor) (Errors.default_null interviewType)
           (advance 1 1 [Fetched; Slept 1000] st)) /\
  (transport_failure (fetch_result env (fetches st)) = true ->
   Errors.logged mentor interviewType (DeepseekEnhanced.analyzeTranscript env transcript) st
     = Orchestrator.attempts (DeepseekEnhanced.performAnalysis env)
         (DemoAnalysisGenerator.generateDemoAnalysis env) 2 2
         transcript (Errors.default_null mentor) (Errors.default_null interviewType)
         (advance 1 1 [Fetched; Slept 1000] st)).
Proof.
  intros Hlong Hmentor Htype Hkey Hne Hph.
  rewrite (logged_runs mentor interviewType _ st Hmentor Htype).
  set (tag := Errors.default_null mentor). set (kind := Errors.default_null interviewType).
  assert (DeepseekEnhanced.analyzeTranscript env transcript tag kind st
          = Orchestrator.attempts (DeepseekEnhanced.performAnalysis env)
              (DemoAnalysisGenerator.generateDemoAnalysis env) 3 1
              transcript tag kind st) as Hloop.
  { unfold DeepseekEnhanced.analyzeTranscript.
    rewrite analyzeTranscript_long by exact Hlong.
    rewrite (key_configured env key Hkey Hne Hph). reflexivity. }
  rewrite Hloop. split; [| split].
  - intros response data text Hfetch Hok Hbody Hstructure Hcontent Htext.
    rewrite attempts_step.
    destruct (validator_parse_total text transcript) as [analysis [Hanalysis Hfallback]].
    exists analysis. eexists.
    split; [exact Hanalysis |]. split; [exact Hfallback |].
    rewrite (performAnalysis_content env transcript 1 tag kind st
               response data text Hfetch Hok Hbody Hstructure Hcontent analysis Htext Hanalysis).
    split; [reflexivity |]. repeat split.
  - intros response Hfetch Hok Hbad.
    destruct (performAnalysis_malformed env transcript 1 tag kind st response Hfetch Hok Hbad)
      as [e He].
    apply (first_attempt_retried _ _ transcript tag kind st e 1 He).
  - intros Hfail.
    destruct (performAnalysis_transport_failure env transcript 1 tag kind st Hfail) as [e He].
    apply (first_attempt_retried _ _ transcript tag kind st e 1 He).
Qed.

Lemma unparsable_reply_returned_witness :
  exists result st',
    Errors.logged (JSString "yoda") (JSString "behavioral")
      (DeepseekEnhanced.analyzeTranscript (platform := Examples.reference_platform)
         (Examples.answering "Sorry, no JSON today") Examples.transcript) initial
      = (Normal result, st') /\
    prop result "success" = JSBool true /\
    prop result "analysis"
      = ResponseParser.createFallbackAnalysis Examples.transcript "Sorry, no JSON today" /\
    trace st' = [Fetched].
Proof.
  destruct (unparsable_reply_returned (platform := Examples.reference_platform)
              (Examples.answering "Sorry, no JSON today") Examples.transcript
              (JSString "yoda") (JSString "behavioral") initial "sk-or-v1-test")
    as [Hreturned _].
  - vm_compute. lia.
  - reflexivity.
  - reflexivity.
  - reflexivity.
  - discriminate.
  - discriminate.
  - destruct (Hreturned
                {| ok := true; status := 200;
                   body := Examples.completion "Sorry, no JSON today" |}
                (JSObject [("choices", JSArray [JSObject [("message", JSObject
                   [("content", JSString "Sorry, no JSON today")])]])])
                "Sorry, no JSON today")
      as [analysis [result [_ [Hfallback [Hrun [Hsuccess [Hanalysis _]]]]]]].
    + reflexivity.
    + reflexivity.
    + vm_compute. reflexivity.
    + reflexivity.
    + reflexivity.
    + discriminate.
    + exists result. eexists. split; [exact Hrun |]. split; [exact Hsuccess |].
      split; [| reflexivity].
      rewrite Hanalysis. apply (Hfallback SyntaxError). vm_compute. reflexivity.
Defined.

(** C4 as stated fails: the request succeeds and the content it returns
    is the empty text, which is not JSON; the attempt is not a success with the
    fallback analysis but a failure, retried twice, and the result is the demo
    analysis. *)
Lemma empty_reply_counterexample :
  fetch_result (Examples.answering "") 0
    = Resolved {| ok := true; status := 200; body := Examples.completion "" |} /\
  JSON.parse (Examples.completion "")
    = Normal (JSObject [("choices", JSArray [JSObject [("message", JSObject
                [("content", JSString "")])]])]) /\
  JSON.parse "" = Throw SyntaxError /\
  exists v st',
    Errors.logged JSNull JSNull
      (DeepseekEnhanced.analyzeTranscript (platform := Examples.reference_platform)
         (Examples.answering "") Examples.transcript) initial = (Normal v, st') /\
    trace st' = [Fetched; Slept 1000; Fetched; Slept 2000; Fetched] /\
    prop (prop v "metadata") "demo_mode" = JSBool true /\
    prop v "analysis" <> ResponseParser.createFallbackAnalysis Examples.transcript "".
Proof.
  split; [reflexivity |]. split; [vm_compute; reflexivity |]. split; [reflexivity |].
  eexists. eexists. split; [vm_compute; reflexivity |].
  split; [reflexivity |]. split; [reflexivity |].
  intros Habs. vm_compute in Habs. discriminate Habs.
Qed.

(* ===================================================================== *)
(** * The same paths in ai-service.js                                    *)
(* ===================================================================== *)

(** [analyzeTranscript] of ai-service.js takes the same two paths to the
    demo analysis; its [performAnalysis] does not read the clock before the
    request. *)
Section AiServicePaths.
Context {platform : Platform} (env : Environment).
Variables (transcript : string) (mentor interviewType : Value) (st : State).
Hypothesis long_enough : (50 <= String.length (trim transcript))%nat.

Lemma ai_service_without_credentials :
  Orchestrator.key_not_configured env = true ->
  AiService.analyzeTranscript env transcript mentor interviewType st
    = AiService.getDemoAnalysis env transcript mentor interviewType st.
Proof.
  intros Hkey. unfold AiService.analyzeTranscript.
  rewrite analyzeTranscript_long by exact long_enough.
  rewrite Hkey. reflexivity.
Qed.

Lemma ai_service_transport_failure (attempt : Z) (st0 : State) :
  transport_failure (fetch_result env (fetches st0)) = true ->
  exists e,
    AiService.performAnalysis env transcript attempt mentor interviewType st0
      = (Throw e, advance 1 0 [Fetched] st0).
Proof.
  intros Hfail. unfold AiService.performAnalysis, Runtime.bind, fetch, advance.
  simpl. destruct (fetch_result env (fetches st0)) as [reason | response]; simpl in *.
  - eexists. reflexivity.
  - apply negb_true_iff in Hfail. rewrite Hfail. simpl. eexists. reflexivity.
Qed.

Lemma ai_service_after_three_failures :
  Orchestrator.key_not_configured env = false ->
  (forall k, (k < 3)%nat -> transport_failure (fetch_result env (k + fetches st)) = true) ->
  AiService.analyzeTranscript env transcript mentor interviewType st
    = AiService.getDemoAnalysis env transcript mentor interviewType
        (advance 3 0 [Fetched; Slept 1000; Fetched; Slept 2000; Fetched] st).
Proof.
  intros Hkey Hfail. unfold AiService.analyzeTranscript.
  rewrite analyzeTranscript_long by exact long_enough.
  rewrite Hkey. change (Z.to_nat MAX_RETRIES) with 3%nat.
  rewrite attempts_step.
  destruct (ai_service_transport_failure 1 st (Hfail 0%nat ltac:(lia))) as [e1 ->].
  change (1 =? MAX_RETRIES)%Z with false. cbv iota.
  rewrite attempts_step, advance_advance.
  destruct (ai_service_transport_failure (1 + 1)
              (advance (0 + 1) (0 + 0) ([Fetched] ++ [Slept (RETRY_DELAY * 1)]) st)
              (Hfail 1%nat ltac:(lia))) as [e2 ->].
  change (1 + 1 =? MAX_RETRIES)%Z with false. cbv iota.
  rewrite attempts_step, !advance_advance.
  destruct (ai_service_transport_failure (1 + 1 + 1)
              (advance 2 0 [Fetched; Slept 1000; Fetched; Slept 2000] st)
              (Hfail 2%nat ltac:(lia))) as [e3 He3].
  simpl in He3. simpl. rewrite He3.
  rewrite advance_advance. reflexivity.
Qed.

End AiServicePaths.

(* ===================================================================== *)
(** * validateAnalysisStructure                                          *)
(* ===================================================================== *)

Lemma has_key_In (props : list (string * Value)) (k : string) :
  existsb (fun p => fst p =? k) props = true <-> In k (map fst props).
Proof.
  rewrite existsb_exists, in_map_iff. split.
  - intros [p [Hin Heq]]. apply String.eqb_eq in Heq. exists p. auto.
  - intros [p [Heq Hin]]. exists p. split; [exact Hin |]. apply String.eqb_eq, Heq.
Qed.

Lemma missing_fields_filter (props : list (string * Value)) (fields : list string) :
  existsb (fun p => fst p =? "hasOwnProperty") props = false ->
  ResponseParser.missing_fields (JSObject props) fields
    = Normal (filter (fun k => negb (existsb (fun p => fst p =? k) props)) fields).
Proof.
  intros Hown. induction fields as [| k rest IH]; simpl.
  - reflexivity.
  - rewrite Hown. simpl. rewrite IH. simpl.
    destruct (existsb (fun p => fst p =? k) props); reflexivity.
Qed.

(** X1.  [validateAnalysisStructure] looks at the names of the properties
    only: on an object (without a property of its own called
    ["hasOwnProperty"]) it returns [true] exactly when each of the eight
    required names is among its properties, whatever their values and whatever
    else the object holds, and [false] otherwise; on [null] and [undefined] it
    throws. *)
Theorem validateAnalysisStructure_presence (props : list (string * Value)) :
  existsb (fun p => fst p =? "hasOwnProperty") props = false ->
  exists b,
    ResponseParser.validateAnalysisStructure (JSObject props) = Normal b /\
    (b = true <-> incl ResponseParser.required (map fst props)) /\
    ResponseParser.validateAnalysisStructure JSNull = Throw TypeError /\
    ResponseParser.validateAnalysisStructure JSUndefined = Throw TypeError.
Proof.
  intros Hown. unfold ResponseParser.validateAnalysisStructure.
  rewrite (missing_fields_filter props _ Hown). unfold JS.bind, JS.ret.
  set (missing := filter (fun k => negb (existsb (fun p => fst p =? k) props))
                         ResponseParser.required).
  assert (missing = [] <-> incl ResponseParser.required (map fst props)) as Hiff.
  { unfold missing, incl. split.
    - intros Hnil k Hk. apply has_key_In.
      destruct (existsb (fun p => fst p =? k) props) eqn:E; [reflexivity |].
      assert (In k (filter (fun k => negb (existsb (fun p => fst p =? k) props))
                           ResponseParser.required)) as Hin
        by (apply filter_In; rewrite E; auto).
      rewrite Hnil in Hin. destruct Hin.
    - intros Hall.
      destruct (filter (fun k => negb (existsb (fun p => fst p =? k) props))
                       ResponseParser.required) as [| k rest] eqn:E; [reflexivity |].
      assert (In k (k :: rest)) as Hin by (left; reflexivity).
      rewrite <- E in Hin. apply filter_In in Hin. destruct Hin as [Hreq Hneg].
      apply Hall, has_key_In in Hreq. rewrite Hreq in Hneg. discriminate. }
  destruct missing as [| k rest].
  - exists true. split; [reflexivity |]. split; [| split; reflexivity].
    split; [intros _; apply Hiff; reflexivity | reflexivity].
  - exists false. split; [reflexivity |]. split; [| split; reflexivity].
    split; [discriminate |]. intros Hall. apply Hiff in Hall. discriminate.
Qed.

Lemma validateAnalysisStructure_presence_witness :
  ResponseParser.validateAnalysisStructure
    (JSObject (map (fun k => (k, JSNull)) ResponseParser.required)) = Normal true /\
  ResponseParser.validateAnalysisStructure
    (JSObject [("highlights", JSArray []); ("improvements", JSArray [])]) = Normal false.
Proof.
  split.
  - destruct (validateAnalysisStructure_presence
                (map (fun k => (k, JSNull)) ResponseParser.required) eq_refl)
      as [b [Hb [Hiff _]]].
    rewrite Hb. f_equal. apply Hiff. intros k Hk. exact Hk.
  - destruct (validateAnalysisStructure_presence
                [("highlights", JSArray []); ("improvements", JSArray [])] eq_refl)
      as [b [Hb [Hiff _]]].
    rewrite Hb. f_equal. destruct b; [| reflexivity].
    exfalso. assert (incl ResponseParser.required ["highlights"; "improvements"]) as Hall
      by (apply Hiff; reflexivity).
    specialize (Hall "entities"). simpl in Hall.
    destruct Hall as [H | [H | []]]; [tauto | discriminate | discriminate].
Defined.

(* ===================================================================== *)
(** * The extraction of the JSON text in response-parser.js              *)
(* ===================================================================== *)

Section Braces.
Import Bounds.

Lemma upto_last_brace_without (s : string) :
  without "}" s = true -> ResponseParser.upto_last_brace s = None.
Proof.
  induction s as [| c rest IH]; simpl; [reflexivity |].
  intros H. apply andb_true_iff in H. destruct H as [Hc Hrest].
  rewrite (IH Hrest). apply negb_true_iff in Hc. rewrite Hc. reflexivity.
Qed.

Lemma upto_last_brace_app (m s : string) :
  without "}" s = true ->
  ResponseParser.upto_last_brace (m ++ String "}" s)%string = Some (m ++ String "}" "")%string.
Proof.
  intros Hs. induction m as [| c rest IH]; simpl.
  - rewrite (upto_last_brace_without s Hs). reflexivity.
  - rewrite IH. reflexivity.
Qed.

Lemma match_braces_app (p rest : string) :
  without "{" p = true ->
  ResponseParser.match_braces (p ++ String "{" rest)%string
    = match ResponseParser.upto_last_brace rest with
      | Some m => Some (String "{" m)
      | None => None
      end.
Proof.
  induction p as [| c p' IH]; simpl; [reflexivity |].
  intros H. apply andb_true_iff in H. destruct H as [Hc Hp].
  apply negb_true_iff in Hc. rewrite Hc. apply IH, Hp.
Qed.

Lemma match_braces_without_open (s : string) :
  without "{" s = true -> ResponseParser.match_braces s = None.
Proof.
  induction s as [| c rest IH]; simpl; [reflexivity |].
  intros H. apply andb_true_iff in H. destruct H as [Hc Hrest].
  apply negb_true_iff in Hc. rewrite Hc. apply IH, Hrest.
Qed.

Lemma match_braces_without_close (s : string) :
  without "}" s = true -> ResponseParser.match_braces s = None.
Proof.
  induction s as [| c rest IH]; simpl; [reflexivity |].
  intros H. apply andb_true_iff in H. destruct H as [Hc Hrest].
  rewrite (upto_last_brace_without rest Hrest), (IH Hrest).
  destruct (Ascii.eqb c "{"); reflexivity.
Qed.

Lemma upto_last_brace_fixed (r u : string) :
  ResponseParser.upto_last_brace r = Some u -> ResponseParser.upto_last_brace u = Some u.
Proof.
  revert u. induction r as [| c rest IH]; simpl; intros u H; [discriminate |].
  destruct (ResponseParser.upto_last_brace rest) as [m |] eqn:E.
  - injection H as <-. simpl. rewrite (IH m eq_refl). reflexivity.
  - destruct (Ascii.eqb c "}") eqn:Ec; [| discriminate].
    injection H as <-. simpl. rewrite Ec. reflexivity.
Qed.

Lemma match_braces_fixed (s m : string) :
  ResponseParser.match_braces s = Some m -> ResponseParser.match_braces m = Some m.
Proof.
  induction s as [| c rest IH]; simpl; [discriminate |].
  destruct (Ascii.eqb c "{") eqn:Ec; [| exact IH].
  destruct (ResponseParser.upto_last_brace rest) as [u |] eqn:E; [| discriminate].
  intros H. injection H as <-. simpl. rewrite Ec.
  rewrite (upto_last_brace_fixed rest u E). reflexivity.
Qed.

End Braces.

Lemma jsonText_braces (p m s : string) :
  Bounds.without "{" p = true -> Bounds.without "}" s = true ->
  ResponseParser.jsonText (p ++ String "{" (m ++ String "}" s))%string
    = String "{" (m ++ String "}" "")%string.
Proof.
  intros Hp Hs. unfold ResponseParser.jsonText.
  rewrite (match_braces_app p _ Hp), (upto_last_brace_app m s Hs). reflexivity.
Qed.

(** X2.  The text given to [JSON.parse] by response-parser.js runs from the
    first opening brace to the last closing brace: text before the first and
    after the last is dropped, and everything between is kept, other braces
    included (so two objects in one reply are taken as one text).  A reply
    without an opening brace, or without a closing one, is taken whole.
    Extracting twice changes nothing. *)
Theorem jsonText_first_to_last_brace :
  (forall p m s,
     Bounds.without "{" p = true -> Bounds.without "}" s = true ->
     ResponseParser.jsonText (p ++ String "{" (m ++ String "}" s))%string
       = String "{" (m ++ String "}" "")%string) /\
  (forall s,
     Bounds.without "{" s = true \/ Bounds.without "}" s = true ->
     ResponseParser.jsonText s = s) /\
  (forall s, ResponseParser.jsonText (ResponseParser.jsonText s) = ResponseParser.jsonText s).
Proof.
  unfold ResponseParser.jsonText. repeat split.
  - intros p m s Hp Hs.
    rewrite (match_braces_app p _ Hp), (upto_last_brace_app m s Hs). reflexivity.
  - intros s [H | H].
    + rewrite (match_braces_without_open s H). reflexivity.
    + rewrite (match_braces_without_close s H). reflexivity.
  - intros s. destruct (ResponseParser.match_braces s) as [m |] eqn:E.
    + rewrite (match_braces_fixed s m E). reflexivity.
    + rewrite E. reflexivity.
Qed.

Lemma jsonText_first_to_last_brace_witness :
  ResponseParser.jsonText
    ("Here is the analysis: " ++ String "{" ("a} and {b" ++ String "}" " Thank you."))%string
    = "{a} and {b}" /\
  ResponseParser.jsonText "no braces here" = "no braces here".
Proof.
  split.
  - apply (proj1 jsonText_first_to_last_brace); reflexivity.
  - apply (proj1 (proj2 jsonText_first_to_last_brace)). left. reflexivity.
Defined.

(** X3.  In response-parser.js text around the braces does not change the
    result, and neither does the transcript passed along: a reply with prose
    before the first opening brace and after the last closing brace is
    normalised as the text between them is. *)
Theorem parseAndValidateResponse_ignores_prose {platform : Platform}
  (p m s transcript transcript' : string) :
  Bounds.without "{" p = true -> Bounds.without "}" s = true ->
  ResponseParser.parseAndValidateResponse (p ++ String "{" (m ++ String "}" s))%string transcript
    = ResponseParser.parseAndValidateResponse (String "{" (m ++ String "}" "")%string) transcript'.
Proof.
  intros Hp Hs. unfold ResponseParser.parseAndValidateResponse.
  rewrite (jsonText_braces p m s Hp Hs).
  pose proof (jsonText_braces "" m "" eq_refl eq_refl) as Hbare.
  change ("" ++ String "{" (m ++ String "}" ""))%string
    with (String "{" (m ++ String "}" ""))%string in Hbare.
  rewrite Hbare. reflexivity.
Qed.

Lemma parseAndValidateResponse_ignores_prose_witness :
  ResponseParser.parseAndValidateResponse (platform := Examples.reference_platform)
    ("Sure! " ++ String "{" (JSON.quoted "'entities':{'companies':['Acme']}" ++ String "}" " Bye."))%string
    Examples.transcript
  = ResponseParser.parseAndValidateResponse (platform := Examples.reference_platform)
      (String "{" (JSON.quoted "'entities':{'companies':['Acme']}" ++ String "}" ""))%string "".
Proof.
  apply (parseAndValidateResponse_ignores_prose (platform := Examples.reference_platform));
    reflexivity.
Defined.

(* ===================================================================== *)
(** * The extraction of the JSON text in response-validator.js           *)
(* ===================================================================== *)

Section Fences.
Import Bounds.
Local Open Scope string_scope.

Lemma append_empty (s : string) : s ++ "" = s.
Proof. induction s as [| c rest IH]; simpl; [reflexivity | rewrite IH; reflexivity]. Qed.

Lemma append_associative (a b c : string) : (a ++ b) ++ c = a ++ (b ++ c).
Proof. induction a as [| x rest IH]; simpl; [reflexivity | rewrite IH; reflexivity]. Qed.

Lemma prefix_cons (a b : ascii) (x y : string) :
  String.prefix (String a x) (String b y)
    = if ascii_dec a b then String.prefix x y else false.
Proof. reflexivity. Qed.

Lemma prefix_append (x r : string) : String.prefix x (x ++ r) = true.
Proof.
  induction x as [| c rest IH]; simpl; [destruct r; reflexivity |].
  destruct (ascii_dec c c) as [_ | Hne]; [exact IH | contradiction].
Qed.

Lemma prefix_other_head (c : ascii) (x y : string) :
  Ascii.eqb c backtick = false -> String.prefix (String backtick x) (String c y) = false.
Proof.
  intros Hc. rewrite prefix_cons. destruct (ascii_dec backtick c) as [<- | _]; [| reflexivity].
  rewrite Ascii.eqb_refl in Hc. discriminate.
Qed.

Lemma split_from_cons (separator piece : string) (c : ascii) (rest : string) :
  split_from separator 0 piece (String c rest)
    = if String.prefix separator (String c rest)
      then piece :: split_from separator (String.length separator - 1) "" rest
      else split_from separator 0 (piece ++ String c "") rest.
Proof. reflexivity. Qed.

Lemma str_includes_cons (sub : string) (c : ascii) (rest : string) :
  str_includes sub (String c rest)
    = if String.prefix sub (String c rest) then true else str_includes sub rest.
Proof. reflexivity. Qed.

Variable tail : string.
Let sep : string := String backtick tail.

Lemma split_skip (x rest piece : string) :
  split_from sep (String.length x) piece (x ++ rest) = split_from sep 0 piece rest.
Proof. induction x as [| c x' IH]; simpl; [reflexivity | exact IH]. Qed.

(** A separator at the head of the text closes the piece. *)
Lemma split_at_separator (piece rest : string) :
  split_from sep 0 piece (sep ++ rest) = piece :: split_from sep 0 "" rest.
Proof.
  change (sep ++ rest) with (String backtick (tail ++ rest)).
  rewrite split_from_cons.
  change (String backtick (tail ++ rest)) with (sep ++ rest).
  rewrite prefix_append.
  change (String.length sep - 1) with (String.length tail - 0).
  rewrite Nat.sub_0_r. rewrite split_skip. reflexivity.
Qed.

(** Text without a backtick goes into the piece. *)
Lemma split_through (b piece rest : string) :
  without backtick b = true ->
  split_from sep 0 piece (b ++ rest) = split_from sep 0 (piece ++ b) rest.
Proof.
  revert piece. induction b as [| c b' IH]; intros piece Hb.
  - rewrite append_empty. reflexivity.
  - simpl in Hb. apply andb_true_iff in Hb. destruct Hb as [Hc Hb'].
    apply negb_true_iff in Hc.
    change (String c b' ++ rest) with (String c (b' ++ rest)).
    rewrite split_from_cons. unfold sep at 1.
    rewrite (prefix_other_head c _ _ Hc).
    rewrite (IH _ Hb'), append_associative. reflexivity.
Qed.

Lemma split_plain (b piece : string) :
  without backtick b = true -> split_from sep 0 piece b = [piece ++ b].
Proof.
  intros Hb. rewrite <- (append_empty b) at 1.
  rewrite (split_through b piece "" Hb). reflexivity.
Qed.

Lemma includes_append (p r : string) : str_includes sep (p ++ sep ++ r) = true.
Proof.
  induction p as [| c p' IH].
  - change ("" ++ sep ++ r) with (String backtick (tail ++ r)).
    rewrite str_includes_cons.
    change (String backtick (tail ++ r)) with (sep ++ r).
    rewrite prefix_append. reflexivity.
  - change (String c p' ++ sep ++ r) with (String c (p' ++ sep ++ r)).
    rewrite str_includes_cons, IH.
    destruct (String.prefix sep (String c (p' ++ sep ++ r))); reflexivity.
Qed.

Lemma includes_without (s : string) :
  without backtick s = true -> str_includes sep s = false.
Proof.
  induction s as [| c rest IH]; intros Hs.
  - reflexivity.
  - simpl in Hs. apply andb_true_iff in Hs. destruct Hs as [Hc Hrest].
    apply negb_true_iff in Hc.
    rewrite str_includes_cons. unfold sep at 1.
    rewrite (prefix_other_head c _ _ Hc). apply IH, Hrest.
Qed.

End Fences.

Section FencedBlock.
Import Bounds.
Local Open Scope string_scope.

Let json_fence : string := ResponseValidator.json_fence.
Let fence : string := ResponseValidator.fence.

Lemma prefix_of_solid (x s : string) :
  without backtick s = true -> String.prefix (String backtick x) s = false.
Proof.
  destruct s as [| c rest]; [reflexivity |]. simpl. intros H.
  apply andb_true_iff in H. destruct H as [Hc _]. apply negb_true_iff in Hc.
  apply prefix_other_head, Hc.
Qed.

(** After the content [b] of a block, at its closing fence: the piece ends
    there when ["json"] follows the fence, and runs to the end otherwise. *)
Lemma split_json_after_block (b s : string) :
  without backtick s = true ->
  exists x rest,
    split_from json_fence 0 b (fence ++ s) = (b ++ x) :: rest /\
    (x = "" \/ x = fence ++ s).
Proof.
  intros Hs.
  change (fence ++ s) with (String backtick (String backtick (String backtick s))).
  rewrite split_from_cons.
  destruct (String.prefix json_fence (String backtick (String backtick (String backtick s)))).
  - exists "". eexists. split; [rewrite append_empty; reflexivity | left; reflexivity].
  - rewrite split_from_cons.
    change json_fence with (String backtick (String backtick (String backtick "json"))).
    rewrite !prefix_cons.
    destruct (ascii_dec backtick backtick) as [_ | Hne]; [| contradiction].
    rewrite (prefix_of_solid "json" s Hs).
    rewrite split_from_cons, !prefix_cons.
    destruct (ascii_dec backtick backtick) as [_ | Hne]; [| contradiction].
    rewrite (prefix_of_solid (String backtick "json") s Hs).
    rewrite (split_plain _ s _ Hs).
    exists (fence ++ s). eexists. split; [| right; reflexivity].
    rewrite !append_associative. reflexivity.
Qed.

Lemma first_piece (b x : string) :
  without backtick b = true -> x = "" \/ (exists s, x = fence ++ s) ->
  nth_error (split_from fence 0 "" (b ++ x)) 0 = Some b.
Proof.
  intros Hb [-> | [s ->]].
  - rewrite append_empty.
    change fence with (String backtick (String backtick (String backtick ""))).
    rewrite (split_plain _ b "" Hb). reflexivity.
  - change fence with (String backtick (String backtick (String backtick ""))).
    rewrite (split_through _ b "" _ Hb), split_at_separator. reflexivity.
Qed.

End FencedBlock.

(** X4.  The text given to [JSON.parse] by response-validator.js.  When
    the trimmed reply has a block opened by a json fence, the text is the
    trimmed content of the block, whether the block is closed by a fence or
    runs to the end; the same for a block between plain fences when the reply
    has no json fence; and a reply without backticks is taken whole, trimmed.
    (The text before the block, the content and the text after it are without
    backticks.) *)
Theorem jsonText_fenced_block :
  (forall raw p b s,
     trim raw = (p ++ "```json" ++ b ++ "```" ++ s)%string ->
     Bounds.without Bounds.backtick p = true ->
     Bounds.without Bounds.backtick b = true ->
     Bounds.without Bounds.backtick s = true ->
     ResponseValidator.jsonText raw = Normal (trim b)) /\
  (forall raw p b,
     trim raw = (p ++ "```json" ++ b)%string ->
     Bounds.without Bounds.backtick p = true ->
     Bounds.without Bounds.backtick b = true ->
     ResponseValidator.jsonText raw = Normal (trim b)) /\
  (forall raw p b s,
     trim raw = (p ++ "```" ++ b ++ "```" ++ s)%string ->
     str_includes "```json" (trim raw) = false ->
     Bounds.without Bounds.backtick p = true ->
     Bounds.without Bounds.backtick b = true ->
     ResponseValidator.jsonText raw = Normal (trim b)) /\
  (forall raw,
     Bounds.without Bounds.backtick (trim raw) = true ->
     ResponseValidator.jsonText raw = Normal (trim raw)).
Proof.
  unfold ResponseValidator.jsonText. repeat split.
  - intros raw p b s -> Hp Hb Hs.
    change ResponseValidator.json_fence with (String Bounds.backtick "``json").
    change "```json"%string with (String Bounds.backtick "``json").
    rewrite includes_append.
    unfold ResponseValidator.fenced, split.
    rewrite (split_through _ p "" _ Hp), split_at_separator, (split_through _ b "" _ Hb).
    destruct (split_json_after_block b s Hs) as [x [rest [Hsplit Hx]]].
    change (String Bounds.backtick "``json") with ResponseValidator.json_fence.
    change ("" ++ b)%string with b.
    change "```"%string with ResponseValidator.fence.
    rewrite Hsplit. simpl ResponseValidator.item at 1. simpl JS.bind.
    unfold ResponseValidator.item.
    rewrite (first_piece b x Hb); [reflexivity |].
    destruct Hx as [-> | ->]; [left; reflexivity | right; eexists; reflexivity].
  - intros raw p b -> Hp Hb.
    change ResponseValidator.json_fence with (String Bounds.backtick "``json").
    change "```json"%string with (String Bounds.backtick "``json").
    rewrite includes_append.
    unfold ResponseValidator.fenced, split.
    rewrite (split_through _ p "" _ Hp), split_at_separator, (split_plain _ b "" Hb).
    simpl ResponseValidator.item at 1. simpl JS.bind. unfold ResponseValidator.item.
    rewrite <- (append_empty b) at 1.
    rewrite (first_piece b "" Hb); [reflexivity | left; reflexivity].
  - intros raw p b s Htrim Hjson Hp Hb.
    change ResponseValidator.json_fence with "```json"%string. rewrite Hjson, Htrim.
    change ResponseValidator.fence with (String Bounds.backtick "``").
    change "```"%string with (String Bounds.backtick "``").
    rewrite includes_append.
    unfold ResponseValidator.fenced, split.
    rewrite (split_through _ p "" _ Hp), split_at_separator,
      (split_through _ b "" _ Hb), split_at_separator.
    simpl ResponseValidator.item at 1. simpl JS.bind. unfold ResponseValidator.item.
    rewrite <- (append_empty b) at 1.
    change (String Bounds.backtick "``") with ResponseValidator.fence.
    rewrite (first_piece b "" Hb); [reflexivity | left; reflexivity].
  - intros raw Hraw.
    change ResponseValidator.json_fence with (String Bounds.backtick "``json").
    change ResponseValidator.fence with (String Bounds.backtick "``").
    rewrite !includes_without by exact Hraw. reflexivity.
Qed.

Lemma jsonText_fenced_block_witness :
  ResponseValidator.jsonText "  Here it is: ```json {} ``` Good luck.  " = Normal "{}" /\
  ResponseValidator.jsonText "```json {} " = Normal "{}" /\
  ResponseValidator.jsonText "``` {} ```" = Normal "{}" /\
  ResponseValidator.jsonText "  {}  " = Normal "{}".
Proof.
  destruct jsonText_fenced_block as [Hjson [Hopen [Hplain Hbare]]].
  split; [| split; [| split]].
  - apply (Hjson _ "Here it is: " " {} " " Good luck."); reflexivity.
  - apply (Hopen _ "" " {}"); reflexivity.
  - apply (Hplain _ "" " {} " ""); reflexivity.
  - apply (Hbare "  {}  "). reflexivity.
Defined.

(** X5.  [ResponseValidator.parseAndValidateResponse], the normaliser that
    deepseek-enhanced.js calls, never throws either: for every reply it returns
    an object of the shape of an analysis that passes
    [validateAnalysisStructure]; the object is the fallback analysis, or the
    validation of the value parsed from the extracted text, with its checked
    enum fields valid and its overall confidence between 1 and 10. *)
Theorem validator_class_total {platform : Platform} (responseText originalTranscript : string) :
  exists out,
    ResponseValidator.parseAndValidateResponse responseText originalTranscript = Normal out /\
    Schema.analysis_shape out = true /\
    ResponseParser.validateAnalysisStructure out = Normal true /\
    (out = ResponseValidator.createFallbackAnalysis originalTranscript responseText \/
     exists text parsed,
       ResponseValidator.jsonText responseText = Normal text /\
       JSON_parse text = Normal parsed /\
       ResponseParser.validate parsed = Normal out /\
       Schema.checked_enums_valid out = true).
Proof.
  unfold ResponseValidator.parseAndValidateResponse.
  destruct (ResponseValidator.jsonText responseText) as [text | e] eqn:Htext; simpl.
  - destruct (JSON_parse text) as [parsed | e] eqn:Hparsed; simpl.
    + destruct (ResponseParser.validate parsed) as [out | e] eqn:Hout; simpl.
      * exists out. destruct (validate_shape _ _ Hout) as [Hshape Henums].
        split; [reflexivity |]. split; [exact Hshape |].
        split; [exact (validate_structure _ _ Hout) |].
        right. exists text, parsed. auto.
      * eexists. split; [reflexivity |]. split; [apply fallback_has_shape |].
        split; [apply fallback_structure | left; reflexivity].
    + eexists. split; [reflexivity |]. split; [apply fallback_has_shape |].
      split; [apply fallback_structure | left; reflexivity].
  - eexists. split; [reflexivity |]. split; [apply fallback_has_shape |].
    split; [apply fallback_structure | left; reflexivity].
Qed.

(* ===================================================================== *)
(** * The demo analysis                                                  *)
(* ===================================================================== *)

(** X6.  Whatever the transcript and the clock, the demo generator returns
    without a request or a timer, and its analysis conforms to the schema of a
    normalised analysis: the eight keys with their shapes, every enum field in
    its enum, every highlight with a category of the enum and a confidence
    between 0 and 1, the overall confidence between 1 and 10.  The metadata
    records the length of the transcript. *)
Theorem demo_analysis_conforms {platform : Platform} (env : Environment)
  (transcript : string) (mentor interviewType : Value) (st : State) :
  exists v,
    DemoAnalysisGenerator.generateDemoAnalysis env transcript mentor interviewType st
      = (Normal v, advance 0 1 [] st) /\
    Schema.analysis_shape (prop v "analysis") = true /\
    Schema.all_enums_valid (prop v "analysis") = true /\
    Schema.items_upto 6 Schema.highlight_conforms (prop (prop v "analysis") "highlights") = true /\
    prop (prop v "metadata") "transcript_length"
      = JSNumber (num (Z.of_nat (String.length transcript))).
Proof.
  unfold DemoAnalysisGenerator.generateDemoAnalysis, Date_new_toISOString, Date_now,
    Runtime.bind, Runtime.ret, advance.
  cbv zeta.
  destruct (test_any_ci _ transcript), (test_any_ci _ transcript),
    (800 <? split_spaces_length transcript)%nat;
    (eexists; split; [cbn [fst snd trace fetches clock_reads Nat.add];
                      rewrite app_nil_r; reflexivity |];
     repeat split; vm_compute; reflexivity).
Qed.

(** X7.  The analysis of the demo generator is already normal: validating
    it, as [parseAndValidateResponse] validates a parsed reply, returns it
    unchanged. *)
Theorem demo_analysis_normal {platform : Platform} (env : Environment)
  (transcript : string) (mentor interviewType : Value) (st : State) :
  exists v st',
    DemoAnalysisGenerator.generateDemoAnalysis env transcript mentor interviewType st
      = (Normal v, st') /\
    ResponseParser.validate (prop v "analysis") = Normal (prop v "analysis").
Proof.
  unfold DemoAnalysisGenerator.generateDemoAnalysis, Date_new_toISOString, Date_now,
    Runtime.bind, Runtime.ret.
  cbv zeta.
  destruct (test_any_ci _ transcript), (test_any_ci _ transcript),
    (800 <? split_spaces_length transcript)%nat;
    (eexists; eexists; split; [reflexivity | vm_compute; reflexivity]).
Qed.

Section Keywords.
Local Open Scope string_scope.

Lemma lower_string_append (a b : string) :
  lower_string (a ++ b) = lower_string a ++ lower_string b.
Proof. induction a as [| c rest IH]; simpl; [reflexivity | rewrite IH; reflexivity]. Qed.

Lemma str_includes_prefix (sub s : string) :
  String.prefix sub s = true -> str_includes sub s = true.
Proof.
  intros H. destruct s as [| c rest].
  - destruct sub; [reflexivity | discriminate].
  - rewrite str_includes_cons, H. reflexivity.
Qed.

Lemma str_includes_append (sub p r : string) : str_includes sub (p ++ sub ++ r) = true.
Proof.
  induction p as [| c p' IH].
  - change ("" ++ sub ++ r) with (sub ++ r).
    apply str_includes_prefix, prefix_append.
  - change (String c p' ++ sub ++ r) with (String c (p' ++ sub ++ r)).
    rewrite str_includes_cons, IH.
    destruct (String.prefix sub (String c (p' ++ sub ++ r))); reflexivity.
Qed.

Lemma test_any_ci_occurrence (words : list string) (p x s : string) :
  In (lower_string x) words -> test_any_ci words (p ++ x ++ s) = true.
Proof.
  intros Hin. unfold test_any_ci. apply existsb_exists.
  exists (lower_string x). split; [exact Hin |].
  rewrite !lower_string_append. apply str_includes_append.
Qed.

End Keywords.

(** X8.  The demo generator finds its technology words anywhere in the
    transcript, inside longer words too, and in any letter case: when one of
    them occurs the recommendation is ["hire"] with confidence 8 and the
    technologies are the fixed list of five. *)
Theorem demo_detects_technology {platform : Platform} (env : Environment)
  (p x s : string) (mentor interviewType : Value) (st : State) :
  In (lower_string x)
     ["javascript"; "react"; "node"; "python"; "java"; "system"; "design"; "database"; "api"] ->
  exists v st',
    DemoAnalysisGenerator.generateDemoAnalysis env (p ++ x ++ s)%string mentor interviewType st
      = (Normal v, st') /\
    prop (prop (prop v "analysis") "overall_recommendation") "decision" = JSString "hire" /\
    prop (prop (prop v "analysis") "overall_recommendation") "confidence" = JSNumber (num 8) /\
    prop (prop (prop v "analysis") "entities") "technologies"
      = DemoAnalysisGenerator.strings ["JavaScript"; "React"; "Node.js"; "Database"; "API"].
Proof.
  intros Hin.
  unfold DemoAnalysisGenerator.generateDemoAnalysis, Date_new_toISOString, Date_now,
    Runtime.bind, Runtime.ret.
  cbv zeta. rewrite (test_any_ci_occurrence _ p x s Hin).
  eexists. eexists. split; [reflexivity |]. repeat split.
Qed.

Lemma demo_detects_technology_witness :
  exists v st',
    DemoAnalysisGenerator.generateDemoAnalysis (platform := Examples.reference_platform)
      Examples.offline "I trained as a therAPIst before moving into sales." JSNull JSNull initial
      = (Normal v, st') /\
    prop (prop (prop v "analysis") "overall_recommendation") "decision" = JSString "hire".
Proof.
  destruct (demo_detects_technology (platform := Examples.reference_platform)
              Examples.offline "I trained as a ther" "API" "st before moving into sales."
              JSNull JSNull initial)
    as [v [st' [Hrun [Hdecision _]]]].
  - simpl. tauto.
  - exists v, st'. split; [exact Hrun | exact Hdecision].
Defined.

(* ===================================================================== *)
(** * Every run of analyzeTranscript                                     *)
(* ===================================================================== *)

(** The runs of the retry loop, over an attempt that makes one request and a
    demo generator that makes none. *)
Section Runs.
Variable performAnalysis : string -> Z -> Value -> Value -> Async Value.
Variable generateDemoAnalysis : string -> Value -> Value -> Async Value.
Variables (transcript : string) (mentor interviewType : Value).
Variable Live : Z -> Value -> Prop.
Variable Demo : Value -> Prop.

Hypothesis attempt_once :
  forall attempt st, exists r c,
    performAnalysis transcript attempt mentor interviewType st
      = (r, advance 1 c [Fetched] st) /\
    (forall v, r = Normal v -> Live attempt v).

Hypothesis demo_once :
  forall st, exists v,
    generateDemoAnalysis transcript mentor interviewType st = (Normal v, advance 0 1 [] st) /\
    Demo v.

Lemma attempts_runs (st : State) :
  exists v f c events,
    Orchestrator.attempts performAnalysis generateDemoAnalysis 3 1
      transcript mentor interviewType st = (Normal v, advance f c events st) /\
    ((f = 1%nat /\ events = [Fetched] /\ Live 1 v) \/
     (f = 2%nat /\ events = [Fetched; Slept 1000; Fetched] /\ Live 2 v) \/
     (f = 3%nat /\ events = [Fetched; Slept 1000; Fetched; Slept 2000; Fetched] /\
      (Live 3 v \/ Demo v))).
Proof.
  rewrite attempts_step.
  destruct (attempt_once 1 st) as [r1 [c1 [-> Hlive1]]].
  destruct r1 as [v | e1].
  { exists v, 1%nat, c1, [Fetched]. split; [reflexivity |]. left. auto. }
  change (1 =? MAX_RETRIES)%Z with false. cbv iota.
  rewrite attempts_step, advance_advance.
  destruct (attempt_once (1 + 1) (advance (0 + 1) (0 + c1)
              ([Fetched] ++ [Slept (RETRY_DELAY * 1)]) st)) as [r2 [c2 [-> Hlive2]]].
  rewrite advance_advance.
  destruct r2 as [v | e2].
  { exists v, 2%nat. eexists. eexists. split; [reflexivity |]. right. left.
    repeat split. apply (Hlive2 v eq_refl). }
  change (1 + 1 =? MAX_RETRIES)%Z with false. cbv iota.
  rewrite attempts_step, advance_advance.
  destruct (attempt_once (1 + 1 + 1)
              (advance (0 + (1 + (0 + 1))) (0 + (c2 + (0 + c1)))
                 ((([Fetched] ++ [Slept (RETRY_DELAY * 1)]) ++ [Fetched])
                    ++ [Slept (RETRY_DELAY * (1 + 1))]) st)) as [r3 [c3 [-> Hlive3]]].
  rewrite advance_advance.
  destruct r3 as [v | e3].
  { exists v, 3%nat. eexists. eexists. split; [reflexivity |]. right. right.
    repeat split. left. apply (Hlive3 v eq_refl). }
  change (1 + 1 + 1 =? MAX_RETRIES)%Z with true. cbv iota.
  destruct (demo_once (advance (1 + (0 + (1 + (0 + 1)))) (c3 + (0 + (c2 + (0 + c1))))
              (((([Fetched] ++ [Slept (RETRY_DELAY * 1)]) ++ [Fetched])
                  ++ [Slept (RETRY_DELAY * (1 + 1))]) ++ [Fetched]) st)) as [v [-> Hdemo]].
  rewrite advance_advance.
  exists v, 3%nat. eexists. eexists. split; [reflexivity |]. right. right.
  repeat split. right. exact Hdemo.
Qed.

End Runs.

Lemma validator_parse_shape {platform : Platform} (responseText originalTranscript : string) :
  exists out,
    ResponseValidator.parseAndValidateResponse responseText originalTranscript = Normal out /\
    Schema.analysis_shape out = true.
Proof.
  unfold ResponseValidator.parseAndValidateResponse.
  destruct (ResponseValidator.jsonText responseText) as [text | e]; simpl;
    [| eexists; split; [reflexivity | apply fallback_has_shape]].
  destruct (JSON_parse text) as [parsed | e]; simpl;
    [| eexists; split; [reflexivity | apply fallback_has_shape]].
  destruct (ResponseParser.validate parsed) as [out | e] eqn:Hout; simpl;
    [| eexists; split; [reflexivity | apply fallback_has_shape]].
  exists out. split; [reflexivity | apply (validate_shape _ _ Hout)].
Qed.

Lemma parser_parse_shape {platform : Platform} (responseText originalTranscript : string) :
  exists out,
    ResponseParser.parseAndValidateResponse responseText originalTranscript = Normal out /\
    Schema.analysis_shape out = true.
Proof.
  destruct (parseAndValidateResponse_cases responseText originalTranscript)
    as [[Hrun _] | [parsed [out [_ [Hvalidate Hrun]]]]].
  - eexists. split; [exact Hrun | apply fallback_has_shape].
  - exists out. split; [exact Hrun | apply (validate_shape _ _ Hvalidate)].
Qed.

Section Attempts.
Context {platform : Platform} (env : Environment).
Variables (transcript : string) (mentor interviewType : Value).

Lemma demo_once (st : State) :
  exists v,
    DemoAnalysisGenerator.generateDemoAnalysis env transcript mentor interviewType st
      = (Normal v, advance 0 1 [] st) /\
    Bounds.demo v.
Proof.
  unfold DemoAnalysisGenerator.generateDemoAnalysis, Date_new_toISOString, Date_now,
    Runtime.bind, Runtime.ret, advance, Bounds.demo.
  cbv zeta.
  destruct (test_any_ci _ transcript), (test_any_ci _ transcript),
    (800 <? split_spaces_length transcript)%nat;
    (eexists; split; [cbn [fst snd trace fetches clock_reads Nat.add];
                      rewrite app_nil_r; reflexivity |];
     repeat split; vm_compute; reflexivity).
Qed.

Lemma deepseek_attempt_once (attempt : Z) (st : State) :
  exists r c,
    DeepseekEnhanced.performAnalysis env transcript attempt mentor interviewType st
      = (r, advance 1 c [Fetched] st) /\
    (forall v, r = Normal v -> Bounds.live attempt v).
Proof.
  unfold DeepseekEnhanced.performAnalysis, Runtime.bind, Date_now, fetch, advance,
    Response_json, Response_text, lift, Date_new_toISOString, Runtime.ret, throw.
  cbn [fst snd trace fetches clock_reads].
  destruct (fetch_result env (fetches st)) as [reason | response].
  { exists (Throw reason), 1%nat. split; [reflexivity | discriminate]. }
  destruct (ok response).
  2: { cbn [negb]. eexists (Throw _), 1%nat. split; [reflexivity | discriminate]. }
  cbn [negb].
  destruct (JSON_parse (body response)) as [data | e].
  2: { exists (Throw e), 1%nat. split; [reflexivity | discriminate]. }
  destruct (DeepseekEnhanced.invalid_structure data) as [[|] | e].
  1, 3: eexists (Throw _), 1%nat; split; [reflexivity | discriminate].
  destruct (DeepseekEnhanced.content_trimmed data) as [text | e].
  2: { exists (Throw e), 1%nat. split; [reflexivity | discriminate]. }
  destruct (text =? "").
  { eexists (Throw _), 1%nat. split; [reflexivity | discriminate]. }
  destruct (validator_parse_shape text transcript) as [analysis [-> Hshape]].
  cbn [fst snd trace fetches clock_reads].
  destruct (DeepseekEnhanced.tokens_used data) as [tokens | e].
  2: { exists (Throw e), 3%nat. split; [reflexivity | discriminate]. }
  eexists (Normal _), 3%nat. split; [reflexivity |].
  intros v Hv. injection Hv as <-. unfold Bounds.live. repeat split. exact Hshape.
Qed.

Lemma ai_service_attempt_once (attempt : Z) (st : State) :
  exists r c,
    AiService.performAnalysis env transcript attempt mentor interviewType st
      = (r, advance 1 c [Fetched] st) /\
    (forall v, r = Normal v -> Bounds.live attempt v).
Proof.
  unfold AiService.performAnalysis, Runtime.bind, Date_now, fetch, advance,
    Response_json, Response_text, lift, Date_new_toISOString, Runtime.ret, throw.
  cbn [fst snd trace fetches clock_reads].
  destruct (fetch_result env (fetches st)) as [reason | response].
  { exists (Throw reason), 0%nat. split; [reflexivity | discriminate]. }
  destruct (ok response).
  2: { cbn [negb]. eexists (Throw _), 0%nat. split; [reflexivity | discriminate]. }
  cbn [negb].
  destruct (JSON_parse (body response)) as [data | e].
  2: { exists (Throw e), 0%nat. split; [reflexivity | discriminate]. }
  destruct (AiService.content data) as [analysisText | e].
  2: { exists (Throw e), 0%nat. split; [reflexivity | discriminate]. }
  destruct (ToBoolean analysisText).
  2: { cbn [negb]. eexists (Throw _), 0%nat. split; [reflexivity | discriminate]. }
  cbn [negb]. unfold AiService.parseAndValidate.
  destruct analysisText as [| | b | n | text | items | props];
    try (exists (Throw TypeError), 0%nat; split; [reflexivity | discriminate]).
  destruct (parser_parse_shape text transcript) as [analysis [-> Hshape]].
  cbn [fst snd trace fetches clock_reads].
  destruct (get data "usage") as [usage | e].
  2: { exists (Throw e), 1%nat. split; [reflexivity | discriminate]. }
  eexists (Normal _), 1%nat. split; [reflexivity |].
  intros v Hv. injection Hv as <-. unfold Bounds.live. repeat split. exact Hshape.
Qed.

End Attempts.

(** The runs of [analyzeTranscript], over the same attempt and generator. *)
Section Analyses.
Context {platform : Platform} (env : Environment).
Variable performAnalysis : string -> Z -> Value -> Value -> Async Value.
Variable generateDemoAnalysis : string -> Value -> Value -> Async Value.
Variables (transcript : string) (mentor interviewType : Value).

Hypothesis attempt_once :
  forall attempt st, exists r c,
    performAnalysis transcript attempt mentor interviewType st
      = (r, advance 1 c [Fetched] st) /\
    (forall v, r = Normal v -> Bounds.live attempt v).

Hypothesis demo_once :
  forall st, exists v,
    generateDemoAnalysis transcript mentor interviewType st = (Normal v, advance 0 1 [] st) /\
    Bounds.demo v.

Lemma analyzeTranscript_runs (st : State) :
  exists r f c events,
    Orchestrator.analyzeTranscript env performAnalysis generateDemoAnalysis
      transcript mentor interviewType st = (r, advance f c events st) /\
    (((String.length (trim transcript) < 50)%nat /\
      r = Throw (Error "Transcript too short or empty for meaningful analysis") /\
      f = 0%nat /\ events = []) \/
     ((50 <= String.length (trim transcript))%nat /\
      exists v, r = Normal v /\
        ((f = 0%nat /\ events = [] /\ Bounds.demo v) \/
         (f = 1%nat /\ events = [Fetched] /\ Bounds.live 1 v) \/
         (f = 2%nat /\ events = [Fetched; Slept 1000; Fetched] /\ Bounds.live 2 v) \/
         (f = 3%nat /\ events = [Fetched; Slept 1000; Fetched; Slept 2000; Fetched] /\
          (Bounds.live 3 v \/ Bounds.demo v))))).
Proof.
  destruct (Nat.lt_ge_cases (String.length (trim transcript)) 50) as [Hshort | Hlong].
  - rewrite (analyzeTranscript_short env performAnalysis generateDemoAnalysis
               transcript mentor interviewType st Hshort).
    eexists. exists 0%nat, 0%nat, []. rewrite advance_zero.
    split; [reflexivity |]. left. auto.
  - rewrite (analyzeTranscript_long env performAnalysis generateDemoAnalysis
               transcript mentor interviewType st Hlong).
    destruct (Orchestrator.key_not_configured env).
    + destruct (demo_once st) as [v [-> Hdemo]].
      exists (Normal v), 0%nat, 1%nat, []. split; [reflexivity |]. right.
      split; [exact Hlong |]. exists v. split; [reflexivity |]. left. auto.
    + change (Z.to_nat MAX_RETRIES) with 3%nat.
      destruct (attempts_runs performAnalysis generateDemoAnalysis transcript mentor
                  interviewType Bounds.live Bounds.demo attempt_once demo_once st)
        as [v [f [c [events [-> Hcases]]]]].
      exists (Normal v), f, c, events. split; [reflexivity |]. right.
      split; [exact Hlong |]. exists v. split; [reflexivity |]. right. exact Hcases.
Qed.

End Analyses.

(** X9.  Whatever the transcript, the mentor, the interview type, the key,
    the network and the replies, a call of [analyzeTranscript] makes at most
    three requests and waits at most twice, 1000 ms after the first failure
    and 2000 ms after the second: what it adds to the trace is nothing, one
    request, two requests around the first wait, or three requests around
    the two waits.  Both services agree. *)
Theorem analyzeTranscript_bounded {platform : Platform} (env : Environment)
  (transcript : string) (mentor interviewType : Value) (st : State) :
  (exists r f c events,
     Errors.logged mentor interviewType (DeepseekEnhanced.analyzeTranscript env transcript) st
       = (r, advance f c events st) /\
     In (f, events)
        [(0%nat, []); (1%nat, [Fetched]); (2%nat, [Fetched; Slept 1000; Fetched]);
         (3%nat, [Fetched; Slept 1000; Fetched; Slept 2000; Fetched])]) /\
  (exists r f c events,
     Errors.logged mentor interviewType (AiService.analyzeTranscript env transcript) st
       = (r, advance f c events st) /\
     In (f, events)
        [(0%nat, []); (1%nat, [Fetched]); (2%nat, [Fetched; Slept 1000; Fetched]);
         (3%nat, [Fetched; Slept 1000; Fetched; Slept 2000; Fetched])]).
Proof.
  rewrite !logged_cases.
  destruct (Errors.stringifiable mentor && Errors.stringifiable interviewType).
  2: { split; exists (Throw TypeError), 0%nat, 0%nat, []; rewrite advance_zero;
       (split; [reflexivity | simpl; auto]). }
  split.
  - destruct (analyzeTranscript_runs env
                (DeepseekEnhanced.performAnalysis env)
                (DemoAnalysisGenerator.generateDemoAnalysis env)
                transcript (Errors.default_null mentor) (Errors.default_null interviewType)
                (deepseek_attempt_once env transcript _ _)
                (demo_once env transcript _ _) st)
      as [r [f [c [events [Hrun Hcases]]]]].
    exists r, f, c, events. split; [exact Hrun |].
    destruct Hcases as [[_ [_ [-> ->]]] | [_ [v [_ [[-> [-> _]] | [[-> [-> _]] |
      [[-> [-> _]] | [-> [-> _]]]]]]]]]; simpl; auto.
  - destruct (analyzeTranscript_runs env
                (AiService.performAnalysis env)
                (AiService.getDemoAnalysis env)
                transcript (Errors.default_null mentor) (Errors.default_null interviewType)
                (ai_service_attempt_once env transcript _ _)
                (demo_once env transcript _ _) st)
      as [r [f [c [events [Hrun Hcases]]]]].
    exists r, f, c, events. split; [exact Hrun |].
    destruct Hcases as [[_ [_ [-> ->]]] | [_ [v [_ [[-> [-> _]] | [[-> [-> _]] |
      [[-> [-> _]] | [-> [-> _]]]]]]]]]; simpl; auto.
Qed.

(** X10.  For a transcript of 50 characters or more after trimming, and a
    mentor and an interview type that convert to strings, whatever the key,
    the network and the replies, [analyzeTranscript] returns an object with
    [success] true whose [analysis] has the eight sections in their shape.
    Its metadata either has [demo_mode] true, or has no [demo_mode] and an
    [attempt_number] that is the number of requests the call made, one to
    three.  Both services agree. *)
Theorem analyzeTranscript_result {platform : Platform} (env : Environment)
  (transcript : string) (mentor interviewType : Value) (st : State) :
  (50 <= String.length (trim transcript))%nat ->
  Errors.stringifiable mentor = true ->
  Errors.stringifiable interviewType = true ->
  (exists v f c events,
     Errors.logged mentor interviewType (DeepseekEnhanced.analyzeTranscript env transcript) st
       = (Normal v, advance f c events st) /\
     prop v "success" = JSBool true /\
     Schema.analysis_shape (prop v "analysis") = true /\
     (prop (prop v "metadata") "demo_mode" = JSBool true \/
      (prop (prop v "metadata") "demo_mode" = JSUndefined /\
       prop (prop v "metadata") "attempt_number" = JSNumber (num (Z.of_nat f)) /\
       (1 <= f <= 3)%nat))) /\
  (exists v f c events,
     Errors.logged mentor interviewType (AiService.analyzeTranscript env transcript) st
       = (Normal v, advance f c events st) /\
     prop v "success" = JSBool true /\
     Schema.analysis_shape (prop v "analysis") = true /\
     (prop (prop v "metadata") "demo_mode" = JSBool true \/
      (prop (prop v "metadata") "demo_mode" = JSUndefined /\
       prop (prop v "metadata") "attempt_number" = JSNumber (num (Z.of_nat f)) /\
       (1 <= f <= 3)%nat))).
Proof.
  intros Hlong Hmentor Htype. rewrite !logged_cases, Hmentor, Htype. cbn [andb]. split.
  - destruct (analyzeTranscript_runs env
                (DeepseekEnhanced.performAnalysis env)
                (DemoAnalysisGenerator.generateDemoAnalysis env)
                transcript (Errors.default_null mentor) (Errors.default_null interviewType)
                (deepseek_attempt_once env transcript _ _)
                (demo_once env transcript _ _) st)
      as [r [f [c [events [Hrun [[Hshort _] | [_ [v [-> Hcases]]]]]]]]]; [lia |].
    exists v, f, c, events. split; [exact Hrun |].
    destruct Hcases as [[-> [-> Hd]] | [[-> [-> Hl]] | [[-> [-> Hl]] | [-> [-> [Hl | Hd]]]]]];
      try (destruct Hd as [Hs [Hshape Hmode]]; auto);
      try (destruct Hl as [Hs [Hshape [Hmode Hnumber]]];
           split; [exact Hs |]; split; [exact Hshape |]; right;
           split; [exact Hmode |]; split; [exact Hnumber | lia]).
  - destruct (analyzeTranscript_runs env
                (AiService.performAnalysis env)
                (AiService.getDemoAnalysis env)
                transcript (Errors.default_null mentor) (Errors.default_null interviewType)
                (ai_service_attempt_once env transcript _ _)
                (demo_once env transcript _ _) st)
      as [r [f [c [events [Hrun [[Hshort _] | [_ [v [-> Hcases]]]]]]]]]; [lia |].
    exists v, f, c, events. split; [exact Hrun |].
    destruct Hcases as [[-> [-> Hd]] | [[-> [-> Hl]] | [[-> [-> Hl]] | [-> [-> [Hl | Hd]]]]]];
      try (destruct Hd as [Hs [Hshape Hmode]]; auto);
      try (destruct Hl as [Hs [Hshape [Hmode Hnumber]]];
           split; [exact Hs |]; split; [exact Hshape |]; right;
           split; [exact Hmode |]; split; [exact Hnumber | lia]).
Qed.

Lemma analyzeTranscript_result_witness :
  exists v f c events,
    Errors.logged (JSString "yoda") JSUndefined
      (AiService.analyzeTranscript (platform := Examples.reference_platform)
         (Examples.answering "{}") Examples.transcript) initial
      = (Normal v, advance f c events initial) /\
    prop v "success" = JSBool true /\
    Schema.analysis_shape (prop v "analysis") = true.
Proof.
  destruct (analyzeTranscript_result (platform := Examples.reference_platform)
              (Examples.answering "{}") Examples.transcript (JSString "yoda") JSUndefined
              initial)
    as [_ [v [f [c [events [Hrun [Hs [Hshape _]]]]]]]].
  - vm_compute. lia.
  - reflexivity.
  - reflexivity.
  - exists v, f, c, events. auto.
Defined.

(* ===================================================================== *)
(** * The content of a reply in ai-service.js                            *)
(* ===================================================================== *)

Section AiServiceContent.
Context {platform : Platform} (env : Environment).
Variables (transcript : string) (attempt : Z) (mentor interviewType : Value) (st : State).
Variables (response : Response) (data content : Value).
Hypothesis answered : fetch_result env (fetches st) = Resolved response.
Hypothesis status_ok : ok response = true.
Hypothesis body_parsed : JSON_parse (body response) = Normal data.
Hypothesis content_read : AiService.content data = Normal content.

Lemma usage_returns : get data "usage" = Normal (prop data "usage").
Proof.
  unfold AiService.content in content_read. rewrite get_prop in content_read.
  rewrite get_prop. destruct (nullish data); [discriminate | reflexivity].
Qed.

Lemma ai_service_content (text : string) (analysis : Value) :
  content = JSString text ->
  text <> "" ->
  ResponseParser.parseAndValidateResponse text transcript = Normal analysis ->
  AiService.performAnalysis env transcript attempt mentor interviewType st
    = (Normal (JSObject
         [("success", JSBool true);
          ("analysis", analysis);
          ("metadata", JSObject
            [("model", JSString MODEL);
             ("timestamp", JSString (Date_toISOString (clock env (clock_reads st))));
             ("transcript_length", JSNumber (num (Z.of_nat (String.length transcript))));
             ("attempt_number", JSNumber (num attempt));
             ("token_usage", or_else (prop data "usage") JSNull)])]),
       advance 1 1 [Fetched] st).
Proof.
  intros Hcontent Hne Hanalysis.
  unfold AiService.performAnalysis, Runtime.bind, fetch, advance, Response_json, lift,
    Date_new_toISOString, Date_now, Runtime.ret.
  rewrite answered. cbn [fst snd trace fetches clock_reads]. rewrite status_ok. cbn [negb].
  rewrite body_parsed, content_read, Hcontent.
  assert (ToBoolean (JSString text) = true) as ->.
  { destruct text; [contradiction | reflexivity]. }
  cbn [negb AiService.parseAndValidate]. rewrite Hanalysis, usage_returns. reflexivity.
Qed.

Lemma ai_service_no_content :
  (forall text, content = JSString text -> text = "") ->
  exists e,
    AiService.performAnalysis env transcript attempt mentor interviewType st
      = (Throw e, advance 1 0 [Fetched] st) /\
    (ToBoolean content = false -> e = Error "No analysis content received from DeepSeek").
Proof.
  intros Hcontent.
  unfold AiService.performAnalysis, Runtime.bind, fetch, advance, Response_json, lift,
    Date_new_toISOString, Date_now, Runtime.ret, throw.
  rewrite answered. cbn [fst snd trace fetches clock_reads]. rewrite status_ok. cbn [negb].
  rewrite body_parsed, content_read.
  destruct (ToBoolean content) eqn:Htruthy; cbn [negb].
  - exists TypeError. split; [| discriminate].
    unfold AiService.parseAndValidate.
    destruct content as [| | b | n | text | items | props] eqn:Hvalue; try reflexivity.
    rewrite (Hcontent text eq_refl) in Htruthy. discriminate.
  - eexists. split; reflexivity.
Qed.

End AiServiceContent.

(** X11.  In ai-service.js, with a transcript long enough, a mentor and an
    interview type that convert to strings and a key configured, let the
    first request be answered with status ok and a JSON body whose content,
    read as [data.choices?.[0]?.message?.content], is [content].  When it is
    a string that is not empty, blank or not, the first attempt is the
    result: one request, no wait, [success] true, attempt number 1, the
    analysis that [parseAndValidateResponse] gives for the text as it is (the
    fallback analysis when no JSON value is read from it), and [token_usage]
    is [data.usage || null].  When it is anything else, the attempt throws
    and is retried after 1000 ms. *)
Theorem ai_service_content_returned {platform : Platform} (env : Environment)
  (transcript : string) (mentor interviewType : Value) (st : State)
  (key : string) (response : Response) (data content : Value) :
  (50 <= String.length (trim transcript))%nat ->
  Errors.stringifiable mentor = true ->
  Errors.stringifiable interviewType = true ->
  OPENROUTER_API_KEY env = Some key ->
  key <> "" -> key <> "your_openrouter_api_key_here" ->
  fetch_result env (fetches st) = Resolved response ->
  ok response = true ->
  JSON_parse (body response) = Normal data ->
  AiService.content data = Normal content ->
  (forall text, content = JSString text -> text <> "" ->
   exists analysis result,
     ResponseParser.parseAndValidateResponse text transcript = Normal analysis /\
     (forall e, JSON_parse (ResponseParser.jsonText text) = Throw e ->
        analysis = ResponseParser.createFallbackAnalysis transcript text) /\
     Errors.logged mentor interviewType (AiService.analyzeTranscript env transcript) st
       = (Normal result, advance 1 1 [Fetched] st) /\
     prop result "success" = JSBool true /\
     prop result "analysis" = analysis /\
     prop (prop result "metadata") "attempt_number" = JSNumber (num 1) /\
     prop (prop result "metadata") "token_usage" = or_else (prop data "usage") JSNull) /\
  ((forall text, content = JSString text -> text = "") ->
   Errors.logged mentor interviewType (AiService.analyzeTranscript env transcript) st
     = Orchestrator.attempts (AiService.performAnalysis env) (AiService.getDemoAnalysis env)
         2 2 transcript (Errors.default_null mentor) (Errors.default_null interviewType)
         (advance 1 0 [Fetched; Slept 1000] st)).
Proof.
  intros Hlong Hmentor Htype Hkey Hne Hph Hfetch Hok Hbody Hcontent.
  rewrite (logged_runs mentor interviewType _ st Hmentor Htype).
  set (tag := Errors.default_null mentor). set (kind := Errors.default_null interviewType).
  assert (AiService.analyzeTranscript env transcript tag kind st
          = Orchestrator.attempts (AiService.performAnalysis env)
              (AiService.getDemoAnalysis env) 3 1
              transcript tag kind st) as Hloop.
  { unfold AiService.analyzeTranscript.
    rewrite analyzeTranscript_long by exact Hlong.
    rewrite (key_configured env key Hkey Hne Hph). reflexivity. }
  rewrite Hloop, attempts_step. split.
  - intros text Htext Hfull.
    destruct (parseAndValidateResponse_cases text transcript)
      as [[Hrun _] | [parsed [out [Hparsed [_ Hrun]]]]].
    + eexists. eexists. split; [exact Hrun |]. split; [reflexivity |].
      rewrite (ai_service_content env transcript 1 tag kind st response data
                 content Hfetch Hok Hbody Hcontent text _ Htext Hfull Hrun).
      repeat split.
    + exists out. eexists. split; [exact Hrun |]. split.
      { intros e He. rewrite Hparsed in He. discriminate. }
      rewrite (ai_service_content env transcript 1 tag kind st response data
                 content Hfetch Hok Hbody Hcontent text _ Htext Hfull Hrun).
      repeat split.
  - intros Hnone.
    destruct (ai_service_no_content env transcript 1 tag kind st response data
                content Hfetch Hok Hbody Hcontent Hnone) as [e [-> _]].
    change (1 =? MAX_RETRIES)%Z with false. cbv iota.
    rewrite advance_advance. reflexivity.
Qed.

Lemma ai_service_content_returned_witness :
  exists result,
    Errors.logged (JSString "yoda") JSUndefined
      (AiService.analyzeTranscript (platform := Examples.reference_platform)
         (Examples.answering "   ") Examples.transcript) initial
      = (Normal result, advance 1 1 [Fetched] initial) /\
    prop result "analysis" = ResponseParser.createFallbackAnalysis Examples.transcript "   ".
Proof.
  destruct (ai_service_content_returned (platform := Examples.reference_platform)
              (Examples.answering "   ") Examples.transcript (JSString "yoda") JSUndefined
              initial "sk-or-v1-test"
              {| ok := true; status := 200; body := Examples.completion "   " |}
              (JSObject [("choices",
                 JSArray [JSObject [("message", JSObject [("content", JSString "   ")])]])])
              (JSString "   ")) as [Hfirst _].
  - vm_compute. lia.
  - reflexivity.
  - reflexivity.
  - reflexivity.
  - discriminate.
  - discriminate.
  - reflexivity.
  - reflexivity.
  - vm_compute. reflexivity.
  - reflexivity.
  - destruct (Hfirst "   " eq_refl) as [analysis [result [_ [Hfallback [Hrun [_ [Hanalysis _]]]]]]].
    + discriminate.
    + exists result. split; [exact Hrun |].
      rewrite Hanalysis. apply (Hfallback SyntaxError). vm_compute. reflexivity.
Defined.

(* ===================================================================== *)
(** * testDeepSeekConnection                                             *)
(* ===================================================================== *)

(** X12.  [testDeepSeekConnection] never throws and makes exactly one
    request, without a wait and without reading the clock.  Its [success]
    is true exactly when the request is answered with status ok and a body
    that parses.  An answer with another status is reported with that
    status and the text of the body, and no [error]; a request that fails,
    or a body that does not parse, is reported with the message of the error
    and no [status]. *)
Theorem testDeepSeekConnection_reports {platform : Platform} {messages : ErrorMessages}
  (env : Environment) (st : State) :
  exists v,
    Connection.testDeepSeekConnection env st = (Normal v, advance 1 0 [Fetched] st) /\
    (prop v "success" = JSBool true <->
     exists response data,
       fetch_result env (fetches st) = Resolved response /\
       ok response = true /\
       JSON_parse (body response) = Normal data /\
       prop v "response" = data) /\
    (forall response,
       fetch_result env (fetches st) = Resolved response -> ok response = false ->
       prop v "success" = JSBool false /\
       prop v "status" = JSNumber (num (Z.of_nat (status response))) /\
       prop v "response" = JSString (body response) /\
       prop v "error" = JSUndefined) /\
    (forall reason,
       fetch_result env (fetches st) = Rejected reason ->
       prop v "success" = JSBool false /\
       prop v "error" = JSString (Errors.message reason) /\
       prop v "status" = JSUndefined) /\
    (forall response e,
       fetch_result env (fetches st) = Resolved response -> ok response = true ->
       JSON_parse (body response) = Throw e ->
       prop v "success" = JSBool false /\
       prop v "error" = JSString (Errors.message e) /\
       prop v "status" = JSUndefined).
Proof.
  unfold Connection.testDeepSeekConnection, Runtime.try_catch, Runtime.bind, fetch,
    Response_json, Response_text, lift, Runtime.ret, advance.
  cbn [Nat.add].
  destruct (fetch_result env (fetches st)) as [reason | response].
  - eexists. split; [reflexivity |]. split; [| split; [| split]].
    + split; [discriminate | intros [response [data [H _]]]; discriminate].
    + intros response H. discriminate.
    + intros reason' H. injection H as <-. repeat split.
    + intros response e H. discriminate.
  - destruct (ok response) eqn:Hok.
    + destruct (JSON_parse (body response)) as [data | e] eqn:Hparse.
      * eexists. split; [reflexivity |]. split; [| split; [| split]].
        -- split; [| reflexivity]. intros _. exists response, data. auto.
        -- intros response' H. injection H as <-. rewrite Hok. discriminate.
        -- intros reason H. discriminate.
        -- intros response' e H. injection H as <-. rewrite Hparse. discriminate.
      * eexists. split; [reflexivity |]. split; [| split; [| split]].
        -- split; [discriminate |].
           intros [response' [data [H [_ [Hdata _]]]]]. injection H as <-.
           rewrite Hparse in Hdata. discriminate.
        -- intros response' H. injection H as <-. rewrite Hok. discriminate.
        -- intros reason H. discriminate.
        -- intros response' e' H _ He. injection H as <-.
           rewrite Hparse in He. injection He as <-. repeat split.
    + eexists. split; [reflexivity |]. split; [| split; [| split]].
      * split; [discriminate |].
        intros [response' [data [H [Hok' _]]]]. injection H as <-.
        rewrite Hok in Hok'. discriminate.
      * intros response' H _. injection H as <-. repeat split.
      * intros reason H. discriminate.
      * intros response' e H Hok'. injection H as <-. rewrite Hok in Hok'. discriminate.
Qed.

Lemma testDeepSeekConnection_reports_witness :
  exists v,
    Connection.testDeepSeekConnection (platform := Examples.reference_platform)
      (messages := Bounds.sample_messages) Examples.unreachable initial
      = (Normal v, advance 1 0 [Fetched] initial) /\
    prop v "success" = JSBool false /\
    prop v "error" = JSString "fetch failed".
Proof.
  destruct (testDeepSeekConnection_reports (platform := Examples.reference_platform)
              (messages := Bounds.sample_messages) Examples.unreachable initial)
    as [v [Hrun [_ [_ [Hrejected _]]]]].
  destruct (Hrejected (Error "fetch failed") eq_refl) as [Hsuccess [Herror _]].
  exists v. auto.
Defined.

(* ===================================================================== *)
(** * POST /api/analyze                                                  *)
(* ===================================================================== *)

Section Handler.
Context {platform : Platform} {messages : ErrorMessages} (env : Environment).

Let failed (e : Exception) : Server.Reply :=
  {| Server.code := 500;
     Server.payload := JSObject [("error", JSString "Analysis failed");
                                 ("details", JSString (Errors.message e))] |}.

(** The handler, case by case. *)
Lemma analyze_cases (body : Value) (st : State) :
  Server.analyze env body st =
  if nullish body then (Normal (failed TypeError), st)
  else if negb (ToBoolean (prop body "transcript"))
  then (Normal {| Server.code := 400;
                  Server.payload := JSObject [("error", JSString "No transcript provided")] |},
        st)
  else if negb (Errors.stringifiable (prop body "mentor") &&
                Errors.stringifiable (prop body "interviewType"))
  then (Normal (failed TypeError), st)
  else
    match prop body "transcript" with
    | JSString text =>
        match AiService.analyzeTranscript env text
                (Errors.default_null (prop body "mentor"))
                (Errors.default_null (prop body "interviewType")) st with
        | (Normal result, st') =>
            (Normal {| Server.code := 200; Server.payload := result |}, st')
        | (Throw e, st') => (Normal (failed e), st')
        end
    | _ => (Normal (failed TypeError), st)
    end.
Proof.
  unfold Server.analyze, Server.analyzeTranscript, Runtime.try_catch.
  unfold Runtime.bind at 1. unfold lift at 1. rewrite get_prop.
  destruct (nullish body) eqn:Hbody; [reflexivity |].
  unfold Runtime.bind at 1. unfold lift at 1. rewrite get_prop, Hbody.
  unfold Runtime.bind at 1. unfold lift at 1. rewrite get_prop, Hbody.
  destruct (ToBoolean (prop body "transcript")) eqn:Htruthy; cbn [negb]; [| reflexivity].
  unfold Runtime.bind at 1. unfold lift at 1. unfold Errors.template. cbn [forallb].
  rewrite andb_true_r.
  destruct (Errors.stringifiable (prop body "mentor") &&
            Errors.stringifiable (prop body "interviewType")) eqn:Hlog;
    cbn [negb]; [| reflexivity].
  unfold Runtime.bind at 1. rewrite logged_cases, Hlog.
  destruct (prop body "transcript") as [| | b | n | text | items | props];
    try discriminate; try (rewrite Htruthy); try reflexivity.
  unfold Runtime.ret.
  destruct (AiService.analyzeTranscript env text _ _ st) as [[result | e] st']; reflexivity.
Qed.

End Handler.

(** X13.  The handler of [POST /api/analyze] answers every body: it never
    throws, and it makes at most three requests and waits at most twice.  The
    status is 200, 400 or 500.  With 200 the payload has [success] true and an
    analysis of the right shape.  With 400 the payload is the error
    [No transcript provided], with 500 its [error] is [Analysis failed], and
    in both cases no request was made. *)
Theorem analyze_replies {platform : Platform} {messages : ErrorMessages}
  (env : Environment) (body : Value) (st : State) :
  exists reply f c events,
    Server.analyze env body st = (Normal reply, advance f c events st) /\
    In (f, events)
       [(0%nat, []); (1%nat, [Fetched]); (2%nat, [Fetched; Slept 1000; Fetched]);
        (3%nat, [Fetched; Slept 1000; Fetched; Slept 2000; Fetched])] /\
    ((Server.code reply = 200%nat /\
      prop (Server.payload reply) "success" = JSBool true /\
      Schema.analysis_shape (prop (Server.payload reply) "analysis") = true) \/
     (Server.code reply = 400%nat /\ f = 0%nat /\
      Server.payload reply = JSObject [("error", JSString "No transcript provided")]) \/
     (Server.code reply = 500%nat /\ f = 0%nat /\
      prop (Server.payload reply) "error" = JSString "Analysis failed")).
Proof.
  rewrite analyze_cases.
  destruct (nullish body).
  { eexists. exists 0%nat, 0%nat, []. rewrite advance_zero.
    split; [reflexivity |]. split; [simpl; auto |]. right. right. repeat split. }
  destruct (ToBoolean (prop body "transcript")); cbn [negb].
  2: { eexists. exists 0%nat, 0%nat, []. rewrite advance_zero.
       split; [reflexivity |]. split; [simpl; auto |]. right. left. repeat split. }
  destruct (Errors.stringifiable (prop body "mentor") &&
            Errors.stringifiable (prop body "interviewType")); cbn [negb].
  2: { eexists. exists 0%nat, 0%nat, []. rewrite advance_zero.
       split; [reflexivity |]. split; [simpl; auto |]. right. right. repeat split. }
  destruct (prop body "transcript") as [| | b | n | text | items | props];
    try (eexists; exists 0%nat, 0%nat, []; rewrite advance_zero;
         split; [reflexivity |]; split; [simpl; auto |]; right; right; repeat split).
  destruct (analyzeTranscript_runs env
              (AiService.performAnalysis env) (AiService.getDemoAnalysis env)
              text (Errors.default_null (prop body "mentor"))
              (Errors.default_null (prop body "interviewType"))
              (ai_service_attempt_once env text _ _)
              (demo_once env text _ _) st)
    as [r [f [c [events [Hrun Hcases]]]]].
  unfold AiService.analyzeTranscript. rewrite Hrun.
  destruct Hcases as [[_ [-> [-> ->]]] | [_ [v [-> Hcases]]]].
  - eexists. exists 0%nat, c, []. split; [reflexivity |]. split; [simpl; auto |].
    right. right. repeat split.
  - eexists. exists f, c, events. split; [reflexivity |].
    destruct Hcases as [[-> [-> Hd]] | [[-> [-> Hl]] | [[-> [-> Hl]] | [-> [-> [Hl | Hd]]]]]];
      (split; [simpl; auto |]); left;
      try (destruct Hd as [Hs [Hshape _]]; auto);
      try (destruct Hl as [Hs [Hshape _]]; auto).
Qed.

(** X14.  What the handler answers depends on the transcript of the body (a
    body that is not [null] or [undefined]).  Without a transcript, or with
    an empty one, the answer is 400.  With a transcript that is a string of
    fewer than 50 characters after trimming, the answer is 500 and its
    details are the too-short message.  With a longer one the answer is 200
    with what [analyzeTranscript] of ai-service.js returns.  In the first two
    cases nothing is requested.  The mentor and the interview type are ones
    that convert to strings. *)
Theorem analyze_by_transcript {platform : Platform} {messages : ErrorMessages}
  (env : Environment) (body : Value) (st : State) :
  nullish body = false ->
  Errors.stringifiable (prop body "mentor") = true ->
  Errors.stringifiable (prop body "interviewType") = true ->
  (ToBoolean (prop body "transcript") = false ->
   Server.analyze env body st
     = (Normal {| Server.code := 400;
                  Server.payload := JSObject [("error", JSString "No transcript provided")] |},
        st)) /\
  (forall text,
     prop body "transcript" = JSString text -> text <> "" ->
     (String.length (trim text) < 50)%nat ->
     Server.analyze env body st
       = (Normal {| Server.code := 500;
                    Server.payload :=
                      JSObject [("error", JSString "Analysis failed");
                                ("details", JSString
                                   "Transcript too short or empty for meaningful analysis")] |},
          st)) /\
  (forall text,
     prop body "transcript" = JSString text ->
     (50 <= String.length (trim text))%nat ->
     exists result st',
       AiService.analyzeTranscript env text
         (Errors.default_null (prop body "mentor"))
         (Errors.default_null (prop body "interviewType")) st = (Normal result, st') /\
       Server.analyze env body st
         = (Normal {| Server.code := 200; Server.payload := result |}, st')).
Proof.
  intros Hbody Hmentor Htype. rewrite analyze_cases, Hbody, Hmentor, Htype. cbn [andb negb].
  split; [| split].
  - intros ->. reflexivity.
  - intros text -> Hfull Hshort.
    assert (ToBoolean (JSString text) = true) as ->.
    { destruct text; [contradiction | reflexivity]. }
    cbn [negb]. unfold AiService.analyzeTranscript.
    rewrite (analyzeTranscript_short env _ _ text _ _ st Hshort). reflexivity.
  - intros text -> Hlong.
    assert (ToBoolean (JSString text) = true) as ->.
    { destruct text; [simpl in Hlong; lia | reflexivity]. }
    cbn [negb].
    destruct (analyzeTranscript_returns env
                (AiService.performAnalysis env) (AiService.getDemoAnalysis env)
                text (Errors.default_null (prop body "mentor"))
                (Errors.default_null (prop body "interviewType"))) with (st := st)
      as [result [st' Hrun]].
    + intros st0.
      destruct (generateDemoAnalysis_returns env text
                  (Errors.default_null (prop body "mentor"))
                  (Errors.default_null (prop body "interviewType")) st0) as [v [Hv _]].
      eauto.
    + exact Hlong.
    + exists result, st'. unfold AiService.analyzeTranscript. rewrite Hrun. auto.
Qed.

Lemma analyze_by_transcript_witness :
  Server.analyze (platform := Examples.reference_platform)
    (messages := Bounds.sample_messages) (Examples.answering "{}")
    (JSObject [("transcript", JSString "I built a cache."); ("mentor", JSString "yoda")])
    initial
  = (Normal {| Server.code := 500;
               Server.payload :=
                 JSObject [("error", JSString "Analysis failed");
                           ("details", JSString
                              "Transcript too short or empty for meaningful analysis")] |},
     initial).
Proof.
  destruct (analyze_by_transcript (platform := Examples.reference_platform)
              (messages := Bounds.sample_messages) (Examples.answering "{}")
              (JSObject [("transcript", JSString "I built a cache.");
                         ("mentor", JSString "yoda")]) initial)
    as [_ [Hshort _]].
  - reflexivity.
  - reflexivity.
  - reflexivity.
  - apply (Hshort "I built a cache."); [reflexivity | discriminate | vm_compute; lia].
Defined.

(* ===================================================================== *)
(** * The two extractions on a bare object                               *)
(* ===================================================================== *)

Section BareObject.
Local Open Scope string_scope.

Lemma trimStart_blank (l s : string) :
  Bounds.blank l = true -> trimStart (l ++ s) = trimStart s.
Proof.
  induction l as [| c rest IH]; intros Hl.
  - reflexivity.
  - simpl in Hl. apply andb_true_iff in Hl. destruct Hl as [Hc Hrest].
    simpl. rewrite Hc. apply IH, Hrest.
Qed.

Lemma trimEnd_blank (r : string) : Bounds.blank r = true -> trimEnd r = "".
Proof.
  induction r as [| c rest IH]; intros Hr.
  - reflexivity.
  - simpl in Hr. apply andb_true_iff in Hr. destruct Hr as [Hc Hrest].
    simpl. rewrite (IH Hrest), Hc. reflexivity.
Qed.

Lemma trimEnd_solid (a : string) (c : ascii) (r : string) :
  is_space c = false -> Bounds.blank r = true ->
  trimEnd (a ++ String c r) = a ++ String c "".
Proof.
  intros Hc Hr. induction a as [| x rest IH].
  - simpl. rewrite (trimEnd_blank r Hr), Hc. reflexivity.
  - simpl. rewrite IH. destruct rest; reflexivity.
Qed.

Lemma blank_without (c : ascii) (s : string) :
  is_space c = false -> Bounds.blank s = true -> Bounds.without c s = true.
Proof.
  intros Hc. induction s as [| x rest IH]; intros Hs.
  - reflexivity.
  - simpl in Hs. apply andb_true_iff in Hs. destruct Hs as [Hx Hrest].
    simpl. rewrite (IH Hrest), andb_true_r.
    destruct (Ascii.eqb_spec x c) as [-> | _]; [congruence | reflexivity].
Qed.

Lemma without_append (c : ascii) (a b : string) :
  Bounds.without c (a ++ b) = Bounds.without c a && Bounds.without c b.
Proof.
  induction a as [| x rest IH]; simpl.
  - reflexivity.
  - rewrite IH, andb_assoc. reflexivity.
Qed.

Variables (l m r : string).
Hypothesis blank_before : Bounds.blank l = true.
Hypothesis blank_after : Bounds.blank r = true.

Let object : string := String "{" (m ++ String "}" "").
Let raw : string := l ++ String "{" (m ++ String "}" r).

Lemma trim_bare_object : trim raw = object.
Proof.
  unfold trim, raw, object. rewrite (trimStart_blank l _ blank_before).
  change (trimStart (String "{" (m ++ String "}" r))) with (String "{" (m ++ String "}" r)).
  change (String "{" (m ++ String "}" r)) with ((String "{" m) ++ String "}" r).
  rewrite trimEnd_solid; [reflexivity | reflexivity | exact blank_after].
Qed.

Lemma parser_bare_object : ResponseParser.jsonText raw = object.
Proof.
  unfold ResponseParser.jsonText, raw, object.
  rewrite (match_braces_app l _ (blank_without "{" l eq_refl blank_before)).
  rewrite (upto_last_brace_app m r (blank_without "}" r eq_refl blank_after)).
  reflexivity.
Qed.

Lemma validator_bare_object :
  Bounds.without Bounds.backtick m = true ->
  ResponseValidator.jsonText raw = Normal object.
Proof.
  intros Hm. unfold ResponseValidator.jsonText. rewrite trim_bare_object.
  assert (Bounds.without Bounds.backtick object = true) as Hobject.
  { unfold object. simpl. rewrite without_append, Hm. reflexivity. }
  change ResponseValidator.json_fence with (String Bounds.backtick "``json").
  change ResponseValidator.fence with (String Bounds.backtick "``").
  rewrite !includes_without by exact Hobject. reflexivity.
Qed.

End BareObject.

(** X15.  On a reply that is one object, from an opening brace to a closing
    brace with nothing but white space around it and no backtick inside,
    the two extractions give the same text, the object without the white
    space, and so [parseAndValidateResponse] of response-parser.js and of
    the validator class return the same analysis. *)
Theorem parsers_agree_on_bare_object {platform : Platform}
  (l m r originalTranscript : string) :
  Bounds.blank l = true ->
  Bounds.blank r = true ->
  Bounds.without Bounds.backtick m = true ->
  ResponseValidator.jsonText (l ++ String "{" (m ++ String "}" r))%string
    = Normal (ResponseParser.jsonText (l ++ String "{" (m ++ String "}" r))%string) /\
  ResponseParser.jsonText (l ++ String "{" (m ++ String "}" r))%string
    = String "{" (m ++ String "}" "")%string /\
  ResponseValidator.parseAndValidateResponse
    (l ++ String "{" (m ++ String "}" r))%string originalTranscript
  = ResponseParser.parseAndValidateResponse
      (l ++ String "{" (m ++ String "}" r))%string originalTranscript.
Proof.
  intros Hl Hr Hm.
  unfold ResponseValidator.parseAndValidateResponse, ResponseParser.parseAndValidateResponse.
  rewrite (validator_bare_object l m r Hl Hr Hm), (parser_bare_object l m r Hl Hr).
  repeat split.
Qed.

Lemma parsers_agree_on_bare_object_witness :
  ResponseValidator.parseAndValidateResponse (platform := Examples.reference_platform)
    (" " ++ String "{" (JSON.quoted "'highlights':[]" ++ String "}" "  "))%string
    Examples.transcript
  = ResponseParser.parseAndValidateResponse (platform := Examples.reference_platform)
      (" " ++ String "{" (JSON.quoted "'highlights':[]" ++ String "}" "  "))%string
    Examples.transcript.
Proof.
  apply (parsers_agree_on_bare_object (platform := Examples.reference_platform)
           " " (JSON.quoted "'highlights':[]") "  " Examples.transcript); reflexivity.
Defined.
